(** * Gemini Multimodal Artifact Chat: response orchestration and OCR pipeline

    A shallow embedding of the orchestration code of the chat client
    (services/geminiService.ts, the reasoning-provider service, utils/file.ts
    and the send handler of App.tsx) together with the properties its
    specification states about it.

    JavaScript strings are sequences of UTF-16 code units; they are modelled
    as lists of code units.  Remote providers and the browser's image
    machinery are an explicit environment; every provider call and every
    console message is recorded in a trace. *)

From Stdlib Require Import List NArith ZArith QArith Qround Qabs Qminmax Bool Lia Lqa.
From Stdlib Require Import Strings.String Strings.Byte Strings.Ascii.
From Stdlib Require Decimal DecimalString.
Import ListNotations.

Set Implicit Arguments.

(* ================================================================= *)
(** ** JavaScript strings *)

Module JsString.

Local Open Scope N_scope.

(** A string is its sequence of UTF-16 code units. *)
Definition jsstring : Type := list N.

(** *** Literals

    Source literals are written as UTF-8 text and decoded to code units. *)

Definition cont (b : N) : N := N.land b 63.

Fixpoint utf8_decode (bs : list N) : list N :=
  match bs with
  | [] => []
  | b0 :: r0 =>
      if b0 <? 128 then b0 :: utf8_decode r0
      else if b0 <? 224 then
        match r0 with
        | b1 :: r1 => (N.land b0 31 * 64 + cont b1) :: utf8_decode r1
        | [] => [b0]
        end
      else if b0 <? 240 then
        match r0 with
        | b1 :: b2 :: r2 =>
            (N.land b0 15 * 4096 + cont b1 * 64 + cont b2) :: utf8_decode r2
        | _ => [b0]
        end
      else
        match r0 with
        | b1 :: b2 :: b3 :: r3 =>
            (N.land b0 7 * 262144 + cont b1 * 4096 + cont b2 * 64 + cont b3)
              :: utf8_decode r3
        | _ => [b0]
        end
  end.

Definition utf16_units (cp : N) : list N :=
  if cp <? 65536 then [cp]
  else [55296 + (cp - 65536) / 1024; 56320 + (cp - 65536) mod 1024].

Definition js (s : string) : jsstring :=
  flat_map utf16_units
    (utf8_decode (List.map Byte.to_N (list_byte_of_string s))).

(** The double quote cannot be written inside a literal. *)
Definition dquote : jsstring := [34].
Definition newline : jsstring := [10].

(** [String(n)] for a non-negative integer. *)
Definition decimal (n : N) : jsstring :=
  js (DecimalString.NilEmpty.string_of_uint (N.to_uint n)).

(** *** Comparison *)

Fixpoint eqb (s t : jsstring) : bool :=
  match s, t with
  | [], [] => true
  | c :: s', d :: t' => (c =? d) && eqb s' t'
  | _, _ => false
  end.

(** *** [startsWith], [endsWith], [includes] *)

Fixpoint startsWith (s p : jsstring) : bool :=
  match p, s with
  | [], _ => true
  | d :: p', c :: s' => (c =? d) && startsWith s' p'
  | _ :: _, [] => false
  end.

Definition endsWith (s p : jsstring) : bool := startsWith (rev s) (rev p).

Fixpoint includes (s sub : jsstring) : bool :=
  startsWith s sub ||
  match s with
  | [] => false
  | _ :: s' => includes s' sub
  end.

(** *** [trim]

    White space and line terminators of ECMAScript. *)
Definition isWhiteSpace (c : N) : bool :=
  (c =? 9) || (c =? 10) || (c =? 11) || (c =? 12) || (c =? 13) || (c =? 32)
  || (c =? 160) || (c =? 5760) || ((8192 <=? c) && (c <=? 8202))
  || (c =? 8232) || (c =? 8233) || (c =? 8239) || (c =? 8287)
  || (c =? 12288) || (c =? 65279).

Fixpoint trimStart (s : jsstring) : jsstring :=
  match s with
  | c :: s' => if isWhiteSpace c then trimStart s' else s
  | [] => []
  end.

Definition trimEnd (s : jsstring) : jsstring := rev (trimStart (rev s)).

Definition trim (s : jsstring) : jsstring := trimEnd (trimStart s).

(** *** [split] and [join] for a separator of one code unit *)

Fixpoint split (sep : N) (s : jsstring) : list jsstring :=
  match s with
  | [] => [[]]
  | c :: s' =>
      if c =? sep then [] :: split sep s'
      else
        match split sep s' with
        | w :: ws => (c :: w) :: ws
        | [] => [[c]]
        end
  end.

Fixpoint join (sep : jsstring) (ws : list jsstring) : jsstring :=
  match ws with
  | [] => []
  | [w] => w
  | w :: ws' => w ++ sep ++ join sep ws'
  end.

(** [s.substring(0, n)] and [a.slice(0, n)]. *)
Definition substring0 (n : nat) (s : jsstring) : jsstring := firstn n s.
Definition slice0 {A : Type} (n : nat) (a : list A) : list A := firstn n a.

(** [a.slice(-n)]: the last [n] elements. *)
Definition sliceLast {A : Type} (n : nat) (a : list A) : list A :=
  skipn (List.length a - n) a.

(** Global removal of one code unit, as in the replace that strips the
    double quotes from a title. *)
Definition removeAll (c : N) (s : jsstring) : jsstring :=
  filter (fun d => negb (d =? c)) s.

(** Truthiness of a string value. *)
Definition truthy (s : jsstring) : bool :=
  match s with [] => false | _ => true end.

(** [/[ሀ-፿]/.test(s)]: some code unit in the Ethiopic block. *)
Definition isEthiopic (c : N) : bool := (4608 <=? c) && (c <=? 4991).
Definition hasEthiopic (s : jsstring) : bool := existsb isEthiopic s.

End JsString.

Import JsString.

(* ================================================================= *)
(** ** Offline Amharic corrections (services/geminiService.ts) *)

Module Corrections.

Local Open Scope N_scope.

(** The two shapes of regular expression of the table: [/c/g] and
    [/c([k1k2...])/g], a literal followed by a captured character class. *)
Inductive Pattern : Type :=
| PChar (c : N)
| PCharClass (c : N) (cls : list N).

Definition inClass (cls : list N) (c : N) : bool := existsb (N.eqb c) cls.

(** Expansion of a replacement string: [$1] is the first capture when the
    pattern has one, and literal text otherwise. *)
Fixpoint expand (group : option jsstring) (repl : jsstring) : jsstring :=
  match repl with
  | [] => []
  | c :: tl =>
      match group, tl with
      | Some g, d :: rest =>
          if (c =? 36) && (d =? 49) then g ++ expand group rest
          else c :: expand group tl
      | _, _ => c :: expand group tl
      end
  end.

(** [s.replace(pattern, repl)] with the global flag: matches are found left to
    right and do not overlap. *)
Fixpoint replaceChar (a : N) (repl : jsstring) (s : jsstring) : jsstring :=
  match s with
  | [] => []
  | c :: s' =>
      if c =? a then expand None repl ++ replaceChar a repl s'
      else c :: replaceChar a repl s'
  end.

Fixpoint replaceCharClass (a : N) (cls : list N) (repl : jsstring)
    (s : jsstring) : jsstring :=
  match s with
  | [] => []
  | c :: tl =>
      match tl with
      | d :: rest =>
          if (c =? a) && inClass cls d
          then expand (Some [d]) repl ++ replaceCharClass a cls repl rest
          else c :: replaceCharClass a cls repl tl
      | [] => [c]
      end
  end.

Definition replace (p : Pattern) (repl : jsstring) (s : jsstring) : jsstring :=
  match p with
  | PChar a => replaceChar a repl s
  | PCharClass a cls => replaceCharClass a cls repl s
  end.

Definition corrections : list (Pattern * jsstring) :=
  [ (PChar 4640 (* U+1220 *), js "ሰ");
    (PChar 4771 (* U+12A3 *), js "አ");
    (PChar 4611 (* U+1203 *), js "ሀ");
    (PChar 4775 (* U+12A7 *), js "እ");
    (PCharClass 4672 (* U+1240 *) (js "ይዩየዮዪዒ"), js "ቅ$1") ].

Definition applyOfflineAmharicCorrections (text : jsstring) : jsstring :=
  fold_left (fun corrected rule => replace (fst rule) (snd rule) corrected)
    corrections text.

End Corrections.

Import Corrections.

(* ================================================================= *)
(** ** Runtime model: thrown values, providers, trace *)

Module Runtime.

(** A value raised by [throw] or a rejected promise, as far as the error
    handlers tell values apart: an [Error] instance with its message, another
    object (with its JSON rendering), or anything else. *)
Inductive Thrown : Type :=
| ErrorObj (message : jsstring)
| ObjectVal (stringified : jsstring)
| OtherVal.

Inductive JsResult (A : Type) : Type :=
| Ok (a : A)
| Threw (e : Thrown).

Arguments Ok {A} a.
Arguments Threw {A} e.

Definition isOk {A : Type} (r : JsResult A) : bool :=
  match r with Ok _ => true | Threw _ => false end.

(** [{ mimeType, data }] *)
Record Image : Type := mkImage { mimeType : jsstring; data : jsstring }.

(** *** The multimodal provider (GoogleGenAI [models.generateContent]) *)

Inductive Part : Type :=
| TextPart (text : jsstring)
| InlineData (mime : jsstring) (payload : jsstring).

Record GenConfig : Type := mkGenConfig {
  systemInstruction : option jsstring;
  responseMimeType : option jsstring;
  responseSchema : bool;   (* the two-field schema is attached *)
  temperature : Q;
  stopSequences : list jsstring
}.

Record GenRequest : Type := mkGenRequest {
  gr_model : jsstring;
  gr_parts : list Part;
  gr_config : GenConfig
}.

(** What the callers read of a response: [response.text] and
    [response.candidates?.[0]?.finishReason]. *)
Record GenResponse : Type := mkGenResponse {
  resp_text : option jsstring;
  resp_finishReason : option jsstring
}.

(** *** The reasoning providers (chat completions over [fetch]) *)

Inductive ChatRole : Type := RSystem | RUser | RAssistant.

Record DeepSeekMessage : Type := mkMsg { role : ChatRole; content : jsstring }.

Record FetchRequest : Type := mkFetchRequest {
  fr_url : jsstring;
  fr_bearer : jsstring;
  fr_model : jsstring;
  fr_messages : list DeepSeekMessage;
  fr_temperature : Q;
  fr_max_tokens : N;
  fr_top_p : Q;
  fr_frequency_penalty : Q;
  fr_stream : bool
}.

(** The body of a reply as the client reads it: [choices[i].message.content]
    of a completion, [error.message] of an error payload. *)
Record JsonBody : Type := mkBody {
  choices : option (list jsstring);
  error_message : option jsstring
}.

Record FetchResponse : Type := mkFetchResponse {
  status : N;
  json : JsResult JsonBody
}.

(** [response.ok]: the status is in the range 200-299. *)
Definition ok (r : FetchResponse) : bool :=
  ((200 <=? status r) && (status r <=? 299))%N.

(** *** Trace *)

Inductive Level : Type := LLog | LWarn | LError.

(** Every provider call is recorded with its reply, every console call with
    its first argument. *)
Inductive Event : Type :=
| EvDeepSeek (req : FetchRequest) (reply : JsResult FetchResponse)
| EvOpenRouter (req : FetchRequest) (reply : JsResult FetchResponse)
| EvGenerateContent (req : GenRequest) (reply : JsResult GenResponse)
| EvConsole (level : Level) (label : jsstring).

Definition Trace : Type := list Event.

Definition isDeepSeekCall (e : Event) : bool :=
  match e with EvDeepSeek _ _ => true | _ => false end.
Definition isOpenRouterCall (e : Event) : bool :=
  match e with EvOpenRouter _ _ => true | _ => false end.
Definition isReasoningCall (e : Event) : bool :=
  isDeepSeekCall e || isOpenRouterCall e.
Definition isGenerateContentCall (e : Event) : bool :=
  match e with EvGenerateContent _ _ => true | _ => false end.
Definition isProviderCall (e : Event) : bool :=
  isReasoningCall e || isGenerateContentCall e.
Definition isConsole (e : Event) : bool :=
  match e with EvConsole _ _ => true | _ => false end.

(** The remote services.  A reply may depend on everything that happened
    before the call. *)
Record Remote : Type := mkRemote {
  fetchDeepSeek : Trace -> FetchRequest -> JsResult FetchResponse;
  fetchOpenRouter : Trace -> FetchRequest -> JsResult FetchResponse;
  generateContent : Trace -> GenRequest -> JsResult GenResponse
}.

(** The two fields of the structured reply; [None] is an absent (or null)
    field. *)
Record ParsedReply : Type := mkParsed {
  p_chatResponse : option jsstring;
  p_artifactContent : option jsstring
}.

(** Built-ins of the JavaScript host that are taken as given:
    [String.prototype.toLowerCase] and [JSON.parse] at the reply type. *)
Record Host : Type := mkHost {
  toLowerCase : jsstring -> jsstring;
  JSON_parse : jsstring -> JsResult ParsedReply
}.

(** *** Computations: a trace-passing monad with exceptions *)

Definition M (A : Type) : Type := Trace -> JsResult A * Trace.

Definition ret {A : Type} (a : A) : M A := fun t => (Ok a, t).

Definition throw {A : Type} (e : Thrown) : M A := fun t => (Threw e, t).

Definition bind {A B : Type} (m : M A) (k : A -> M B) : M B :=
  fun t =>
    match m t with
    | (Ok a, t') => k a t'
    | (Threw e, t') => (Threw e, t')
    end.

(** [try { m } catch (error) { handler }] *)
Definition tryCatch {A : Type} (m : M A) (handler : Thrown -> M A) : M A :=
  fun t =>
    match m t with
    | (Ok a, t') => (Ok a, t')
    | (Threw e, t') => handler e t'
    end.

Definition lift {A : Type} (r : JsResult A) : M A := fun t => (r, t).

Definition emit (e : Event) : M unit := fun t => (Ok tt, t ++ [e]).

Definition console (l : Level) (label : jsstring) : M unit :=
  emit (EvConsole l label).

Definition callDeepSeek (remote : Remote) (req : FetchRequest)
  : M FetchResponse :=
  fun t => let r := fetchDeepSeek remote t req in (r, t ++ [EvDeepSeek req r]).

Definition callOpenRouter (remote : Remote) (req : FetchRequest)
  : M FetchResponse :=
  fun t =>
    let r := fetchOpenRouter remote t req in (r, t ++ [EvOpenRouter req r]).

Definition callGenerateContent (remote : Remote) (req : GenRequest)
  : M GenResponse :=
  fun t =>
    let r := generateContent remote t req in
    (r, t ++ [EvGenerateContent req r]).

(** *** Promises that may stay pending

    A promise is resolved, rejected, or never settled; an [await] on a
    promise that is never settled does not return.  An [Async] computation
    ends in such a promise. *)
Inductive Promise (A : Type) : Type :=
| Settled (r : JsResult A)
| Pending.

Arguments Settled {A} r.
Arguments Pending {A}.

Coercion Settled : JsResult >-> Promise.

Definition Async (A : Type) : Type := Trace -> Promise A * Trace.

(** A computation that settles, with its result. *)
Definition settling {A : Type} (m : M A) : Async A :=
  fun t => let (r, t') := m t in (Settled r, t').

(** An existing promise. *)
Definition promise {A : Type} (p : Promise A) : Async A := fun t => (p, t).

(** [const x = await m; k x] *)
Definition awaitThen {A B : Type} (m : Async A) (k : A -> Async B) : Async B :=
  fun t =>
    match m t with
    | (Settled (Ok a), t') => k a t'
    | (Settled (Threw e), t') => (Settled (Threw e), t')
    | (Pending, t') => (Pending, t')
    end.

(** [try { m } catch (error) { handler }] around awaited promises: a promise
    that is never settled is not caught. *)
Definition tryCatchAsync {A : Type} (m : Async A) (handler : Thrown -> Async A)
  : Async A :=
  fun t =>
    match m t with
    | (Settled (Ok a), t') => (Settled (Ok a), t')
    | (Settled (Threw e), t') => handler e t'
    | (Pending, t') => (Pending, t')
    end.

(** The promise of [Promise.all] from the promise of the first element and
    that of the others: rejected as soon as one is rejected, resolved with
    all the values when all are resolved, and pending otherwise. *)
Definition joinAll {B : Type} (first : Promise B) (others : Promise (list B))
  : Promise (list B) :=
  match first, others with
  | Settled (Threw e), _ => Settled (Threw e)
  | _, Settled (Threw e) => Settled (Threw e)
  | Settled (Ok y), Settled (Ok ys) => Settled (Ok (y :: ys))
  | _, _ => Pending
  end.

(** [Promise.all(xs.map(f))]: every callback runs, whatever becomes of the
    others. *)
Fixpoint promiseAll {A B : Type} (f : A -> Async B) (xs : list A)
  : Async (list B) :=
  match xs with
  | [] => settling (ret [])
  | x :: xs' =>
      fun t =>
        let (first, t1) := f x t in
        let (others, t2) := promiseAll f xs' t1 in
        (joinAll first others, t2)
  end.

End Runtime.

Import Runtime.

Declare Scope js_scope.
Delimit Scope js_scope with js_m.
Notation "x <- m ;; k" := (bind m (fun x => k))
  (at level 100, m at next level, right associativity) : js_scope.
Notation "m ;;; k" := (bind m (fun _ => k))
  (at level 100, right associativity) : js_scope.

(** The value of an optional string when it is truthy. *)
Definition truthyOpt (o : option jsstring) : option jsstring :=
  match o with
  | Some s => if truthy s then Some s else None
  | None => None
  end.

(* ================================================================= *)
(** ** Image machinery of the browser *)

Module Imaging.

(** Pixel contents are kept symbolic: a decoded source, a scaled drawing of
    another bitmap, and the contrast loop of the OCR enhancer (grey level by
    the weights 0.299/0.587/0.114, gamma 0.8, a shift of 20 away from the
    threshold 140), whose pixel values are not modelled. *)
Inductive Pixels : Type :=
| Decoded (src : jsstring)
| Drawn (p : Pixels) (w h : N)
| ContrastEnhanced (p : Pixels).

Record Canvas : Type := mkCanvas {
  cv_width : N;
  cv_height : N;
  cv_pixels : Pixels
}.

(** Binary64 arithmetic: [fl] rounds the exact result of an operation to the
    nearest double.  Rounding is monotone, it leaves half integers [n/2] with
    [|n| <= 2^53] unchanged, and its relative error is at most 2^-53 (stated
    here for magnitudes between 2^-64 and 2^64, well inside the normal
    range). *)
Record FloatModel : Type := mkFloatModel {
  fl : Q -> Q;
  fl_proper : forall x y, x == y -> fl x == fl y;
  fl_monotone : forall x y, x <= y -> fl x <= fl y;
  fl_exact : forall n : Z,
      (Z.abs n <= 2 ^ 53)%Z -> fl (n # 2) == n # 2;
  fl_error : forall x,
      1 # (2 ^ 64) <= x -> x <= (2 ^ 64 # 1) ->
      Qabs (fl x - x) <= x * (1 # 2 ^ 53)
}.

Record Browser : Type := mkBrowser {
  float : FloatModel;
  (** [img.onload] with the natural width and height, or [img.onerror]. *)
  loadImage : jsstring -> JsResult (N * N);
  (** Whether [getContext('2d')] of a canvas of this size returns a context. *)
  getContext2d : N -> N -> bool;
  (** The base64 payload of [canvas.toDataURL(type, quality)]; [None] when
      the canvas cannot be serialised and the URL is the bare [data:,]. *)
  encode : Canvas -> jsstring -> option jsstring
}.

Definition toDataURL (b : Browser) (c : Canvas) (type : jsstring) : jsstring :=
  match encode b c type with
  | Some payload => js "data:" ++ type ++ js ";base64," ++ payload
  | None => js "data:,"
  end.

(** [Math.round] on a double: the nearest integer, ties upwards. *)
Definition Math_round (x : Q) : Z := Qfloor (x + (1 # 2)).

(** A rounded size stored into [canvas.width] or [canvas.height]. *)
Definition pixels (x : Q) : N := Z.to_N (Math_round x).

(** [a / b] on non-negative integers; [None] is [+Infinity]. *)
Definition jsdiv (F : FloatModel) (a b : N) : option Q :=
  if (b =? 0)%N then None
  else Some (fl F (inject_Z (Z.of_N a) / inject_Z (Z.of_N b))).

Definition minInf (x : option Q) (y : Q) : Q :=
  match x with
  | None => y
  | Some q => Qmin q y
  end.

(** [Math.min(a, b, 2)] *)
Definition Math_min3 (a b : option Q) (c : Q) : Q := minInf a (minInf b c).

Definition jsmul (F : FloatModel) (a : N) (s : Q) : Q :=
  fl F (inject_Z (Z.of_N a) * s).

End Imaging.

Import Imaging.

(* ================================================================= *)
(** ** services/geminiService.ts *)

Module GeminiService.

Local Open Scope js_scope.
Local Open Scope string_scope.
Local Open Scope list_scope.

(** [{ chatResponse, artifactContent }] *)
Record GenerationResult : Type := mkResult {
  chatResponse : jsstring;
  artifactContent : jsstring
}.

(** The instruction of [generateTitleFromContent]. *)
Definition titleInstruction : jsstring :=
  js "Generate a very short, concise title (5 words or less) for the following user prompt. The title should be plain text, without any special formatting or quotation marks. If an image is provided, incorporate a brief description of the image into the title.".

(** The extraction prompt of [performOcr]. *)
Definition ocrPrompt (imageCount : nat) : jsstring :=
  js "EXTRACT COMPLETE CATHOLIC CATECHISM CONTENT from these "
  ++ decimal (N.of_nat imageCount)
  ++ js " images. Extract EVERYTHING: titles, descriptions, and hierarchical table.

**DOCUMENT:** "
  ++ dquote
  ++ js "የካቶሊክ ቤተ ክርስቲያን ትምህርት ማጠቃለያ"
  ++ dquote
  ++ js " (Compendium of Catholic Catechism)

**COMPLETE EXTRACTION REQUIRED:**

1. **DOCUMENT HEADER** - Extract title, subtitle, and any description text at the top
2. **TABLE OF CONTENTS** - Extract complete hierarchical structure:
   - **MAIN PARTS** (ክፍል) - Highest level sections 
   - **CHAPTERS** (ምዕራፍ) - Mid-level chapters
   - **TOPICS** - Individual doctrine topics with page numbers

**CRITICAL SCANNING:**
- Read EVERY line of text from top to bottom
- Don't skip headers, titles, or descriptions  
- Identify actual hierarchy levels: main parts (ክፍል), chapters (ምዕራፍ), and individual topics
- Extract real topic names, not generic repeated phrases
- Include EVERY page number reference
- Preserve exact Amharic text and formatting
- Look for actual content structure, not just keywords

**OUTPUT FORMAT:**
First show the document header/title information, then the complete table:

**Document Title & Description:**
[Extract any title, subtitle, and description text here]

**Complete Table of Contents:**
| Level | Content (ክፍል/ምዕራፍ/ርዕስ) | Page (ገጽ) |
|---|---|---|
| Part | [Main section name] | |
| Chapter | [Chapter name] | |
| Topic | [Individual topic] | [page] |

**SCAN ALL "
  ++ decimal (N.of_nat imageCount)
  ++ js " IMAGES COMPLETELY - MISS NOTHING:**".

(** The prompt of [organizeExtractedContent]. *)
Definition organizationPrompt (rawText : jsstring) (imageCount : nat) : jsstring :=
  js "Organize this Catholic Catechism content from "
  ++ decimal (N.of_nat imageCount)
  ++ js " pages - include TITLE, DESCRIPTION, and complete table:

**DOCUMENT:** "
  ++ dquote
  ++ js "Compendium of the Catechism of the Catholic Church"
  ++ dquote
  ++ js " - Amharic Translation

**ORGANIZATION REQUIREMENTS:**
1. **PRESERVE DOCUMENT HEADER** - Include title, subtitle, and description text
2. **HIERARCHICAL STRUCTURE** - Maintain proper levels (ክፍል → ምዕራፍ → topics)  
3. **COMPLETE CONTENT** - Don't skip any sections or page references
4. **CLEAN FORMATTING** - Use proper markdown tables and headers

**EXPECTED CONTENT TYPES:**
- Document title and description (ማውጫ)
- Main parts and chapter divisions (ክፍል፣ ምዕራፍ)
- Catholic doctrine topics (ትምህርት)
- Faith, Hope, Charity sections (እምነት፣ ተስፋ፣ ፍቅር)
- Prayer and sacrament topics (ጸሎት፣ ቅዱስ ሥርዓት)
- Page numbers and references

**OUTPUT FORMAT:**
Create a readable hierarchy using nested headings and lists, NOT a table:

# [Document Title in Amharic]
## [Document Description/Subtitle]

## ክፍል አንድ: [Main Part Name]

### ምዕራፍ አንድ: [Chapter Name]
- [Full Topic Title] - ገጽ [page]
- [Full Topic Title] - ገጽ [page]
- [Full Topic Title] - ገጽ [page]

### ምዕራፍ ሁለት: [Chapter Name]  
- [Full Topic Title] - ገጽ [page]
- [Full Topic Title] - ገጽ [page]

## ክፍል ሁለት: [Main Part Name]

### ምዕራፍ አንድ: [Chapter Name]
- [Full Topic Title] - ገጽ [page]
- [Full Topic Title] - ገጽ [page]

**HIERARCHY RULES:**
- Use # for document title
- Use ## for main parts (ክፍል)  
- Use ### for chapters (ምዕራፍ)
- Use bullet points (-) for individual topics
- Show page numbers with dash: "
  ++ dquote
  ++ js "Full Topic Title - ገጽ 123"
  ++ dquote
  ++ js "
- NO duplicate titles - each topic appears only once
- Use complete topic names, not abbreviated
- Clear visual hierarchy that's easy to read

**Raw extracted text:**
"
  ++ rawText
  ++ js "

**Complete Organized Catholic Catechism:**".

Definition flashModel : jsstring := js "gemini-1.5-flash-latest".

Section Service.

Context (host : Host) (remote : Remote) (browser : Browser).

(** The [errorMessage] that [handleApiError] computes. *)
Definition errorMessageFor (error : Thrown) (operation : jsstring) : jsstring :=
  match error with
  | ErrorObj message =>
      let lowerCaseMessage := toLowerCase host message in
      if includes lowerCaseMessage (js "xhr error")
         || includes lowerCaseMessage (js "rpc failed")
         || includes lowerCaseMessage (js "500")
      then js "The " ++ operation
           ++ js " failed due to a network issue or an overly large request. Please try again, perhaps with fewer or smaller images."
      else js "The " ++ operation ++ js " failed: " ++ message
  | ObjectVal stringified =>
      js "The " ++ operation ++ js " failed with an unexpected error: "
      ++ stringified
  | OtherVal =>
      js "An unknown error occurred during the " ++ operation ++ js "."
  end.

Definition handleApiError (error : Thrown) (operation : jsstring) : M Thrown :=
  console LError (js "Error during Gemini API " ++ operation ++ js ":") ;;;
  ret (ErrorObj (errorMessageFor error operation)).

Definition rethrow {A : Type} (operation : jsstring) (error : Thrown) : M A :=
  e <- handleApiError error operation ;; throw e.

Definition chatParts (prompt previousArtifact : jsstring)
    (images : option (list Image)) : list Part :=
  let imageParts :=
    List.map (fun image => InlineData (mimeType image) (data image))
      (match images with Some l => l | None => [] end) in
  let textParts :=
    [ TextPart (js "User Prompt: " ++ dquote ++ prompt ++ dquote);
      TextPart (js "Previous Artifact Content: ```" ++ newline
                ++ previousArtifact ++ newline ++ js "```") ] in
  imageParts ++ textParts.

Definition chatRequest (prompt previousArtifact model instruction : jsstring)
    (images : option (list Image)) : GenRequest :=
  {| gr_model := model;
     gr_parts := chatParts prompt previousArtifact images;
     gr_config := {| systemInstruction := Some instruction;
                     responseMimeType := Some (js "application/json");
                     responseSchema := true;
                     temperature := 7 # 10;
                     stopSequences := [] |} |}.

Definition defaultChatResponse : jsstring :=
  js "I'm not sure how to respond to that, but here's the artifact.".

Definition generateResponse (prompt previousArtifact model instruction : jsstring)
    (images : option (list Image)) : M GenerationResult :=
  tryCatch
    (response <- callGenerateContent remote
                   (chatRequest prompt previousArtifact model instruction images) ;;
     match truthyOpt (resp_text response) with
     | None =>
         console LError (js "Error generating response: API returned no text.") ;;;
         throw (ErrorObj (js "Received an empty or invalid response from the API."))
     | Some text =>
         let jsonString := trim text in
         if negb (startsWith jsonString (js "{"))
            || negb (endsWith jsonString (js "}"))
         then throw (ErrorObj (js "Received a non-JSON response from the API."))
         else
           parsed <- lift (JSON_parse host jsonString) ;;
           ret {| chatResponse :=
                    match p_chatResponse parsed with
                    | Some c => c
                    | None => defaultChatResponse
                    end;
                  artifactContent :=
                    match p_artifactContent parsed with
                    | Some a => a
                    | None => previousArtifact
                    end |}
     end)
    (rethrow (js "Chat Response")).

Definition titleRequest (prompt : jsstring) (image : option Image)
  : GenRequest :=
  {| gr_model := flashModel;
     gr_parts :=
       [ TextPart titleInstruction;
         TextPart (js "User Prompt: " ++ dquote ++ prompt ++ dquote) ]
       ++ match image with
          | Some im => [InlineData (mimeType im) (data im)]
          | None => []
          end;
     gr_config := {| systemInstruction := None;
                     responseMimeType := None;
                     responseSchema := false;
                     temperature := 1 # 10;
                     stopSequences := [newline] |} |}.

(** The handler of the [catch] block of [generateTitleFromContent]. *)
Definition titleFallback (prompt : jsstring) : jsstring :=
  let words := split 32 prompt in
  if (5 <? List.length words)%nat
  then join (js " ") (slice0 5 words) ++ js "..."
  else prompt.

Definition generateTitleFromContent (prompt : jsstring) (image : option Image)
  : M jsstring :=
  tryCatch
    (response <- callGenerateContent remote (titleRequest prompt image) ;;
     match truthyOpt (resp_text response) with
     | None => ret (substring0 30 prompt)
     | Some titleText =>
         let title := removeAll 34 (trim titleText) in
         let title :=
           if (50 <? List.length title)%nat
           then substring0 47 title ++ js "..."
           else title in
         ret (if truthy title then title else substring0 30 prompt)
     end)
    (fun error =>
       console LError (js "Error generating title with Gemini API:") ;;;
       ret (titleFallback prompt)).

Definition organizeRequest (rawText : jsstring) (imageCount : nat)
  : GenRequest :=
  {| gr_model := flashModel;
     gr_parts := [TextPart (organizationPrompt rawText imageCount)];
     gr_config := {| systemInstruction := None;
                     responseMimeType := None;
                     responseSchema := false;
                     temperature := 1 # 10;
                     stopSequences := [] |} |}.

Definition organizeExtractedContent (rawText : jsstring) (imageCount : nat)
  : M jsstring :=
  tryCatch
    (response <- callGenerateContent remote (organizeRequest rawText imageCount) ;;
     ret match resp_text response with
         | Some text => if truthy (trim text) then trim text else rawText
         | None => rawText
         end)
    (fun error =>
       console LWarn (js "Content organization failed, returning raw text:") ;;;
       ret rawText).

(** The scale factor of [enhanceImageForOcr] and the size of the canvas it
    draws into. *)
Definition ocrScale (width height maxWidth maxHeight : N) : Q :=
  Math_min3 (jsdiv (float browser) maxWidth width)
            (jsdiv (float browser) maxHeight height) 2.

Definition ocrSize (width height maxWidth maxHeight : N) : N * N :=
  let scale := ocrScale width height maxWidth maxHeight in
  (pixels (jsmul (float browser) width scale),
   pixels (jsmul (float browser) height scale)).

(** The promise of [enhanceImageForOcr].  It is rejected when the image does
    not load and when no 2D context is handed out.  The rest of the load
    handler runs outside any [try]: [getImageData] throws (IndexSizeError)
    when the canvas has a side of 0, and the promise is then never
    settled. *)
Definition enhanceImageForOcr (imageDataUrl : jsstring)
    (maxWidth maxHeight : N) : Promise jsstring :=
  match loadImage browser imageDataUrl with
  | Threw error => Settled (Threw error)
  | Ok (width, height) =>
      let '(width', height') := ocrSize width height maxWidth maxHeight in
      if negb (getContext2d browser width' height')
      then Settled (Threw (ErrorObj (js "Could not get canvas context")))
      else if ((width' =? 0) || (height' =? 0))%N
      then Pending
      else
        let canvas :=
          {| cv_width := width';
             cv_height := height';
             cv_pixels :=
               ContrastEnhanced
                 (Drawn (Decoded imageDataUrl) width' height') |} in
        Settled (Ok (toDataURL browser canvas (js "image/png")))
  end.

Definition dataUrlOf (image : Image) : jsstring :=
  js "data:" ++ mimeType image ++ js ";base64," ++ data image.

(** The second component of [processedData.split(',')]. *)
Definition base64Of (processedData : jsstring) : jsstring :=
  nth 1 (split 44 processedData) [].

(** One callback of the [images.map] of [performOcr].  The callbacks touch
    nothing but the console; they are run here in the order of the images. *)
Definition preprocess (image : Image) : Async Image :=
  tryCatchAsync
    (if negb (eqb (mimeType image) (js "image/gif")) then
       awaitThen (promise (enhanceImageForOcr (dataUrlOf image) 2048 2048))
         (fun processedData =>
            settling
              (ret {| mimeType := js "image/png";
                      data := base64Of processedData |}))
     else settling (ret image))
    (fun error =>
       settling
         (console LWarn (js "Image preprocessing failed, using original:") ;;;
          ret image)).

Fixpoint imageParts (total : nat) (index : nat) (images : list Image)
  : list Part :=
  match images with
  | [] => []
  | image :: rest =>
      TextPart (js "--- IMAGE " ++ decimal (N.of_nat (index + 1)) ++ js " OF "
                ++ decimal (N.of_nat total) ++ js " ---")
      :: InlineData (mimeType image) (data image)
      :: imageParts total (S index) rest
  end.

Definition ocrRequest (imageCount : nat) (processedImages : list Image)
  : GenRequest :=
  {| gr_model := flashModel;
     gr_parts := TextPart (ocrPrompt imageCount)
                 :: imageParts imageCount 0 processedImages;
     gr_config := {| systemInstruction := None;
                     responseMimeType := None;
                     responseSchema := false;
                     temperature := 0;
                     stopSequences := [] |} |}.

Definition safetyMessage : jsstring :=
  js "The OCR request was blocked due to safety settings. Please check the input images.".

Definition stoppedMessage (finishReason : jsstring) : jsstring :=
  js "OCR failed. The model stopped for reason: " ++ finishReason ++ js ".".

Definition noTextUnclear : jsstring :=
  js "No text could be extracted from the provided image(s). They may be empty or unclear.".

Definition noText : jsstring :=
  js "No text could be extracted from the provided image(s).".

(** The branch of [performOcr] taken when the reply carries no text. *)
Definition classifyEmpty (finishReason : option jsstring) : M jsstring :=
  console LWarn (js "Gemini API for OCR returned no text.") ;;;
  match finishReason with
  | Some reason =>
      if eqb reason (js "SAFETY") then throw (ErrorObj safetyMessage)
      else if truthy reason && negb (eqb reason (js "STOP"))
      then throw (ErrorObj (stoppedMessage reason))
      else ret noTextUnclear
  | None => ret noTextUnclear
  end.

(** Stages two and three of [performOcr], from the extracted text on. *)
Definition organizeAndCorrect (rawExtractedText : jsstring) (imageCount : nat)
  : M jsstring :=
  let trimmedText := trim rawExtractedText in
  console LLog (js "OCR Raw result:") ;;;
  console LLog (js "OCR Full length:") ;;;
  let hasAmharicText := hasEthiopic trimmedText in
  console LLog (js "Amharic detected:") ;;;
  organizedText <- organizeExtractedContent trimmedText imageCount ;;
  if hasAmharicText then
    console LLog (js "Applying Amharic corrections...") ;;;
    let correctedText := applyOfflineAmharicCorrections organizedText in
    console LLog (js "Correction result:") ;;;
    ret correctedText
  else ret organizedText.

Definition performOcr (images : list Image) : Async jsstring :=
  tryCatchAsync
    (awaitThen (promiseAll preprocess images)
       (fun processedImages =>
          settling
            (console LLog (js "Processing " ++ decimal (N.of_nat (List.length images))
                           ++ js " images for OCR...") ;;;
             ocrResponse <- callGenerateContent remote
                              (ocrRequest (List.length images) processedImages) ;;
             match truthyOpt (resp_text ocrResponse) with
             | None => classifyEmpty (resp_finishReason ocrResponse)
             | Some rawExtractedText =>
                 if eqb (toLowerCase host (trim rawExtractedText))
                      (js "no text found.")
                 then ret noText
                 else organizeAndCorrect rawExtractedText (List.length images)
             end)))
    (fun error => settling (rethrow (js "OCR Operation") error)).

End Service.

End GeminiService.

Import GeminiService.

(* ================================================================= *)
(** ** The reasoning-provider service (DeepSeek, OpenRouter) *)

Module ReasoningService.

Local Open Scope js_scope.
Local Open Scope string_scope.
Local Open Scope list_scope.

(** The environment variables read when the module loads.  The module
    refuses to load when neither key is set. *)
Record Config : Type := mkConfig {
  DEEPSEEK_API_KEY : option jsstring;
  DEEPSEEK_API_URL_env : option jsstring;
  OPENROUTER_API_KEY : option jsstring;
  OPENROUTER_API_URL_env : option jsstring
}.

Definition orDefault (o : option jsstring) (d : jsstring) : jsstring :=
  match truthyOpt o with Some s => s | None => d end.

Definition DEEPSEEK_API_URL (cfg : Config) : jsstring :=
  orDefault (DEEPSEEK_API_URL_env cfg)
    (js "https://api.deepseek.com/chat/completions").

Definition OPENROUTER_API_URL (cfg : Config) : jsstring :=
  orDefault (OPENROUTER_API_URL_env cfg)
    (js "https://openrouter.ai/api/v1/chat/completions").

Definition moduleLoads (cfg : Config) : bool :=
  match truthyOpt (DEEPSEEK_API_KEY cfg), truthyOpt (OPENROUTER_API_KEY cfg) with
  | None, None => false
  | _, _ => true
  end.

(** An entry of the conversation history: [{ role, text }]. *)
Record HistoryEntry : Type := mkEntry { h_role : jsstring; h_text : jsstring }.

(** The fixed opening of the system prompt of [generateDeepSeekResponse]. *)
Definition systemPromptHead : jsstring :=
  js "You are an intelligent conversational AI with deep expertise in Amharic language and Ethiopian culture. You understand context, remember previous conversations, and provide thoughtful, relevant responses.

**CORE INTELLIGENCE:**
- Advanced natural language understanding in Amharic (አማርኛ) and English
- Contextual awareness of ongoing conversations
- Memory of previously discussed topics and documents
- Intelligent reasoning about complex religious and cultural concepts
- Adaptive communication style based on user preferences

**AMHARIC & CATHOLIC EXPERTISE:**
- Native-level Amharic grammar, vocabulary, and cultural nuances
- Catholic church terminology and doctrine in Amharic context
- Catholic liturgy, traditions, and teaching methods
- Cultural sensitivity for Ethiopian Catholic community
- Ability to explain complex Catholic theological concepts clearly

**CONVERSATION INTELLIGENCE:**
- Remember what was discussed earlier in the conversation
- Build upon previous topics and maintain context continuity
- Provide relevant follow-up questions and suggestions
- Adapt explanation depth based on user's apparent knowledge level
- Recognize when clarification or examples would be helpful

".

(** The document section of the system prompt, present when extracted content is. *)
Definition documentContext (extractedContent : jsstring) : jsstring :=
  newline
  ++ js "**ACTIVE DOCUMENT CONTEXT:**
The user has shared document content (Catholic Catechism table of contents in Amharic):

"
  ++ (if (2000 <? List.length extractedContent)%nat
      then substring0 2000 extractedContent ++ js "...[continued]"
      else extractedContent)
  ++ js "

**INTELLIGENT DOCUMENT ASSISTANCE:**
- This appears to be a Catholic Catechism index with page references
- When users ask about topics, find relevant sections and provide page numbers
- Explain catechism concepts in accessible language
- Help users navigate and understand the structure
- Offer related topics and cross-references when helpful
- Be proactive in suggesting relevant sections based on questions".

(** The fixed closing of the system prompt. *)
Definition systemPromptTail : jsstring :=
  js "

**SMART INTERACTION GUIDELINES:**
- Use the language the user prefers (auto-detect from their input)
- Provide concise but complete answers
- When referencing document content, cite specific page numbers
- Offer follow-up questions or related topics when appropriate
- If unsure about something, acknowledge limitations honestly
- Be conversational and helpful, not robotic

**CULTURAL INTELLIGENCE:**
- Respect both Orthodox and Catholic traditions
- Understand Ethiopian Catholic community context and sensitivities
- Provide culturally appropriate explanations for Ethiopian Catholics
- Use appropriate honorifics and respectful language when discussing Catholic teachings and doctrine".

(** The hint appended to the prompt when a document of more than 100 code units was extracted. *)
Definition contextHint : jsstring :=
  newline
  ++ newline
  ++ js "[CONTEXT: User has previously extracted a Catholic Catechism document in Amharic with table of contents and page references. Use this context to provide relevant, helpful responses.]".

Definition intelligentSystemPrompt (instruction extractedContent : option jsstring)
  : jsstring :=
  systemPromptHead
  ++ orDefault instruction []
  ++ newline ++ newline
  ++ match truthyOpt extractedContent with
     | Some c => documentContext c
     | None => []
     end
  ++ systemPromptTail.

Definition historyMessage (msg : HistoryEntry) : DeepSeekMessage :=
  let content := h_text msg in
  let content :=
    if includes content (js "extracted and enhanced")
       || includes content (js "Amharic/English text")
    then js "[DOCUMENT_EXTRACTED] " ++ content
    else content in
  {| role := if eqb (h_role msg) (js "model") then RAssistant else RUser;
     content := content |}.

Definition enhancedPrompt (prompt : jsstring) (extractedContent : option jsstring)
  : jsstring :=
  match truthyOpt extractedContent with
  | Some c =>
      if (100 <? List.length c)%nat then prompt ++ contextHint else prompt
  | None => prompt
  end.

Definition buildMessages (prompt : jsstring)
    (conversationHistory : list HistoryEntry)
    (extractedContent instruction : option jsstring) : list DeepSeekMessage :=
  [ {| role := RSystem;
       content := intelligentSystemPrompt instruction extractedContent |} ]
  ++ List.map historyMessage (sliceLast 15 conversationHistory)
  ++ [ {| role := RUser; content := enhancedPrompt prompt extractedContent |} ].

Definition completionRequest (url key model : jsstring)
    (messages : list DeepSeekMessage) : FetchRequest :=
  {| fr_url := url;
     fr_bearer := key;
     fr_model := model;
     fr_messages := messages;
     fr_temperature := 4 # 10;
     fr_max_tokens := 4000;
     fr_top_p := 9 # 10;
     fr_frequency_penalty := 1 # 10;
     fr_stream := false |}.

(** [errorData.error?.message || 'Unknown error'], where a body that cannot
    be read counts as the empty object. *)
Definition errorDetail (response : FetchResponse) : jsstring :=
  match json response with
  | Ok body => orDefault (error_message body) (js "Unknown error")
  | Threw _ => js "Unknown error"
  end.

Definition apiErrorMessage (response : FetchResponse) : jsstring :=
  js "DeepSeek API error: " ++ decimal (status response) ++ js " - "
  ++ errorDetail response.

Definition chatFailed (error : Thrown) : Thrown :=
  ErrorObj (js "DeepSeek chat failed: "
            ++ match error with
               | ErrorObj message => message
               | _ => js "Unknown error"
               end).

(** From the final [response] on: status check, body, first choice. *)
Definition readCompletion (response : FetchResponse) : M GenerationResult :=
  if negb (ok response) then throw (ErrorObj (apiErrorMessage response))
  else
    body <- lift (json response) ;;
    match choices body with
    | Some (first :: _) =>
        ret {| chatResponse := first; artifactContent := [] |}
    | _ => throw (ErrorObj (js "No response from DeepSeek API"))
    end.

Section Service.

Context (host : Host) (remote : Remote) (cfg : Config).

Definition tryDeepSeek (messages : list DeepSeekMessage)
  : M (option FetchResponse) :=
  match truthyOpt (DEEPSEEK_API_KEY cfg) with
  | Some key =>
      tryCatch
        (r <- callDeepSeek remote
                (completionRequest (DEEPSEEK_API_URL cfg) key
                   (js "deepseek-chat") messages) ;;
         ret (Some r))
        (fun error =>
           console LWarn (js "DeepSeek failed, trying OpenRouter:") ;;;
           ret None)
  | None => ret None
  end.

Definition openRouter (messages : list DeepSeekMessage) : M FetchResponse :=
  match truthyOpt (OPENROUTER_API_KEY cfg) with
  | None => throw (ErrorObj (js "Both DeepSeek and OpenRouter unavailable"))
  | Some key =>
      callOpenRouter remote
        (completionRequest (OPENROUTER_API_URL cfg) key
           (js "deepseek/deepseek-chat") messages)
  end.

(** [if (!response || !response.ok) { ... }] *)
Definition orOpenRouter (messages : list DeepSeekMessage)
    (response : option FetchResponse) : M FetchResponse :=
  match response with
  | None => openRouter messages
  | Some r => if negb (ok r) then openRouter messages else ret r
  end.

Definition generateDeepSeekResponse (prompt : jsstring)
    (conversationHistory : list HistoryEntry)
    (extractedContent instruction : option jsstring) : M GenerationResult :=
  tryCatch
    (let messages :=
       buildMessages prompt conversationHistory extractedContent instruction in
     response <- tryDeepSeek messages ;;
     response <- orOpenRouter messages response ;;
     readCompletion response)
    (fun error =>
       console LError (js "DeepSeek API Error:") ;;;
       throw (chatFailed error)).

Definition intentKeywords : list jsstring :=
  [ js "create"; js "generate"; js "write"; js "ይፍጠሩ"; js "ይጻፉ";
    js "code"; js "component" ].

Definition needsArtifact (prompt : jsstring) : bool :=
  existsb (includes (toLowerCase host prompt)) intentKeywords.

(** [!images || images.length === 0] *)
Definition noImages (images : option (list Image)) : bool :=
  match images with
  | None | Some [] => true
  | Some (_ :: _) => false
  end.

Definition generateMixedResponse (prompt previousArtifact model instruction : jsstring)
    (conversationHistory : list HistoryEntry)
    (extractedContent : option jsstring)
    (images : option (list Image)) : M GenerationResult :=
  if noImages images then
    console LLog (js "Using reasoning model for chat: " ++ model) ;;;
    deepSeekResponse <- generateDeepSeekResponse prompt conversationHistory
                          extractedContent (Some instruction) ;;
    if needsArtifact prompt then
      tryCatch
        (geminiResult <- generateResponse host remote prompt previousArtifact
                           flashModel instruction images ;;
         ret {| chatResponse := chatResponse deepSeekResponse;
                artifactContent := artifactContent geminiResult |})
        (fun error =>
           console LWarn
             (js "Gemini artifact generation failed, using DeepSeek only:") ;;;
           ret deepSeekResponse)
    else ret deepSeekResponse
  else
    console LLog (js "Using Gemini for image processing") ;;;
    generateResponse host remote prompt previousArtifact flashModel
      instruction images.

End Service.

End ReasoningService.

Import ReasoningService.

(* ================================================================= *)
(** ** The send handler (App.tsx) *)

Module App.

Local Open Scope js_scope.
Local Open Scope string_scope.
Local Open Scope list_scope.

Record Message : Type := mkMessage {
  m_role : jsstring;
  m_text : jsstring;
  m_images : option (list jsstring)
}.

Record Persona : Type := mkPersona {
  persona_id : jsstring;
  persona_name : jsstring;
  persona_systemInstruction : jsstring
}.

Record Conversation : Type := mkConversation {
  id : jsstring;
  title : jsstring;
  messages : list Message;
  conv_artifactContent : jsstring;
  isArtifactVisible : bool;
  conv_model : jsstring;
  personaId : jsstring
}.

(** The React state of the component. *)
Record AppState : Type := mkState {
  conversations : list Conversation;
  activeConversationId : option jsstring;
  isLoading : bool;
  error : option jsstring
}.

Definition defaultArtifactContent : jsstring :=
  js "<!-- Artifacts will appear here -->" ++ newline ++ newline
  ++ js "/*" ++ newline
  ++ js "  When you ask me to create something like code, a document, or a plan, I'll update this panel with the complete result."
  ++ newline ++ js "*/".

Definition isActive (st : AppState) (c : Conversation) : bool :=
  match activeConversationId st with
  | Some a => eqb (id c) a
  | None => false
  end.

Definition activeConversation (st : AppState) : option Conversation :=
  find (isActive st) (conversations st).

Definition updateActiveConversation (updater : Conversation -> Conversation)
    (st : AppState) : AppState :=
  {| conversations :=
       List.map (fun c => if isActive st c then updater c else c)
         (conversations st);
     activeConversationId := activeConversationId st;
     isLoading := isLoading st;
     error := error st |}.

Definition setIsLoading (b : bool) (st : AppState) : AppState :=
  {| conversations := conversations st;
     activeConversationId := activeConversationId st;
     isLoading := b;
     error := error st |}.

Definition setError (e : option jsstring) (st : AppState) : AppState :=
  {| conversations := conversations st;
     activeConversationId := activeConversationId st;
     isLoading := isLoading st;
     error := e |}.

Definition withTitleAndMessages (newTitle : jsstring) (ms : list Message)
    (conv : Conversation) : Conversation :=
  {| id := id conv; title := newTitle; messages := ms;
     conv_artifactContent := conv_artifactContent conv;
     isArtifactVisible := isArtifactVisible conv;
     conv_model := conv_model conv; personaId := personaId conv |}.

Definition withMessages (ms : list Message) (conv : Conversation)
  : Conversation :=
  withTitleAndMessages (title conv) ms conv.

(** [artifactContent !== null && artifactContent.trim() !== ''] *)
Definition nonBlank (s : jsstring) : bool := truthy (trim s).

(** The updater applied on a successful reply. *)
Definition applyResponse (response : GenerationResult)
    (ms : list Message) (conv : Conversation) : Conversation :=
  let hasNewArtifact :=
    nonBlank (artifactContent response)
    && negb (eqb (artifactContent response) (conv_artifactContent conv))
    && negb (eqb (artifactContent response) defaultArtifactContent) in
  {| id := id conv; title := title conv; messages := ms;
     conv_artifactContent :=
       if nonBlank (artifactContent response)
       then artifactContent response
       else conv_artifactContent conv;
     isArtifactVisible := isArtifactVisible conv || hasNewArtifact;
     conv_model := conv_model conv; personaId := personaId conv |}.

Definition thrownMessage (err : Thrown) : jsstring :=
  match err with
  | ErrorObj message => message
  | _ => js "An unknown error occurred."
  end.

Section Handler.

Context (host : Host) (remote : Remote).
Context (persona0 : Persona) (otherPersonas : list Persona).

Definition personas : list Persona := persona0 :: otherPersonas.

Definition activePersona (st : AppState) : Persona :=
  match activeConversation st with
  | Some c =>
      match find (fun p => eqb (persona_id p) (personaId c)) personas with
      | Some p => p
      | None => persona0
      end
  | None => persona0
  end.

(** [images?.[0]] *)
Definition firstImage (images : option (list Image)) : option Image :=
  match images with
  | Some (im :: _) => Some im
  | _ => None
  end.

Definition chooseTitle (conv : Conversation) (text : jsstring)
    (images : option (list Image)) : M jsstring :=
  if eqb (title conv) (js "New Chat") && (List.length (messages conv) =? 1)%nat
  then
    tryCatch
      (generateTitleFromContent remote text (firstImage images))
      (fun e =>
         console LError (js "Failed to generate AI title, using fallback:") ;;;
         ret (join (js " ") (slice0 5 (split 32 text)) ++ js "..."))
  else ret (title conv).

Definition handleSendMessage (text : jsstring) (images : option (list Image))
    (st : AppState) : M AppState :=
  match activeConversation st with
  | None => ret st
  | Some conv =>
      let persona := activePersona st in
      let userMessage :=
        {| m_role := js "user"; m_text := text;
           m_images := option_map (List.map dataUrlOf) images |} in
      let st := setError None (setIsLoading true st) in
      newTitle <- chooseTitle conv text images ;;
      let updatedMessages := messages conv ++ [userMessage] in
      let st :=
        updateActiveConversation
          (withTitleAndMessages newTitle updatedMessages) st in
      st <- tryCatch
              (response <- generateResponse host remote text
                             (conv_artifactContent conv) (conv_model conv)
                             (persona_systemInstruction persona) images ;;
               let modelMessage :=
                 {| m_role := js "model"; m_text := chatResponse response;
                    m_images := None |} in
               ret (updateActiveConversation
                      (applyResponse response (updatedMessages ++ [modelMessage]))
                      st))
              (fun err =>
                 let errorMessage := thrownMessage err in
                 let errorModelMessage :=
                   {| m_role := js "model";
                      m_text := js "Sorry, something went wrong: " ++ errorMessage;
                      m_images := None |} in
                 ret (updateActiveConversation
                        (withMessages (updatedMessages ++ [errorModelMessage]))
                        (setError (Some errorMessage) st))) ;;
      ret (setIsLoading false st)
  end.

End Handler.

End App.

Import App.

(* ================================================================= *)
(** ** utils/file.ts *)

Module FileUtil.

Local Open Scope js_scope.
Local Open Scope string_scope.
Local Open Scope list_scope.

Definition MAX_IMAGE_DIMENSION : N := 1024.

(** A [File]: its declared type, its name, and a reference to its bytes. *)
Record File : Type := mkFile {
  file_type : jsstring;
  file_name : jsstring;
  file_bytes : jsstring
}.

(** File reading and decoding. *)
Record FileHost : Type := mkFileHost {
  (** [FileReader.readAsArrayBuffer]: [onload] with a buffer ([true]) or
      without one ([false]), or [onerror]. *)
  readAsArrayBuffer : File -> JsResult bool;
  (** [new Tiff({ buffer }).toCanvas()]: an exception, no canvas, or a canvas
      of the given size. *)
  tiffToCanvas : File -> JsResult (option (N * N));
  (** The [Image] loaded from the object URL of the file: [onload] with its
      width and height, or [onerror]. *)
  loadFile : File -> option (N * N);
  (** [FileReader.readAsDataURL]: the data URL, or [onerror]. *)
  readAsDataURL : File -> JsResult jsstring
}.

Definition isLineTerminator (c : N) : bool :=
  ((c =? 10) || (c =? 13) || (c =? 8232) || (c =? 8233))%N.

(** The capture of [/:(.*?);/] at a position just after a colon. *)
Fixpoint untilSemicolon (s : jsstring) : option jsstring :=
  match s with
  | [] => None
  | c :: s' =>
      if (c =? 59)%N then Some []
      else if isLineTerminator c then None
      else option_map (cons c) (untilSemicolon s')
  end.

(** [header.match(/:(.*?);/)?.[1]] *)
Fixpoint matchMime (header : jsstring) : option jsstring :=
  match header with
  | [] => None
  | c :: s' =>
      if (c =? 58)%N then
        match untilSemicolon s' with
        | Some m => Some m
        | None => matchMime s'
        end
      else matchMime s'
  end.

Section Normalizer.

Context (host : Host) (browser : Browser) (files : FileHost).

(** The size of the resized canvas of [processAndEncode]. *)
Definition resizeTarget (width height : N) : N * N :=
  let F := float browser in
  let m := inject_Z (Z.of_N MAX_IMAGE_DIMENSION) in
  if (height <? width)%N then
    (MAX_IMAGE_DIMENSION,
     pixels (fl F (fl F (inject_Z (Z.of_N height) * m) / inject_Z (Z.of_N width))))
  else
    (pixels (fl F (fl F (inject_Z (Z.of_N width) * m) / inject_Z (Z.of_N height))),
     MAX_IMAGE_DIMENSION).

Definition needsResize (canvas : Canvas) : bool :=
  ((MAX_IMAGE_DIMENSION <? cv_width canvas)
   || (MAX_IMAGE_DIMENSION <? cv_height canvas))%N.

Definition resized (canvas : Canvas) : Canvas :=
  let '(newWidth, newHeight) :=
    resizeTarget (cv_width canvas) (cv_height canvas) in
  {| cv_width := newWidth; cv_height := newHeight;
     cv_pixels := Drawn (cv_pixels canvas) newWidth newHeight |}.

(** The canvas that is serialised. *)
Definition finalCanvas (canvas : Canvas) : Canvas :=
  if needsResize canvas then
    if getContext2d browser (cv_width (resized canvas))
         (cv_height (resized canvas))
    then resized canvas
    else canvas
  else canvas.

Definition processAndEncode (canvas : Canvas) : M Image :=
  (if needsResize canvas
      && negb (getContext2d browser (cv_width (resized canvas))
                 (cv_height (resized canvas)))
   then console LWarn
          (js "Could not get 2D context for resizing, using original image dimensions for encoding.")
   else ret tt) ;;;
  let dataUrl := toDataURL browser (finalCanvas canvas) (js "image/jpeg") in
  let data := base64Of dataUrl in
  if truthy data then ret {| mimeType := js "image/jpeg"; data := data |}
  else throw (ErrorObj (js "Could not parse the final image data URL.")).

Definition isTiff (file : File) : bool :=
  eqb (file_type file) (js "image/tiff")
  || endsWith (toLowerCase host (file_name file)) (js ".tiff")
  || endsWith (toLowerCase host (file_name file)) (js ".tif").

Definition sourceCanvas (file : File) (size : N * N) : Canvas :=
  {| cv_width := fst size; cv_height := snd size;
     cv_pixels := Decoded (file_bytes file) |}.

(** The branch that hands a small JPEG over as it is. *)
Definition passThrough (file : File) : M Image :=
  result <- lift (readAsDataURL files file) ;;
  let header := nth 0 (split 44 result) [] in
  let data := base64Of result in
  match matchMime header with
  | Some mimeType =>
      if truthy mimeType && truthy data
      then ret {| mimeType := mimeType; data := data |}
      else throw (ErrorObj (js "Could not parse file data URL."))
  | None => throw (ErrorObj (js "Could not parse file data URL."))
  end.

Definition isSmallJpeg (file : File) (size : N * N) : bool :=
  ((fst size <=? MAX_IMAGE_DIMENSION) && (snd size <=? MAX_IMAGE_DIMENSION))%N
  && eqb (file_type file) (js "image/jpeg").

Definition fileToBase64 (file : File) : M Image :=
  if isTiff file then
    hasBuffer <- lift (readAsArrayBuffer files file) ;;
    if negb hasBuffer
    then throw (ErrorObj (js "Failed to read TIFF file into buffer."))
    else
      match tiffToCanvas files file with
      | Threw err =>
          console LError (js "Error during TIFF conversion:") ;;;
          throw (ErrorObj (js "An error occurred while converting the TIFF file."))
      | Ok None => throw (ErrorObj (js "Failed to convert TIFF to canvas."))
      | Ok (Some size) => processAndEncode (sourceCanvas file size)
      end
  else
    match loadFile files file with
    | None =>
        throw (ErrorObj
          (js "Failed to load image for processing. The file might be corrupt or an unsupported format."))
    | Some size =>
        if isSmallJpeg file size then passThrough file
        else if negb (getContext2d browser (fst size) (snd size))
        then throw (ErrorObj (js "Could not get canvas context."))
        else processAndEncode (sourceCanvas file size)
    end.

End Normalizer.

End FileUtil.

Import FileUtil.

(* ================================================================= *)
(** * Vocabulary of the statements *)

Local Open Scope N_scope.

(** ** The correction table *)

(** The characters the first four rules rewrite. *)
Definition isSource (c : N) : bool :=
  (c =? 4640) || (c =? 4771) || (c =? 4611) || (c =? 4775).

(** The four single-character rules as one substitution. *)
Definition substitute (c : N) : N :=
  if c =? 4640 then 4656
  else if c =? 4771 then 4768
  else if c =? 4611 then 4608
  else if c =? 4775 then 4773
  else c.

Definition vowelClass : list N := [4845; 4841; 4840; 4846; 4842; 4818].

(** The fifth rule. *)
Definition softenQe (s : jsstring) : jsstring :=
  replaceCharClass 4672 vowelClass [4677; 36; 49] s.

(** ** Replies and stored artifacts *)

(** The [artifactContent] field of a parsed reply is absent, empty, or white
    space only. *)
Definition emptyOrMissing (field : option jsstring) : Prop :=
  match field with
  | None => True
  | Some a => nonBlank a = false
  end.

Definition storedArtifact (st : AppState) : option jsstring :=
  option_map conv_artifactContent (activeConversation st).

(** The result of [generateResponse] in terms of the reply to its call. *)
Definition replyOutcome (previousArtifact : jsstring) (parsed : ParsedReply)
  : GenerationResult :=
  {| chatResponse :=
       match p_chatResponse parsed with
       | Some c => c
       | None => defaultChatResponse
       end;
     artifactContent :=
       match p_artifactContent parsed with
       | Some a => a
       | None => previousArtifact
       end |}.

(** ** The reasoning providers *)

(** A reply that makes the client move on: the call raised, or the status is
    not a success. *)
Definition failed (reply : JsResult FetchResponse) : bool :=
  match reply with
  | Ok r => negb (ok r)
  | Threw _ => true
  end.

(** The error of a turn whose reasoning providers are exhausted. *)
Definition AllProvidersExhausted (A : Type) (outcome : JsResult A) : Prop :=
  exists detail,
    outcome = Threw (ErrorObj (js "DeepSeek chat failed: " ++ detail)).

(** The closing part of [generateDeepSeekResponse], with its handler. *)
Definition finish (response : FetchResponse) : M GenerationResult :=
  tryCatch (readCompletion response)
    (fun error =>
       console LError (js "DeepSeek API Error:") ;;;
       throw (chatFailed error))%js_m.

(** The trace once the first provider has been tried. *)
Definition afterFirst (t : Trace) (req : FetchRequest)
    (reply : JsResult FetchResponse) : Trace :=
  t ++ EvDeepSeek req reply
    :: match reply with
       | Ok _ => []
       | Threw _ => [EvConsole LWarn (js "DeepSeek failed, trying OpenRouter:")]
       end.

Definition viaSecond (t1 : Trace) (req2 : FetchRequest)
    (reply2 : JsResult FetchResponse) : JsResult GenerationResult * Trace :=
  match reply2 with
  | Ok r2 => finish r2 (t1 ++ [EvOpenRouter req2 reply2])
  | Threw e =>
      (Threw (chatFailed e),
       t1 ++ [EvOpenRouter req2 reply2; EvConsole LError (js "DeepSeek API Error:")])
  end.

(** ** Stages of the OCR job *)

Definition isGif (image : Image) : bool := eqb (mimeType image) (js "image/gif").

(** The console output with which stage three announces itself. *)
Definition correctionEvents (applied : bool) : Trace :=
  if applied
  then [EvConsole LLog (js "Applying Amharic corrections...");
        EvConsole LLog (js "Correction result:")]
  else [].

Definition stageLogs : Trace :=
  [EvConsole LLog (js "OCR Raw result:");
   EvConsole LLog (js "OCR Full length:");
   EvConsole LLog (js "Amharic detected:")].

(** ** Sizes and data URLs *)


Definition jpeg : jsstring := js "image/jpeg".




Section Environment.

Context (host : Host) (remote : Remote) (browser : Browser) (cfg : Config).

Definition firstRequest (key : jsstring) (messages : list DeepSeekMessage)
  : FetchRequest :=
  completionRequest (DEEPSEEK_API_URL cfg) key (js "deepseek-chat") messages.

Definition secondRequest (key : jsstring) (messages : list DeepSeekMessage)
  : FetchRequest :=
  completionRequest (OPENROUTER_API_URL cfg) key (js "deepseek/deepseek-chat")
    messages.

(** What becomes of the OCR-directed normalization of an image: its normal
    form, the error the enhancer reports, or a promise that is never
    settled. *)
Definition normalized (image : Image) : Promise Image :=
  match enhanceImageForOcr browser (dataUrlOf image) 2048 2048 with
  | Settled (Ok processedData) =>
      Settled (Ok {| mimeType := js "image/png"; data := base64Of processedData |})
  | Settled (Threw e) => Settled (Threw e)
  | Pending => Pending
  end.

(** The callback for an image returns. *)
Definition settles (image : Image) : bool :=
  isGif image
  || match normalized image with
     | Settled _ => true
     | Pending => false
     end.

(** What is submitted for an image. *)
Definition submitted (image : Image) : Image :=
  if isGif image then image
  else match normalized image with
       | Settled (Ok n) => n
       | _ => image
       end.

Definition preprocessWarning (image : Image) : Trace :=
  if isGif image then []
  else match normalized image with
       | Settled (Threw _) =>
           [EvConsole LWarn (js "Image preprocessing failed, using original:")]
       | _ => []
       end.

(** The trace at the moment of the extraction call, its request, and the
    reply it receives.  The call is made once every callback has returned;
    when one never does, there is no call and no reply. *)
Definition extractionTrace (images : list Image) (t : Trace) : Trace :=
  t ++ flat_map preprocessWarning images
    ++ [EvConsole LLog (js "Processing " ++ decimal (N.of_nat (List.length images))
                        ++ js " images for OCR...")].

Definition extractionRequest (images : list Image) : GenRequest :=
  ocrRequest (List.length images) (List.map submitted images).

Definition extractionReply (images : list Image) (t : Trace)
  : Promise GenResponse :=
  if forallb settles images
  then Settled (generateContent remote (extractionTrace images t)
                  (extractionRequest images))
  else Pending.

Definition afterExtraction (images : list Image) (t : Trace) : Trace :=
  extractionTrace images t
  ++ [EvGenerateContent (extractionRequest images)
        (generateContent remote (extractionTrace images t)
           (extractionRequest images))].

Definition ocrFailure (e : Thrown) : Thrown :=
  ErrorObj (errorMessageFor host e (js "OCR Operation")).

Definition guarded (m : M jsstring) : M jsstring :=
  tryCatch m (rethrow host (js "OCR Operation")).

(** The text the Organize stage hands on. *)
Definition organizedText (rawText : jsstring) (imageCount : nat) (t : Trace)
  : jsstring :=
  match generateContent remote t (organizeRequest rawText imageCount) with
  | Ok response =>
      match resp_text response with
      | Some text => if truthy (trim text) then trim text else rawText
      | None => rawText
      end
  | Threw _ => rawText
  end.

Definition organizeEvents (rawText : jsstring) (imageCount : nat) (t : Trace)
  : Trace :=
  EvGenerateContent (organizeRequest rawText imageCount)
    (generateContent remote t (organizeRequest rawText imageCount))
  :: match generateContent remote t (organizeRequest rawText imageCount) with
     | Ok _ => []
     | Threw _ =>
         [EvConsole LWarn (js "Content organization failed, returning raw text:")]
     end.


End Environment.

(* ================================================================= *)
(** * Sample environments *)

(** Lower-casing of the Basic Latin letters; on strings of Basic Latin and
    Ethiopic characters this is [toLowerCase]. *)
Definition asciiLower (s : jsstring) : jsstring :=
  List.map (fun c => if (65 <=? c) && (c <=? 90) then c + 32 else c) s.

(** A provider that is down: every call is rejected. *)
Definition unavailable : Thrown := ErrorObj (js "Failed to fetch").

Definition downRemote : Remote :=
  {| fetchDeepSeek := fun _ _ => Threw unavailable;
     fetchOpenRouter := fun _ _ => Threw unavailable;
     generateContent := fun _ _ => Threw unavailable |}.

Definition formReply : jsstring :=
  js "{" ++ dquote ++ js "chatResponse" ++ dquote ++ js ":" ++ dquote
  ++ js "Done." ++ dquote ++ js "," ++ dquote ++ js "artifactContent" ++ dquote
  ++ js ":" ++ dquote ++ js "<form>...</form>" ++ dquote ++ js "}".

Definition chatOnlyReply : jsstring :=
  js "{" ++ dquote ++ js "chatResponse" ++ dquote ++ js ":" ++ dquote
  ++ js "Hi" ++ dquote ++ js "}".

(** A parser that knows the two replies above. *)
Definition sampleParse (s : jsstring) : JsResult ParsedReply :=
  if eqb s formReply
  then Ok {| p_chatResponse := Some (js "Done.");
             p_artifactContent := Some (js "<form>...</form>") |}
  else if eqb s chatOnlyReply
  then Ok {| p_chatResponse := Some (js "Hi"); p_artifactContent := None |}
  else Threw (ErrorObj (js "Unexpected token")).

Definition sampleHost : Host :=
  {| toLowerCase := asciiLower; JSON_parse := sampleParse |}.

Definition completion (text : jsstring) : FetchResponse :=
  {| status := 200;
     json := Ok {| choices := Some [text]; error_message := None |} |}.

(** DeepSeek is down, OpenRouter answers, the multimodal provider replies
    with the given text. *)
Definition sampleRemote (geminiText : jsstring) : Remote :=
  {| fetchDeepSeek := fun _ _ => Threw unavailable;
     fetchOpenRouter := fun _ _ => Ok (completion (js "Here's a login form."));
     generateContent := fun _ _ =>
       Ok {| resp_text := Some geminiText;
             resp_finishReason := Some (js "STOP") |} |}.

Definition bothKeys : Config :=
  {| DEEPSEEK_API_KEY := Some (js "sk-deepseek");
     DEEPSEEK_API_URL_env := None;
     OPENROUTER_API_KEY := Some (js "sk-openrouter");
     OPENROUTER_API_URL_env := None |}.

Definition samplePersona : Persona :=
  {| persona_id := js "gemini-assistant";
     persona_name := js "Gemini Assistant";
     persona_systemInstruction := js "You are an expert AI assistant." |}.

Definition sampleConversation : Conversation :=
  {| id := js "1"; title := js "Forms";
     messages := [];
     conv_artifactContent := js "<p>old</p>";
     isArtifactVisible := true;
     conv_model := js "gemini-2.5-flash";
     personaId := js "gemini-assistant" |}.

Definition sampleState : AppState :=
  {| conversations := [sampleConversation];
     activeConversationId := Some (js "1");
     isLoading := false;
     error := None |}.

(** Exact arithmetic satisfies the rounding laws. *)
Definition exactFloat : FloatModel.
Proof.
  refine {| fl := fun x => x |}.
  - intros x y H. exact H.
  - intros x y H. exact H.
  - intros n _. reflexivity.
  - intros x Hlo _.
    assert (E : (x - x == 0)%Q) by ring.
    rewrite E. simpl Qabs.
    apply Qmult_le_0_compat; [| discriminate].
    apply Qle_trans with (2 := Hlo). discriminate.
Defined.

(** A browser in which every image is 100 by 50 and every canvas can be
    drawn and serialised. *)
Definition sampleBrowser : Browser :=
  {| float := exactFloat;
     loadImage := fun _ => Ok (100%N, 50%N);
     getContext2d := fun _ _ => true;
     encode := fun _ _ => Some (js "UE5H") |}.


(** A browser in which every image is 1 pixel wide and 5000 pixels high. *)
Definition thinBrowser : Browser :=
  {| float := exactFloat;
     loadImage := fun _ => Ok (1, 5000);
     getContext2d := fun _ _ => true;
     encode := fun _ _ => Some (js "UE5H") |}.

Definition isExtraction (req : GenRequest) : bool :=
  Qeq_bool (temperature (gr_config req)) 0.

(** The multimodal provider answers the extraction with [raw] and the
    Organize call with [organized]. *)
Definition ocrRemote (raw : option jsstring) (reason : option jsstring)
    (organized : jsstring) : Remote :=
  {| fetchDeepSeek := fun _ _ => Threw unavailable;
     fetchOpenRouter := fun _ _ => Threw unavailable;
     generateContent := fun _ req =>
       if isExtraction req
       then Ok {| resp_text := raw; resp_finishReason := reason |}
       else Ok {| resp_text := Some organized;
                  resp_finishReason := Some (js "STOP") |} |}.

Definition page (payload : jsstring) : Image :=
  {| mimeType := js "image/jpeg"; data := payload |}.


Definition isCorrectionStart (e : Event) : bool :=
  match e with
  | EvConsole LLog label => eqb label (js "Applying Amharic corrections...")
  | _ => false
  end.

(** An encoder whose payload names the size of the canvas it serialises. *)
Definition sizeTag (c : Canvas) : jsstring :=
  decimal (cv_width c) ++ js "x" ++ decimal (cv_height c).


Definition taggingBrowser : Browser :=
  {| float := exactFloat;
     loadImage := fun _ => Ok (3000, 1000);
     getContext2d := fun _ _ => true;
     encode := fun c _ => Some (sizeTag c) |}.

(** Files decode to 2000 by 1000 pixels; a TIFF decodes to a canvas. *)
Definition largeFiles : FileHost :=
  {| readAsArrayBuffer := fun _ => Ok true;
     tiffToCanvas := fun _ => Ok (Some (2000, 1000));
     loadFile := fun _ => Some (2000, 1000);
     readAsDataURL := fun f =>
       Ok (js "data:" ++ file_type f ++ js ";base64," ++ file_bytes f) |}.


Definition scan : File :=
  {| file_type := js "image/tiff"; file_name := js "scan.tiff";
     file_bytes := js "SUkqAA" |}.


(* ================================================================= *)
(** * Further vocabulary *)

(** ** Matches of the correction table *)

(** Some occurrence of [ቀ] directly followed by a character of the vowel
    class, the left-hand side of the fifth rule. *)
Fixpoint hasQePair (s : jsstring) : bool :=
  match s with
  | [] => false
  | c :: t =>
      match t with
      | [] => false
      | d :: _ => ((c =? 4672) && inClass vowelClass d) || hasQePair t
      end
  end.

(** ** Messages of a turn *)

(** The chat entry of the user's input. *)
Definition userMessage (text : jsstring) (images : option (list Image))
  : Message :=
  {| m_role := js "user"; m_text := text;
     m_images := option_map (List.map dataUrlOf) images |}.

(** The chat entry that answers it: the reply, or the apology that carries
    the error message. *)
Definition replyMessage (outcome : JsResult GenerationResult) : Message :=
  {| m_role := js "model";
     m_text := match outcome with
               | Ok response => chatResponse response
               | Threw err =>
                   js "Sorry, something went wrong: " ++ thrownMessage err
               end;
     m_images := None |}.

(** The conversation is a fresh one: it is still called New Chat and holds
    the welcome message only. *)
Definition isNewChat (conv : Conversation) : bool :=
  eqb (title conv) (js "New Chat") && (List.length (messages conv) =? 1)%nat.

(** A successful reply brings an artifact that is worth showing. *)
Definition bringsNewArtifact (conv : Conversation)
    (outcome : JsResult GenerationResult) : bool :=
  match outcome with
  | Ok response =>
      nonBlank (artifactContent response)
      && negb (eqb (artifactContent response) (conv_artifactContent conv))
      && negb (eqb (artifactContent response) defaultArtifactContent)
  | Threw _ => false
  end.

(** ** The fallback step *)

(** What [generateDeepSeekResponse] does once the first provider is out of
    the picture, from the trace [t1] on: the call to OpenRouter when its key
    is set, and the failure of the turn otherwise. *)
Definition viaFallback (cfg : Config) (remote : Remote)
    (messages : list DeepSeekMessage) (t1 : Trace)
  : JsResult GenerationResult * Trace :=
  match truthyOpt (OPENROUTER_API_KEY cfg) with
  | Some k2 =>
      viaSecond t1 (secondRequest cfg k2 messages)
        (fetchOpenRouter remote t1 (secondRequest cfg k2 messages))
  | None =>
      (Threw (chatFailed
                (ErrorObj (js "Both DeepSeek and OpenRouter unavailable"))),
       t1 ++ [EvConsole LError (js "DeepSeek API Error:")])
  end.


Definition openRouterOnly : Config :=
  {| DEEPSEEK_API_KEY := None;
     DEEPSEEK_API_URL_env := None;
     OPENROUTER_API_KEY := Some (js "sk-openrouter");
     OPENROUTER_API_URL_env := None |}.


(** DeepSeek answers with status 200 and an empty list of choices. *)
Definition emptyChoicesRemote : Remote :=
  {| fetchDeepSeek := fun _ _ =>
       Ok {| status := 200;
             json := Ok {| choices := Some []; error_message := None |} |};
     fetchOpenRouter := fun _ _ => Ok (completion (js "Here's a login form."));
     generateContent := fun _ _ => Threw unavailable |}.

(** ** The batch of an extraction call *)

(** The images carried by a list of parts, in order. *)
Definition inlineImages (parts : list Part) : list Image :=
  flat_map (fun part =>
              match part with
              | InlineData mime payload => [{| mimeType := mime; data := payload |}]
              | TextPart _ => []
              end) parts.

(** The label that announces the image at position [index] (from 1) of
    [total]. *)
Definition imageLabel (index total : nat) : Part :=
  TextPart (js "--- IMAGE " ++ decimal (N.of_nat index) ++ js " OF "
            ++ decimal (N.of_nat total) ++ js " ---").

(** A reply of the Organize call that yields no organized text: the call
    failed, or its text is missing or blank. *)
Definition unusable (reply : JsResult GenResponse) : bool :=
  match reply with
  | Threw _ => true
  | Ok response =>
      match resp_text response with
      | Some text => negb (truthy (trim text))
      | None => true
      end
  end.

(** Unfolding of the monadic plumbing, leaving the provider calls and the
    string functions in place. *)
Ltac exec :=
  cbv beta iota zeta delta
    [tryCatch bind ret throw lift emit console callGenerateContent
     callDeepSeek callOpenRouter rethrow handleApiError fst snd].

(* ================================================================= *)
(** * Properties *)

Example js_literals :
  js "ሠኣሃኧቀ" = [4640; 4771; 4611; 4775; 4672]
  /\ js "ሰአሀእቅ" = [4656; 4768; 4608; 4773; 4677]
  /\ js "ይዩየዮዪዒ" = [4845; 4841; 4840; 4846; 4842; 4818]
  /\ js "a$1" = [97; 36; 49] /\ decimal 2048 = js "2048" /\ decimal 0 = js "0".
Proof. vm_compute. repeat split; reflexivity. Qed.

Example corrections_sample :
  applyOfflineAmharicCorrections (js "ሠላም ቀይ ቀለም ኣበባ")
  = js "ሰላም ቅይ ቀለም አበባ".
Proof. vm_compute. reflexivity. Qed.

(** The prompt templates have the lengths, in UTF-16 code units, of the
    template literals of the source. *)
Example prompt_lengths :
  List.length (ocrPrompt 3) = 1401%nat
  /\ List.length (organizationPrompt [] 3) = 1764%nat
  /\ List.length titleInstruction = 254%nat
  /\ List.length (intelligentSystemPrompt None None) = 1894%nat
  /\ List.length (intelligentSystemPrompt (Some (js "X")) (Some (js "DOC")))
     = 2429%nat.
Proof. vm_compute. repeat split; reflexivity. Qed.

Example string_functions_sample :
  split 32 (js "a  b") = [js "a"; []; js "b"]
  /\ split 32 [] = [[]]
  /\ join (js " ") [js "a"; []; js "b"] = js "a  b"
  /\ trim (js "  {x}
 ") = js "{x}"
  /\ includes (js "please write code") (js "write") = true
  /\ includes (js "rewind") (js "write") = false
  /\ endsWith (js "scan.tiff") (js ".tiff") = true
  /\ sliceLast 2 [1; 2; 3] = [2; 3]
  /\ matchMime (js "data:image/jpeg;base64") = Some (js "image/jpeg").
Proof. vm_compute. repeat split; reflexivity. Qed.

(* ================================================================= *)
(** ** The correction table *)

Section CorrectionTable.

Lemma replaceChar_single (a b : N) (s : jsstring) :
  replaceChar a [b] s = List.map (fun c => if c =? a then b else c) s.
Proof.
  induction s as [| c s IH]; simpl; [reflexivity |].
  destruct (c =? a); simpl; now rewrite IH.
Qed.

Lemma substitute_chain (c : N) :
  (fun c => if c =? 4775 then 4773 else c)
    ((fun c => if c =? 4611 then 4608 else c)
       ((fun c => if c =? 4771 then 4768 else c)
          ((fun c => if c =? 4640 then 4656 else c) c))) = substitute c.
Proof.
  unfold substitute. cbv beta.
  destruct (N.eqb_spec c 4640) as [-> | ?]; [reflexivity |].
  destruct (N.eqb_spec c 4771) as [-> | ?]; [reflexivity |].
  destruct (N.eqb_spec c 4611) as [-> | ?]; [reflexivity |].
  reflexivity.
Qed.

Lemma corrections_unfold (s : jsstring) :
  applyOfflineAmharicCorrections s = softenQe (List.map substitute s).
Proof.
  unfold applyOfflineAmharicCorrections, corrections, softenQe.
  change (js "ሰ") with [4656]. change (js "አ") with [4768].
  change (js "ሀ") with [4608]. change (js "እ") with [4773].
  change (js "ቅ$1") with [4677; 36; 49].
  change (js "ይዩየዮዪዒ") with vowelClass.
  cbn [fold_left fst snd replace].
  rewrite !replaceChar_single.
  rewrite !map_map. f_equal.
  apply map_ext. intro c. apply substitute_chain.
Qed.

Lemma substitute_not_source (c : N) : isSource (substitute c) = false.
Proof.
  unfold substitute, isSource.
  destruct (N.eqb_spec c 4640) as [-> | H1]; [reflexivity |].
  destruct (N.eqb_spec c 4771) as [-> | H2]; [reflexivity |].
  destruct (N.eqb_spec c 4611) as [-> | H3]; [reflexivity |].
  destruct (N.eqb_spec c 4775) as [-> | H4]; [reflexivity |].
  apply N.eqb_neq in H1, H2, H3, H4. now rewrite H1, H2, H3, H4.
Qed.

Lemma substitute_fixed (c : N) : isSource c = false -> substitute c = c.
Proof.
  unfold substitute, isSource. intro H.
  repeat (apply orb_false_iff in H; destruct H as [H ?]).
  now repeat match goal with E : (_ =? _) = false |- _ => rewrite E; clear E end.
Qed.

Lemma map_substitute_fixed (s : jsstring) :
  forallb (fun c => negb (isSource c)) s = true -> List.map substitute s = s.
Proof.
  induction s as [| c s IH]; simpl; [reflexivity |].
  intro H. apply andb_true_iff in H. destruct H as [Hc Hs].
  apply negb_true_iff in Hc. now rewrite substitute_fixed, IH.
Qed.

(** One step of the fifth rule at a matching pair. *)
Lemma softenQe_match (d : N) (rest : jsstring) :
  inClass vowelClass d = true ->
  softenQe (4672 :: d :: rest) = 4677 :: d :: softenQe rest.
Proof.
  intro H. unfold softenQe. cbn [replaceCharClass].
  rewrite N.eqb_refl, H. reflexivity.
Qed.

Lemma softenQe_skip (c : N) (t : jsstring) :
  (c =? 4672) && inClass vowelClass (hd 0 t) = false ->
  softenQe (c :: t) = c :: softenQe t.
Proof.
  intro H. unfold softenQe. destruct t as [| d rest]; [reflexivity |].
  cbn [replaceCharClass]. cbn [hd] in H. now rewrite H.
Qed.

Lemma softenQe_cases (c : N) (t : jsstring) :
  (exists d rest, c = 4672 /\ t = d :: rest /\ inClass vowelClass d = true)
  \/ (c =? 4672) && inClass vowelClass (hd 0 t) = false.
Proof.
  destruct ((c =? 4672) && inClass vowelClass (hd 0 t)) eqn:E; [left | now right].
  apply andb_true_iff in E. destruct E as [Ec Ed].
  apply N.eqb_eq in Ec. destruct t as [| d rest]; [discriminate Ed |].
  now exists d, rest.
Qed.

(** The head of a rewritten string is the old head or the rewritten letter. *)
Lemma softenQe_head (s : jsstring) :
  hd 0 (softenQe s) = hd 0 s \/ hd 0 (softenQe s) = 4677.
Proof.
  destruct s as [| c t]; [now left |].
  destruct (softenQe_cases c t) as [(d & rest & -> & -> & Hd) | H].
  - rewrite softenQe_match by assumption. now right.
  - rewrite softenQe_skip by assumption. now left.
Qed.

Lemma softenQe_idempotent_upto (n : nat) (s : jsstring) :
  (List.length s <= n)%nat -> softenQe (softenQe s) = softenQe s.
Proof.
  revert s. induction n as [| n IH]; intros s Hlen.
  - destruct s; [reflexivity | simpl in Hlen; lia].
  - destruct s as [| c t]; [reflexivity |].
    destruct (softenQe_cases c t) as [(d & rest & -> & -> & Hd) | H].
    + rewrite softenQe_match by assumption.
      rewrite (softenQe_skip 4677) by reflexivity.
      assert (Hd' : (d =? 4672) = false).
      { unfold inClass, vowelClass in Hd. simpl in Hd.
        destruct (N.eqb_spec d 4672) as [-> | ?]; [discriminate Hd | reflexivity]. }
      rewrite (softenQe_skip d) by now rewrite Hd'.
      rewrite IH; [reflexivity | simpl in Hlen; lia].
    + rewrite softenQe_skip by assumption.
      rewrite softenQe_skip.
      * rewrite IH; [reflexivity | simpl in Hlen; lia].
      * apply andb_false_iff in H. destruct H as [H | H]; [now rewrite H |].
        destruct (softenQe_head t) as [E | E]; rewrite E.
        -- rewrite H. apply andb_false_r.
        -- apply andb_false_r.
Qed.

Lemma softenQe_keeps_clean (n : nat) (s : jsstring) :
  (List.length s <= n)%nat ->
  forallb (fun c => negb (isSource c)) s = true ->
  forallb (fun c => negb (isSource c)) (softenQe s) = true.
Proof.
  revert s. induction n as [| n IH]; intros s Hlen Hs.
  - destruct s; [reflexivity | simpl in Hlen; lia].
  - destruct s as [| c t]; [reflexivity |].
    destruct (softenQe_cases c t) as [(d & rest & -> & -> & Hd) | H].
    + rewrite softenQe_match by assumption.
      cbn [forallb] in Hs |- *.
      apply andb_true_iff in Hs. destruct Hs as [_ Hs].
      apply andb_true_iff in Hs. destruct Hs as [Hd' Hrest].
      rewrite Hd'. rewrite IH; [reflexivity | simpl in Hlen; lia | assumption].
    + rewrite softenQe_skip by assumption.
      cbn [forallb] in Hs |- *.
      apply andb_true_iff in Hs. destruct Hs as [Hc Ht].
      rewrite Hc. apply IH; [simpl in Hlen; lia | assumption].
Qed.

Lemma map_substitute_clean (s : jsstring) :
  forallb (fun c => negb (isSource c)) (List.map substitute s) = true.
Proof.
  induction s as [| c s IH]; simpl; [reflexivity |].
  now rewrite substitute_not_source, IH.
Qed.

(** C10. Applying the offline Amharic correction table twice gives the same
    string as applying it once, for every input string. *)
Theorem corrections_idempotent (s : jsstring) :
  applyOfflineAmharicCorrections (applyOfflineAmharicCorrections s)
  = applyOfflineAmharicCorrections s.
Proof.
  rewrite !corrections_unfold.
  rewrite map_substitute_fixed.
  - apply softenQe_idempotent_upto with (n := List.length (List.map substitute s)).
    constructor.
  - apply softenQe_keeps_clean with (n := List.length (List.map substitute s)).
    + constructor.
    + apply map_substitute_clean.
Qed.

End CorrectionTable.

(* ================================================================= *)
(** ** Title generation *)

Section Title.

Context (remote : Remote).

Lemma generateTitle_on_failure (prompt : jsstring) (image : option Image)
    (t : Trace) (e : Thrown) :
  generateContent remote t (titleRequest prompt image) = Threw e ->
  generateTitleFromContent remote prompt image t
  = (Ok (titleFallback prompt),
     t ++ [EvGenerateContent (titleRequest prompt image) (Threw e)]
       ++ [EvConsole LError (js "Error generating title with Gemini API:")]).
Proof.
  intro H.
  unfold generateTitleFromContent, tryCatch, bind, callGenerateContent,
    console, emit, ret.
  rewrite H. now rewrite <- app_assoc.
Qed.

(** The title generator never throws: the fallback of the send handler is
    never needed. *)
Lemma generateTitle_total (prompt : jsstring) (image : option Image)
    (t : Trace) :
  isOk (fst (generateTitleFromContent remote prompt image t)) = true.
Proof.
  unfold generateTitleFromContent, tryCatch, bind, callGenerateContent,
    console, emit, ret.
  destruct (generateContent remote t (titleRequest prompt image)) as [r | e];
    [| reflexivity].
  destruct (truthyOpt (resp_text r)); reflexivity.
Qed.

(** C5 (as amended). When the title call throws, the title is the first five
    space-separated words of the prompt joined by spaces and followed by an
    ellipsis if the prompt has more than five such words, and the prompt
    itself, without an ellipsis, otherwise. *)
Theorem title_fallback_on_failure (prompt : jsstring) (image : option Image)
    (t : Trace) (e : Thrown) :
  generateContent remote t (titleRequest prompt image) = Threw e ->
  fst (generateTitleFromContent remote prompt image t)
  = Ok (if (5 <? List.length (split 32 prompt))%nat
        then join (js " ") (slice0 5 (split 32 prompt)) ++ js "..."
        else prompt).
Proof.
  intro H. rewrite (generateTitle_on_failure _ _ _ H). reflexivity.
Qed.

End Title.

Lemma title_fallback_on_failure_witness :
  generateContent downRemote [] (titleRequest (js "please write me a very long poem") None)
  = Threw unavailable
  /\ fst (generateTitleFromContent downRemote
            (js "please write me a very long poem") None [])
     = Ok (js "please write me a very...").
Proof.
  split; [reflexivity |].
  rewrite (@title_fallback_on_failure downRemote _ None [] unavailable eq_refl).
  vm_compute. reflexivity.
Defined.

(** C5 as stated fails on a prompt of at most five words: the title is the
    prompt itself and no ellipsis is appended. *)
Lemma title_fallback_short_prompt :
  fst (generateTitleFromContent downRemote (js "hello world") None [])
  = Ok (js "hello world")
  /\ fst (generateTitleFromContent downRemote (js "hello world") None [])
     <> Ok (join (js " ") (slice0 5 (split 32 (js "hello world"))) ++ js "...").
Proof.
  split; [vm_compute; reflexivity |].
  vm_compute. intro H. discriminate H.
Qed.

(* ================================================================= *)
(** ** Artifact preservation *)

Section ArtifactPreservation.

Context (host : Host) (remote : Remote).
Context (persona0 : Persona) (otherPersonas : list Persona).

Lemma find_map_updater (p : Conversation -> bool)
    (f : Conversation -> Conversation) (l : list Conversation) :
  (forall c, p (f c) = p c) ->
  find p (List.map (fun c => if p c then f c else c) l)
  = option_map f (find p l).
Proof.
  intro Hp. induction l as [| c l IH]; simpl; [reflexivity |].
  destruct (p c) eqn:E.
  - now rewrite Hp, E.
  - now rewrite E.
Qed.

Lemma activeConversation_update (f : Conversation -> Conversation)
    (st : AppState) :
  (forall c, id (f c) = id c) ->
  activeConversation (updateActiveConversation f st)
  = option_map f (activeConversation st).
Proof.
  intro Hid. unfold activeConversation, updateActiveConversation.
  cbn [conversations].
  change (isActive
            {| conversations :=
                 List.map (fun c => if isActive st c then f c else c)
                   (conversations st);
               activeConversationId := activeConversationId st;
               isLoading := isLoading st;
               error := error st |})
    with (isActive st).
  apply find_map_updater. intro c. unfold isActive. now rewrite Hid.
Qed.

Lemma activeConversation_setIsLoading (b : bool) (st : AppState) :
  activeConversation (setIsLoading b st) = activeConversation st.
Proof. reflexivity. Qed.

Lemma activeConversation_setError (e : option jsstring) (st : AppState) :
  activeConversation (setError e st) = activeConversation st.
Proof. reflexivity. Qed.

(** What the success updater stores when the returned artifact is blank or
    is the artifact the conversation already has. *)
Lemma applyResponse_keeps (response : GenerationResult) (ms : list Message)
    (conv : Conversation) :
  nonBlank (artifactContent response) = false
  \/ artifactContent response = conv_artifactContent conv ->
  conv_artifactContent (applyResponse response ms conv)
  = conv_artifactContent conv.
Proof.
  intros [H | H]; unfold applyResponse; cbn [conv_artifactContent].
  - now rewrite H.
  - destruct (nonBlank (artifactContent response)); [assumption | reflexivity].
Qed.

(** A reply that is delimited by braces after trimming and that parses is
    answered with a result: [generateResponse] returns, it does not throw. *)
Lemma generateResponse_wellformed
    (prompt previousArtifact model instruction : jsstring)
    (images : option (list Image)) (t : Trace)
    (resp : GenResponse) (text : jsstring) (parsed : ParsedReply) :
  generateContent remote t
    (chatRequest prompt previousArtifact model instruction images) = Ok resp ->
  resp_text resp = Some text ->
  startsWith (trim text) (js "{") = true ->
  endsWith (trim text) (js "}") = true ->
  JSON_parse host (trim text) = Ok parsed ->
  generateResponse host remote prompt previousArtifact model instruction
    images t
  = (Ok (replyOutcome previousArtifact parsed),
     t ++ [EvGenerateContent
             (chatRequest prompt previousArtifact model instruction images)
             (Ok resp)]).
Proof.
  intros E Et Hopen Hclose Ep.
  unfold generateResponse. exec. rewrite E, Et.
  assert (Htruthy : truthy text = true).
  { destruct text; [discriminate Hopen | reflexivity]. }
  cbn [truthyOpt]. rewrite Htruthy. exec.
  rewrite Hopen, Hclose. cbn [negb orb]. rewrite Ep.
  reflexivity.
Qed.

(** The send handler in terms of the outcome of [generateResponse]. *)
Lemma handleSendMessage_stored (text : jsstring) (images : option (list Image))
    (st : AppState) (conv : Conversation) (t : Trace) :
  activeConversation st = Some conv ->
  let t1 := snd (chooseTitle remote conv text images t) in
  let outcome :=
    fst (generateResponse host remote text (conv_artifactContent conv)
           (conv_model conv)
           (persona_systemInstruction (activePersona persona0 otherPersonas st))
           images t1) in
  exists st',
    fst (handleSendMessage host remote persona0 otherPersonas text images st t)
    = Ok st'
    /\ storedArtifact st'
       = Some match outcome with
              | Ok response =>
                  if nonBlank (artifactContent response)
                  then artifactContent response
                  else conv_artifactContent conv
              | Threw _ => conv_artifactContent conv
              end
    /\ error st' = match outcome with
                   | Ok _ => None
                   | Threw err => Some (thrownMessage err)
                   end.
Proof.
  intros Hconv t1 outcome. subst t1 outcome.
  unfold handleSendMessage. rewrite Hconv.
  unfold bind at 1.
  assert (Htitle : isOk (fst (chooseTitle remote conv text images t)) = true).
  { unfold chooseTitle.
    destruct (eqb (title conv) (js "New Chat")
              && (List.length (messages conv) =? 1)%nat); [| reflexivity].
    unfold tryCatch.
    pose proof (generateTitle_total remote text (firstImage images) t) as Ht.
    destruct (generateTitleFromContent remote text (firstImage images) t)
      as [[a | e] t']; [reflexivity | discriminate Ht]. }
  destruct (chooseTitle remote conv text images t) as [[newTitle | e] t1];
    [| discriminate Htitle].
  cbn [snd]. unfold bind, tryCatch, ret.
  destruct (generateResponse host remote text (conv_artifactContent conv)
              (conv_model conv)
              (persona_systemInstruction
                 (activePersona persona0 otherPersonas st)) images t1)
    as [[response | err] t2]; cbn [fst].
  - eexists. split; [reflexivity |]. split; [| reflexivity].
    unfold storedArtifact.
    rewrite activeConversation_setIsLoading.
    rewrite activeConversation_update by reflexivity.
    rewrite activeConversation_update by reflexivity.
    rewrite activeConversation_setError, activeConversation_setIsLoading, Hconv.
    reflexivity.
  - eexists. split; [reflexivity |]. split; [| reflexivity].
    unfold storedArtifact.
    rewrite activeConversation_setIsLoading.
    rewrite activeConversation_update by reflexivity.
    rewrite activeConversation_setError.
    rewrite activeConversation_update by reflexivity.
    rewrite activeConversation_setError, activeConversation_setIsLoading, Hconv.
    reflexivity.
Qed.

(** C1. Artifact preservation.  When the reply to the chat call is a JSON
    object (delimited by braces once trimmed, and accepted by the parser)
    whose artifact field is absent, empty, or white space only, then
    [generateResponse] returns a result, with the previous artifact in place
    of an absent field; the success updater of the handler keeps the stored
    artifact for a blank one; and the send handler completes without an
    error, the artifact stored for the active conversation being the
    previous artifact, unchanged. *)
Theorem artifact_preserved (text : jsstring) (images : option (list Image))
    (st : AppState) (conv : Conversation) (t : Trace)
    (resp : GenResponse) (reply : jsstring) (parsed : ParsedReply) :
  activeConversation st = Some conv ->
  let t1 := snd (chooseTitle remote conv text images t) in
  let instruction :=
    persona_systemInstruction (activePersona persona0 otherPersonas st) in
  generateContent remote t1
    (chatRequest text (conv_artifactContent conv) (conv_model conv)
       instruction images) = Ok resp ->
  resp_text resp = Some reply ->
  startsWith (trim reply) (js "{") = true ->
  endsWith (trim reply) (js "}") = true ->
  JSON_parse host (trim reply) = Ok parsed ->
  emptyOrMissing (p_artifactContent parsed) ->
  fst (generateResponse host remote text (conv_artifactContent conv)
         (conv_model conv) instruction images t1)
  = Ok {| chatResponse :=
            match p_chatResponse parsed with
            | Some c => c
            | None => defaultChatResponse
            end;
          artifactContent :=
            match p_artifactContent parsed with
            | Some a => a
            | None => conv_artifactContent conv
            end |}
  /\ (forall response ms c,
         nonBlank (artifactContent response) = false ->
         conv_artifactContent (applyResponse response ms c)
         = conv_artifactContent c)
  /\ exists st',
      fst (handleSendMessage host remote persona0 otherPersonas text images st t)
      = Ok st'
      /\ storedArtifact st' = Some (conv_artifactContent conv)
      /\ error st' = None.
Proof.
  intros Hconv t1 instruction E Et Hopen Hclose Ep Hfield.
  assert (Hgen :
            fst (generateResponse host remote text (conv_artifactContent conv)
                   (conv_model conv) instruction images t1)
            = Ok (replyOutcome (conv_artifactContent conv) parsed)).
  { now rewrite (generateResponse_wellformed _ _ _ _ _ _ E Et Hopen Hclose Ep). }
  split; [| split].
  - exact Hgen.
  - intros response ms c Hblank. apply applyResponse_keeps. now left.
  - destruct (handleSendMessage_stored text images st t Hconv)
      as (st' & Hrun & Hstored & Herror).
    exists st'. split; [assumption |].
    fold t1 in Hstored, Herror. fold instruction in Hstored, Herror.
    rewrite Hgen in Hstored, Herror.
    split; [| exact Herror].
    rewrite Hstored. f_equal.
    unfold replyOutcome. cbn [artifactContent].
    destruct (p_artifactContent parsed) as [a |]; cbn [emptyOrMissing] in Hfield.
    + now rewrite Hfield.
    + destruct (nonBlank (conv_artifactContent conv)); reflexivity.
Qed.

End ArtifactPreservation.

(* ================================================================= *)
(** ** Traces of the multimodal client *)

Section GenerateResponseTrace.

Context (host : Host) (remote : Remote).

(** [generateResponse] makes exactly one provider call, the chat request,
    and nothing but console output after it. *)
Lemma generateResponse_trace
    (prompt previousArtifact model instruction : jsstring)
    (images : option (list Image)) (t : Trace) :
  let req := chatRequest prompt previousArtifact model instruction images in
  exists logs,
    snd (generateResponse host remote prompt previousArtifact model
           instruction images t)
    = t ++ EvGenerateContent req (generateContent remote t req) :: logs
    /\ forallb isConsole logs = true.
Proof.
  intro req. unfold generateResponse. fold req. exec.
  destruct (generateContent remote t req) as [resp | e];
    [| eexists; split; [rewrite <- app_assoc; reflexivity | reflexivity]].
  destruct (truthyOpt (resp_text resp)) as [text |]; exec.
  - destruct (negb (startsWith (trim text) (js "{"))
              || negb (endsWith (trim text) (js "}"))); exec.
    + eexists; split; [rewrite <- app_assoc; reflexivity | reflexivity].
    + destruct (JSON_parse host (trim text)); exec.
      * exists []. split; reflexivity.
      * eexists; split; [rewrite <- app_assoc; reflexivity | reflexivity].
  - eexists; split; [rewrite <- !app_assoc; reflexivity | reflexivity].
Qed.

Lemma filter_console (p : Event -> bool) (logs : Trace) :
  (forall l s, p (EvConsole l s) = false) ->
  forallb isConsole logs = true -> filter p logs = [].
Proof.
  intros Hp. induction logs as [| e logs IH]; simpl; [reflexivity |].
  intro H. apply andb_true_iff in H. destruct H as [He Hl].
  destruct e; try discriminate He. now rewrite Hp, IH.
Qed.

End GenerateResponseTrace.

(* ================================================================= *)
(** ** Routing: requests with images *)

Section Routing.

Context (host : Host) (remote : Remote) (cfg : Config).

(** C2. Routing exclusivity.  A request that carries at least one image is
    answered by the multimodal client alone: the outcome of
    [generateMixedResponse] is the outcome of [generateResponse] on the same
    prompt, previous artifact, system instruction and images, and no call to
    a reasoning provider is made. *)
Theorem images_route_to_multimodal_only
    (prompt previousArtifact model instruction : jsstring)
    (conversationHistory : list HistoryEntry)
    (extractedContent : option jsstring)
    (image : Image) (more : list Image) (t : Trace) :
  let images := Some (image :: more) in
  let turn :=
    generateMixedResponse host remote cfg prompt previousArtifact model
      instruction conversationHistory extractedContent images t in
  turn = generateResponse host remote prompt previousArtifact flashModel
           instruction images
           (t ++ [EvConsole LLog (js "Using Gemini for image processing")])
  /\ exists added,
       snd turn = t ++ added
       /\ filter isReasoningCall added = []
       /\ filter isProviderCall added
          = [EvGenerateContent
               (chatRequest prompt previousArtifact flashModel instruction images)
               (generateContent remote
                  (t ++ [EvConsole LLog (js "Using Gemini for image processing")])
                  (chatRequest prompt previousArtifact flashModel instruction
                     images))].
Proof.
  intros images turn.
  assert (Hturn : turn
                  = generateResponse host remote prompt previousArtifact
                      flashModel instruction images
                      (t ++ [EvConsole LLog (js "Using Gemini for image processing")])).
  { reflexivity. }
  split; [exact Hturn |].
  destruct (generateResponse_trace host remote prompt previousArtifact
              flashModel instruction images
              (t ++ [EvConsole LLog (js "Using Gemini for image processing")]))
    as (logs & Htrace & Hlogs).
  eexists. rewrite Hturn, Htrace, <- app_assoc.
  split; [reflexivity |].
  cbn [app filter isReasoningCall isProviderCall isDeepSeekCall
         isOpenRouterCall isGenerateContentCall orb].
  rewrite !filter_console by (assumption || reflexivity).
  split; reflexivity.
Qed.

End Routing.

(* ================================================================= *)
(** ** Fallback between the reasoning providers *)

Section Fallback.

Context (host : Host) (remote : Remote) (cfg : Config).

Lemma finish_trace (response : FetchResponse) (t : Trace) :
  exists logs, snd (finish response t) = t ++ logs
               /\ forallb isConsole logs = true.
Proof.
  unfold finish, readCompletion. exec.
  destruct (negb (ok response)); exec.
  - eexists; split; reflexivity.
  - destruct (json response) as [body | e]; exec.
    + destruct (choices body) as [[| first rest] |]; exec;
        try (eexists; split; reflexivity).
      exists []. now rewrite app_nil_r.
    + eexists; split; reflexivity.
Qed.

Lemma finish_not_ok (response : FetchResponse) (t : Trace) :
  ok response = false ->
  fst (finish response t)
  = Threw (chatFailed (ErrorObj (apiErrorMessage response))).
Proof.
  intro H. unfold finish, readCompletion. now rewrite H.
Qed.

Lemma finish_ok (response : FetchResponse) (t : Trace) (body : JsonBody)
    (first : jsstring) (rest : list jsstring) :
  ok response = true -> json response = Ok body ->
  choices body = Some (first :: rest) ->
  finish response t = (Ok {| chatResponse := first; artifactContent := [] |}, t).
Proof.
  intros H Hb Hc. unfold finish, readCompletion. rewrite H. exec.
  rewrite Hb. exec. now rewrite Hc.
Qed.

(** The run of the reasoning client when both keys are configured. *)
Lemma generateDeepSeekResponse_run (k1 k2 : jsstring) (prompt : jsstring)
    (history : list HistoryEntry) (extracted instruction : option jsstring)
    (t : Trace) (reply1 reply2 : JsResult FetchResponse) :
  truthyOpt (DEEPSEEK_API_KEY cfg) = Some k1 ->
  truthyOpt (OPENROUTER_API_KEY cfg) = Some k2 ->
  let messages := buildMessages prompt history extracted instruction in
  let req1 := firstRequest cfg k1 messages in
  let req2 := secondRequest cfg k2 messages in
  let t1 := afterFirst t req1 reply1 in
  fetchDeepSeek remote t req1 = reply1 ->
  fetchOpenRouter remote t1 req2 = reply2 ->
  generateDeepSeekResponse remote cfg prompt history extracted instruction t
  = match reply1 with
    | Ok r => if ok r then finish r t1 else viaSecond t1 req2 reply2
    | Threw _ => viaSecond t1 req2 reply2
    end.
Proof.
  intros Hk1 Hk2 messages req1 req2 t1 <- <-.
  subst t1.
  unfold generateDeepSeekResponse, tryDeepSeek, orOpenRouter, openRouter.
  fold messages. rewrite Hk1, Hk2. fold (firstRequest cfg k1 messages).
  fold (secondRequest cfg k2 messages). fold req1 req2.
  unfold viaSecond, finish, afterFirst. exec.
  destruct (fetchDeepSeek remote t req1) as [r | e].
  - destruct (ok r); cbn [negb].
    + destruct (readCompletion r (t ++ [EvDeepSeek req1 (Ok r)]))
        as [[res | err] t']; reflexivity.
    + destruct (fetchOpenRouter remote (t ++ [EvDeepSeek req1 (Ok r)]) req2)
        as [r2 | e2]; [| rewrite <- app_assoc; reflexivity].
      destruct (readCompletion r2
                  ((t ++ [EvDeepSeek req1 (Ok r)])
                   ++ [EvOpenRouter req2 (Ok r2)]))
        as [[res | err] t']; reflexivity.
  - replace ((t ++ [EvDeepSeek req1 (Threw e)])
             ++ [EvConsole LWarn (js "DeepSeek failed, trying OpenRouter:")])
      with (t ++ [EvDeepSeek req1 (Threw e);
                  EvConsole LWarn (js "DeepSeek failed, trying OpenRouter:")])
      by (rewrite <- app_assoc; reflexivity).
    destruct (fetchOpenRouter remote _ req2) as [r2 | e2];
      [| rewrite <- !app_assoc; reflexivity].
    destruct (readCompletion r2 _) as [[res | err] t']; reflexivity.
Qed.

Lemma viaSecond_trace (t1 : Trace) (req2 : FetchRequest)
    (reply2 : JsResult FetchResponse) :
  exists logs,
    snd (viaSecond t1 req2 reply2) = t1 ++ EvOpenRouter req2 reply2 :: logs
    /\ forallb isConsole logs = true.
Proof.
  unfold viaSecond. destruct reply2 as [r2 | e].
  - destruct (finish_trace r2 (t1 ++ [EvOpenRouter req2 (Ok r2)]))
      as (logs & H & Hl).
    exists logs. rewrite H, <- app_assoc. now split.
  - eexists. split; reflexivity.
Qed.

Lemma viaSecond_failed (t1 : Trace) (req2 : FetchRequest)
    (reply2 : JsResult FetchResponse) :
  failed reply2 = true ->
  AllProvidersExhausted (fst (viaSecond t1 req2 reply2)).
Proof.
  unfold viaSecond, failed. destruct reply2 as [r2 | e]; intro H.
  - apply negb_true_iff in H. rewrite finish_not_ok by assumption.
    eexists. reflexivity.
  - eexists. reflexivity.
Qed.

Lemma viaSecond_ok (t1 : Trace) (req2 : FetchRequest) (r : FetchResponse)
    (body : JsonBody) (first : jsstring) (rest : list jsstring) :
  ok r = true -> json r = Ok body -> choices body = Some (first :: rest) ->
  fst (viaSecond t1 req2 (Ok r))
  = Ok {| chatResponse := first; artifactContent := [] |}.
Proof.
  intros H Hb Hc. unfold viaSecond.
  now rewrite (finish_ok _ _ H Hb Hc).
Qed.

(** A text-only turn in terms of the run of the reasoning client. *)
Lemma mixed_text_only_run (prompt previousArtifact model instruction : jsstring)
    (history : list HistoryEntry) (extracted : option jsstring)
    (images : option (list Image)) (t0 : Trace) :
  noImages images = true ->
  let t := t0 ++ [EvConsole LLog (js "Using reasoning model for chat: " ++ model)] in
  let ds :=
    generateDeepSeekResponse remote cfg prompt history extracted
      (Some instruction) t in
  generateMixedResponse host remote cfg prompt previousArtifact model
    instruction history extracted images t0
  = match fst ds with
    | Threw e => (Threw e, snd ds)
    | Ok reasoning =>
        if needsArtifact host prompt then
          let g := generateResponse host remote prompt previousArtifact
                     flashModel instruction images (snd ds) in
          match fst g with
          | Ok geminiResult =>
              (Ok {| chatResponse := chatResponse reasoning;
                     artifactContent := artifactContent geminiResult |},
               snd g)
          | Threw _ =>
              (Ok reasoning,
               snd g ++ [EvConsole LWarn
                           (js "Gemini artifact generation failed, using DeepSeek only:")])
          end
        else (Ok reasoning, snd ds)
    end.
Proof.
  intros Hno t ds. subst ds t. unfold generateMixedResponse. rewrite Hno.
  unfold bind at 1. unfold console, emit. unfold bind at 1.
  destruct (generateDeepSeekResponse remote cfg prompt history extracted
              (Some instruction) _) as [[reasoning | e] td]; cbn [fst snd];
    [| reflexivity].
  destruct (needsArtifact host prompt); [| reflexivity].
  unfold tryCatch, bind at 1.
  destruct (generateResponse host remote prompt previousArtifact flashModel
              instruction images td) as [[geminiResult | e] tg]; reflexivity.
Qed.

Lemma filter_reasoning_of_provider (l : Trace) :
  filter isReasoningCall l = filter isReasoningCall (filter isProviderCall l).
Proof.
  induction l as [| e l IH]; [reflexivity |].
  destruct e; cbn; now rewrite ?IH.
Qed.

(** The provider calls of the reasoning client, in order. *)
Lemma generateDeepSeekResponse_calls (k1 k2 : jsstring) (prompt : jsstring)
    (history : list HistoryEntry) (extracted instruction : option jsstring)
    (t : Trace) (reply1 reply2 : JsResult FetchResponse) :
  truthyOpt (DEEPSEEK_API_KEY cfg) = Some k1 ->
  truthyOpt (OPENROUTER_API_KEY cfg) = Some k2 ->
  let messages := buildMessages prompt history extracted instruction in
  let req1 := firstRequest cfg k1 messages in
  let req2 := secondRequest cfg k2 messages in
  fetchDeepSeek remote t req1 = reply1 ->
  fetchOpenRouter remote (afterFirst t req1 reply1) req2 = reply2 ->
  exists added,
    snd (generateDeepSeekResponse remote cfg prompt history extracted
           instruction t) = t ++ added
    /\ filter isProviderCall added
       = EvDeepSeek req1 reply1
         :: (if failed reply1 then [EvOpenRouter req2 reply2] else []).
Proof.
  intros Hk1 Hk2 messages req1 req2 E1 E2.
  rewrite (generateDeepSeekResponse_run prompt history extracted instruction t
             Hk1 Hk2 E1 E2).
  fold messages req1 req2. clear E1 E2.
  assert (Hsecond :
            exists added,
              snd (viaSecond (afterFirst t req1 reply1) req2 reply2) = t ++ added
              /\ filter isProviderCall added
                 = [EvDeepSeek req1 reply1; EvOpenRouter req2 reply2]).
  { destruct (viaSecond_trace (afterFirst t req1 reply1) req2 reply2)
      as (logs & H & Hl).
    unfold afterFirst in H. rewrite <- app_assoc in H.
    eexists. split; [exact H |].
    destruct reply1; cbn;
      rewrite filter_console by (assumption || reflexivity); reflexivity. }
  destruct reply1 as [r | e]; cbn [failed].
  - destruct (ok r); cbn [negb]; [| exact Hsecond].
    destruct (finish_trace r (afterFirst t req1 (Ok r))) as (logs & H & Hl).
    unfold afterFirst in H. rewrite <- app_assoc in H.
    eexists. split; [exact H |].
    cbn. rewrite filter_console by (assumption || reflexivity). reflexivity.
  - exact Hsecond.
Qed.

(** C3. Fallback ordering and exhaustion.  With both reasoning providers
    configured, in the order DeepSeek then OpenRouter, a text-only turn calls
    the first provider exactly once, and calls the second exactly once,
    after the first, precisely when the first call raised or returned a
    status that is not a success.  When the first fails and the second
    answers, the chat text of the turn is the second provider's text; when
    both fail, the turn fails with the exhaustion error and the multimodal
    provider is not called. *)
Theorem fallback_order_and_exhaustion (k1 k2 : jsstring)
    (prompt previousArtifact model instruction : jsstring)
    (history : list HistoryEntry) (extracted : option jsstring)
    (images : option (list Image)) (t0 : Trace) :
  truthyOpt (DEEPSEEK_API_KEY cfg) = Some k1 ->
  truthyOpt (OPENROUTER_API_KEY cfg) = Some k2 ->
  noImages images = true ->
  let t := t0 ++ [EvConsole LLog (js "Using reasoning model for chat: " ++ model)] in
  let messages := buildMessages prompt history extracted (Some instruction) in
  let req1 := firstRequest cfg k1 messages in
  let req2 := secondRequest cfg k2 messages in
  let reply1 := fetchDeepSeek remote t req1 in
  let reply2 := fetchOpenRouter remote (afterFirst t req1 reply1) req2 in
  let turn :=
    generateMixedResponse host remote cfg prompt previousArtifact model
      instruction history extracted images t0 in
  exists added,
    snd turn = t0 ++ added
    /\ filter isReasoningCall added
       = EvDeepSeek req1 reply1
         :: (if failed reply1 then [EvOpenRouter req2 reply2] else [])
    /\ (failed reply1 = true ->
        forall r body first rest,
          reply2 = Ok r -> ok r = true -> json r = Ok body ->
          choices body = Some (first :: rest) ->
          exists result, fst turn = Ok result /\ chatResponse result = first)
    /\ (failed reply1 = true -> failed reply2 = true ->
        AllProvidersExhausted (fst turn)
        /\ filter isGenerateContentCall added = []).
Proof.
  intros Hk1 Hk2 Hno t messages req1 req2 reply1 reply2 turn.
  assert (E1 : fetchDeepSeek remote t req1 = reply1) by reflexivity.
  assert (E2 : fetchOpenRouter remote (afterFirst t req1 reply1) req2 = reply2)
    by reflexivity.
  clearbody reply2. clearbody reply1.
  pose proof (generateDeepSeekResponse_run prompt history extracted
                (Some instruction) t Hk1 Hk2 E1 E2) as Hrun.
  destruct (generateDeepSeekResponse_calls prompt history extracted
              (Some instruction) t Hk1 Hk2 E1 E2) as (dsAdded & Htrace & Hcalls).
  fold messages req1 req2 in Hrun, Hcalls. cbv zeta in Hrun.
  pose proof (mixed_text_only_run prompt previousArtifact model instruction
                history extracted images t0 Hno) as Hturn.
  fold t turn in Hturn. cbv zeta in Hturn.
  set (ds := generateDeepSeekResponse remote cfg prompt history extracted
               (Some instruction) t) in *.
  assert (Hreason : filter isReasoningCall dsAdded
                    = EvDeepSeek req1 reply1
                      :: (if failed reply1 then [EvOpenRouter req2 reply2] else [])).
  { rewrite filter_reasoning_of_provider, Hcalls.
    destruct (failed reply1); reflexivity. }
  assert (Hfail : failed reply1 = true ->
                  ds = viaSecond (afterFirst t req1 reply1) req2 reply2).
  { intro Hf. rewrite Hrun. destruct reply1 as [r | e]; [| reflexivity].
    cbn [failed] in Hf. apply negb_true_iff in Hf. now rewrite Hf. }
  destruct (fst ds) as [reasoning | e] eqn:Hds.
  - (* the reasoning client answered *)
    assert (Hboth : failed reply1 = true -> failed reply2 = true -> False).
    { intros Hf1 Hf2. rewrite (Hfail Hf1) in Hds.
      destruct (viaSecond_failed (afterFirst t req1 reply1) req2 reply2 Hf2)
        as [detail Hd].
      rewrite Hd in Hds. discriminate Hds. }
    assert (Hsecond : failed reply1 = true ->
              forall r body first rest,
                reply2 = Ok r -> ok r = true -> json r = Ok body ->
                choices body = Some (first :: rest) ->
                chatResponse reasoning = first).
    { intros Hf1 r body first rest E Hok Hb Hc.
      rewrite (Hfail Hf1), E, (viaSecond_ok _ _ _ Hok Hb Hc) in Hds.
      now injection Hds as <-. }
    destruct (needsArtifact host prompt).
    + destruct (generateResponse_trace host remote prompt previousArtifact
                  flashModel instruction images (snd ds))
        as (logs & Hg & Hlogs).
      set (g := generateResponse host remote prompt previousArtifact
                  flashModel instruction images (snd ds)) in *.
      destruct (fst g) as [geminiResult | eg].
      * eexists. rewrite Hturn. cbn [fst snd]. rewrite Hg, Htrace. subst t.
        split; [rewrite <- !app_assoc; reflexivity |].
        split.
        { rewrite !filter_app, Hreason. cbn.
          rewrite filter_console by (assumption || reflexivity).
          now rewrite app_nil_r. }
        split; [| intros Hf1 Hf2; destruct (Hboth Hf1 Hf2)].
        intros Hf1 r body first rest E Hok Hb Hc.
        eexists. split; [reflexivity |]. cbn [chatResponse]. eauto.
      * eexists. rewrite Hturn. cbn [fst snd]. rewrite Hg, Htrace. subst t.
        split; [rewrite <- !app_assoc; reflexivity |].
        split.
        { rewrite !filter_app, Hreason. cbn.
          rewrite filter_console by (assumption || reflexivity).
          now rewrite app_nil_r. }
        split; [| intros Hf1 Hf2; destruct (Hboth Hf1 Hf2)].
        intros Hf1 r body first rest E Hok Hb Hc.
        eexists. split; [reflexivity |]. eauto.
    + eexists. rewrite Hturn. cbn [fst snd]. rewrite Htrace. subst t.
      split; [rewrite <- !app_assoc; reflexivity |].
      split; [rewrite filter_app, Hreason; reflexivity |].
      split; [| intros Hf1 Hf2; destruct (Hboth Hf1 Hf2)].
      intros Hf1 r body first rest E Hok Hb Hc.
      eexists. split; [reflexivity |]. eauto.
  - (* the reasoning client failed *)
    eexists. rewrite Hturn. cbn [fst snd]. rewrite Htrace.
    split; [subst t; rewrite <- !app_assoc; reflexivity |].
    split; [rewrite filter_app, Hreason; reflexivity |].
    split.
    + intros Hf1 r body first rest E Hok Hb Hc.
      rewrite (Hfail Hf1), E, (viaSecond_ok _ _ _ Hok Hb Hc) in Hds.
      discriminate Hds.
    + intros Hf1 Hf2. split.
      * rewrite (Hfail Hf1) in Hds.
        destruct (viaSecond_failed (afterFirst t req1 reply1) req2 reply2 Hf2)
          as [detail Hd].
        rewrite Hd in Hds. injection Hds as <-. now exists detail.
      * rewrite filter_app. cbn [filter isGenerateContentCall app].
        clear - Hcalls.
        assert (H : forall l, filter isGenerateContentCall l
                              = filter isGenerateContentCall (filter isProviderCall l)).
        { induction l as [| x l IH]; [reflexivity |].
          destruct x; cbn; now rewrite ?IH. }
        rewrite H, Hcalls. destruct (failed reply1); reflexivity.
Qed.

End Fallback.

(* ================================================================= *)
(** ** Artifact-need detection and merge *)

Section ArtifactNeed.

Context (host : Host) (remote : Remote) (cfg : Config).

Lemma needsArtifact_keyword (prompt : jsstring) :
  (exists keyword, In keyword (intentKeywords)
                   /\ includes (toLowerCase host prompt) keyword = true) ->
  needsArtifact host prompt = true.
Proof.
  intros (keyword & Hin & Hk). unfold needsArtifact.
  apply existsb_exists. now exists keyword.
Qed.

(** C4. Artifact-need detection and merge.  On a text-only turn whose
    lower-cased prompt contains one of the intent keywords, once the
    reasoning client has answered, the multimodal client is called once with
    the same prompt and previous artifact; the turn then returns the
    reasoning provider's chat text with the multimodal provider's artifact,
    and if the multimodal call throws it returns the reasoning result alone
    instead of failing. *)
Theorem artifact_need_merge
    (prompt previousArtifact model instruction : jsstring)
    (history : list HistoryEntry) (extracted : option jsstring)
    (images : option (list Image)) (t0 : Trace)
    (reasoning : GenerationResult) :
  noImages images = true ->
  (exists keyword, In keyword intentKeywords
                   /\ includes (toLowerCase host prompt) keyword = true) ->
  let t := t0 ++ [EvConsole LLog (js "Using reasoning model for chat: " ++ model)] in
  let ds :=
    generateDeepSeekResponse remote cfg prompt history extracted
      (Some instruction) t in
  fst ds = Ok reasoning ->
  let req := chatRequest prompt previousArtifact flashModel instruction images in
  let g :=
    generateResponse host remote prompt previousArtifact flashModel
      instruction images (snd ds) in
  let turn :=
    generateMixedResponse host remote cfg prompt previousArtifact model
      instruction history extracted images t0 in
  (exists logs,
      snd g = snd ds ++ EvGenerateContent req (generateContent remote (snd ds) req)
                        :: logs
      /\ forallb isConsole logs = true)
  /\ (forall geminiResult,
         fst g = Ok geminiResult ->
         turn = (Ok {| chatResponse := chatResponse reasoning;
                       artifactContent := artifactContent geminiResult |},
                 snd g))
  /\ (forall e,
         fst g = Threw e ->
         turn = (Ok reasoning,
                 snd g ++ [EvConsole LWarn
                             (js "Gemini artifact generation failed, using DeepSeek only:")])).
Proof.
  intros Hno Hkw t ds Hds req g turn.
  pose proof (mixed_text_only_run host remote cfg prompt previousArtifact model
                instruction history extracted images t0 Hno) as Hturn.
  cbv zeta in Hturn. fold t ds in Hturn. rewrite Hds in Hturn.
  rewrite (needsArtifact_keyword prompt Hkw) in Hturn. fold g turn in Hturn.
  split; [| split].
  - apply generateResponse_trace.
  - intros geminiResult Hg. now rewrite Hg in Hturn.
  - intros e Hg. now rewrite Hg in Hturn.
Qed.

End ArtifactNeed.

(* ================================================================= *)
(** ** A worked configuration *)

Lemma artifact_preserved_witness :
  fst (generateResponse sampleHost (sampleRemote chatOnlyReply) (js "hello there")
         (js "<p>old</p>") (js "gemini-2.5-flash")
         (js "You are an expert AI assistant.") None [])
  = Ok {| chatResponse := js "Hi"; artifactContent := js "<p>old</p>" |}
  /\ exists st',
      fst (handleSendMessage sampleHost (sampleRemote chatOnlyReply) samplePersona []
             (js "hello there") None sampleState []) = Ok st'
      /\ storedArtifact st' = Some (js "<p>old</p>")
      /\ error st' = None.
Proof.
  assert (H := @artifact_preserved sampleHost (sampleRemote chatOnlyReply)
                samplePersona [] (js "hello there") None sampleState
                sampleConversation []
                {| resp_text := Some chatOnlyReply;
                   resp_finishReason := Some (js "STOP") |}
                chatOnlyReply
                {| p_chatResponse := Some (js "Hi");
                   p_artifactContent := None |}).
  assert (H' := H ltac:(vm_compute; reflexivity) ltac:(vm_compute; reflexivity)
                  ltac:(vm_compute; reflexivity) ltac:(vm_compute; reflexivity)
                  ltac:(vm_compute; reflexivity) ltac:(vm_compute; reflexivity)
                  ltac:(vm_compute; exact I)).
  clear H. split.
  - generalize (proj1 H'). vm_compute. exact (fun x => x).
  - generalize (proj2 (proj2 H')). vm_compute. exact (fun x => x).
Defined.

Lemma fallback_order_and_exhaustion_witness :
  exists added,
    snd (generateMixedResponse sampleHost (sampleRemote formReply) bothKeys
           (js "hello") (js "<p>old</p>") (js "deepseek") (js "Be brief.")
           [] None None []) = [] ++ added
    /\ List.map isDeepSeekCall (filter isReasoningCall added) = [true; false].
Proof.
  destruct (@fallback_order_and_exhaustion sampleHost (sampleRemote formReply)
              bothKeys (js "sk-deepseek") (js "sk-openrouter")
              (js "hello") (js "<p>old</p>") (js "deepseek") (js "Be brief.")
              [] None None [] eq_refl eq_refl eq_refl)
    as (added & Htrace & Hcalls & _).
  exists added. split; [exact Htrace |].
  rewrite Hcalls. reflexivity.
Defined.

Lemma artifact_need_merge_witness :
  fst (generateMixedResponse sampleHost (sampleRemote formReply) bothKeys
         (js "Create a login form") (js "<!-- empty -->") (js "deepseek")
         (js "Be brief.") [] None None [])
  = Ok {| chatResponse := js "Here's a login form.";
          artifactContent := js "<form>...</form>" |}.
Proof.
  assert (Hkw : exists keyword,
             In keyword intentKeywords
             /\ includes (toLowerCase sampleHost (js "Create a login form"))
                  keyword = true).
  { exists (js "create"). split; [left; reflexivity | vm_compute; reflexivity]. }
  destruct (@artifact_need_merge sampleHost (sampleRemote formReply) bothKeys
              (js "Create a login form") (js "<!-- empty -->") (js "deepseek")
              (js "Be brief.") [] None None []
              {| chatResponse := js "Here's a login form.";
                 artifactContent := [] |}
              eq_refl Hkw ltac:(vm_compute; reflexivity))
    as (_ & Hmerge & _).
  rewrite (Hmerge {| chatResponse := js "Done.";
                     artifactContent := js "<form>...</form>" |}
             ltac:(vm_compute; reflexivity)).
  reflexivity.
Defined.

(* ================================================================= *)
(** ** The OCR pipeline *)

Lemma eqb_eq (s u : jsstring) : eqb s u = true <-> s = u.
Proof.
  revert u. induction s as [| c s IH]; intros [| d u]; simpl;
    try (split; [discriminate | discriminate]); [tauto |].
  rewrite andb_true_iff, N.eqb_eq, IH.
  split; [intros [-> ->]; reflexivity | intro H; now injection H].
Qed.

Lemma eqb_neq (s u : jsstring) : eqb s u = false <-> s <> u.
Proof.
  rewrite <- eqb_eq. destruct (eqb s u); split; congruence.
Qed.

Lemma settling_fst (A : Type) (m : M A) (t : Trace) :
  fst (settling m t) = Settled (fst (m t)).
Proof. unfold settling. now destruct (m t). Qed.

Lemma settling_snd (A : Type) (m : M A) (t : Trace) :
  snd (settling m t) = snd (m t).
Proof. unfold settling. now destruct (m t). Qed.

Section Ocr.

Context (host : Host) (remote : Remote) (browser : Browser).

Lemma preprocess_run (image : Image) (t : Trace) :
  preprocess browser image t
  = (if settles browser image
     then Settled (Ok (submitted browser image))
     else Pending,
     t ++ preprocessWarning browser image).
Proof.
  unfold preprocess, settles, submitted, preprocessWarning, normalized, isGif.
  destruct (eqb (mimeType image) (js "image/gif")); cbn [negb orb].
  - unfold tryCatchAsync, settling, ret. now rewrite app_nil_r.
  - unfold tryCatchAsync, awaitThen, promise.
    destruct (enhanceImageForOcr browser (dataUrlOf image) 2048 2048)
      as [[processedData | e] |].
    + unfold settling, ret. now rewrite app_nil_r.
    + unfold settling. exec. reflexivity.
    + now rewrite app_nil_r.
Qed.

Lemma preprocess_all (images : list Image) (t : Trace) :
  promiseAll (preprocess browser) images t
  = (if forallb (settles browser) images
     then Settled (Ok (List.map (submitted browser) images))
     else Pending,
     t ++ flat_map (preprocessWarning browser) images).
Proof.
  revert t. induction images as [| image images IH]; intro t;
    cbn [promiseAll forallb List.map flat_map].
  - unfold settling, ret. now rewrite app_nil_r.
  - rewrite preprocess_run, IH. rewrite <- app_assoc.
    destruct (settles browser image), (forallb (settles browser) images);
      reflexivity.
Qed.

Lemma preprocessWarning_console (images : list Image) :
  forallb isConsole (flat_map (preprocessWarning browser) images) = true.
Proof.
  induction images as [| image images IH]; [reflexivity |].
  cbn [flat_map]. rewrite forallb_app, IH, andb_true_r.
  unfold preprocessWarning.
  destruct (isGif image); [reflexivity |].
  destruct (normalized browser image) as [[n | e] |]; reflexivity.
Qed.

(** The job from the extraction call on; when a callback of the
    preprocessing never returns, neither does the job. *)
Lemma performOcr_run (images : list Image) (t : Trace) :
  performOcr host remote browser images t
  = match extractionReply remote browser images t with
    | Pending => (Pending, t ++ flat_map (preprocessWarning browser) images)
    | Settled (Threw e) =>
        (Settled (Threw (ocrFailure host e)),
         afterExtraction remote browser images t
         ++ [EvConsole LError (js "Error during Gemini API " ++ js "OCR Operation"
                               ++ js ":")])
    | Settled (Ok ocrResponse) =>
        match truthyOpt (resp_text ocrResponse) with
        | None =>
            settling (guarded host (classifyEmpty (resp_finishReason ocrResponse)))
              (afterExtraction remote browser images t)
        | Some rawExtractedText =>
            if eqb (toLowerCase host (trim rawExtractedText)) (js "no text found.")
            then (Settled (Ok noText), afterExtraction remote browser images t)
            else settling (guarded host (organizeAndCorrect remote rawExtractedText
                                           (List.length images)))
                   (afterExtraction remote browser images t)
        end
    end.
Proof.
  unfold performOcr, extractionReply.
  unfold tryCatchAsync at 1, awaitThen at 1. rewrite preprocess_all.
  destruct (forallb (settles browser) images); [| reflexivity].
  unfold guarded, afterExtraction, extractionRequest, extractionTrace,
    ocrFailure.
  unfold settling at 1.
  unfold bind at 1, console at 1, emit at 1.
  unfold bind at 1, callGenerateContent at 1.
  rewrite <- !app_assoc.
  destruct (generateContent remote _ _) as [ocrResponse | e].
  - destruct (truthyOpt (resp_text ocrResponse)) as [raw |].
    + destruct (eqb (toLowerCase host (trim raw)) (js "no text found."));
        [reflexivity |].
      unfold settling, tryCatch.
      destruct (organizeAndCorrect remote raw (List.length images) _)
        as [[a | e] t']; reflexivity.
    + unfold settling, tryCatch.
      destruct (classifyEmpty (resp_finishReason ocrResponse) _)
        as [[a | e] t']; reflexivity.
  - unfold settling. exec. rewrite <- !app_assoc. reflexivity.
Qed.

End Ocr.

Section OcrStages.

Context (host : Host) (remote : Remote) (browser : Browser).

Lemma guarded_ok (m : M jsstring) (t t' : Trace) (a : jsstring) :
  m t = (Ok a, t') -> guarded host m t = (Ok a, t').
Proof. intro H. unfold guarded, tryCatch. now rewrite H. Qed.

Lemma organize_run (rawText : jsstring) (imageCount : nat) (t : Trace) :
  organizeExtractedContent remote rawText imageCount t
  = (Ok (organizedText remote rawText imageCount t),
     t ++ organizeEvents remote rawText imageCount t).
Proof.
  unfold organizeExtractedContent, organizedText, organizeEvents. exec.
  destruct (generateContent remote t (organizeRequest rawText imageCount));
    [reflexivity | now rewrite <- app_assoc].
Qed.

Lemma organizeAndCorrect_run (rawExtractedText : jsstring) (imageCount : nat)
    (t : Trace) :
  let trimmedText := trim rawExtractedText in
  let organized := organizedText remote trimmedText imageCount (t ++ stageLogs) in
  organizeAndCorrect remote rawExtractedText imageCount t
  = (Ok (if hasEthiopic trimmedText
         then applyOfflineAmharicCorrections organized
         else organized),
     (t ++ stageLogs)
     ++ organizeEvents remote trimmedText imageCount (t ++ stageLogs)
     ++ correctionEvents (hasEthiopic trimmedText)).
Proof.
  intros trimmedText organized. subst organized.
  unfold organizeAndCorrect. fold trimmedText.
  unfold bind at 1, console at 1, emit at 1.
  unfold bind at 1, console at 1, emit at 1.
  unfold bind at 1, console at 1, emit at 1.
  unfold bind at 1.
  replace (((t ++ [EvConsole LLog (js "OCR Raw result:")])
            ++ [EvConsole LLog (js "OCR Full length:")])
           ++ [EvConsole LLog (js "Amharic detected:")])
    with (t ++ stageLogs) by (unfold stageLogs; now rewrite <- !app_assoc).
  rewrite organize_run.
  destruct (hasEthiopic trimmedText); exec; cbn [correctionEvents].
  - now rewrite <- !app_assoc.
  - now rewrite app_nil_r.
Qed.

(** A string without Ethiopic characters is left alone by the table. *)
Lemma substitute_other (c : N) : isEthiopic c = false -> substitute c = c.
Proof.
  intro H. apply substitute_fixed. unfold isSource, isEthiopic in *.
  apply andb_false_iff in H.
  repeat rewrite orb_false_iff. repeat split; apply N.eqb_neq; intros ->;
    destruct H as [H | H]; discriminate H.
Qed.

Lemma softenQe_other (s : jsstring) :
  hasEthiopic s = false -> softenQe s = s.
Proof.
  induction s as [| c s IH]; [reflexivity |].
  unfold hasEthiopic. cbn [existsb]. intro H.
  apply orb_false_iff in H. destruct H as [Hc Hs].
  rewrite softenQe_skip.
  - f_equal. now apply IH.
  - destruct (N.eqb_spec c 4672) as [-> | ?]; [discriminate Hc | reflexivity].
Qed.

Lemma corrections_no_ethiopic (s : jsstring) :
  hasEthiopic s = false -> applyOfflineAmharicCorrections s = s.
Proof.
  intro H. rewrite corrections_unfold.
  assert (Hmap : List.map substitute s = s).
  { revert H. unfold hasEthiopic. induction s as [| c s IH]; [reflexivity |].
    cbn [existsb List.map]. intro H. apply orb_false_iff in H.
    destruct H as [Hc Hs]. now rewrite substitute_other, IH. }
  rewrite Hmap. now apply softenQe_other.
Qed.

(** C7. Classification of an empty extraction.  When the reply to the
    extraction call has no text, the job fails with the content-blocked
    error if the stop reason is SAFETY, fails with the incomplete-generation
    error naming the reason if the reason is any other one than STOP, and
    returns the fixed no-text string, without an error, if the reason is
    STOP. *)
Theorem empty_extraction_classified (images : list Image) (t : Trace)
    (ocrResponse : GenResponse) :
  extractionReply remote browser images t = Ok ocrResponse ->
  truthyOpt (resp_text ocrResponse) = None ->
  let outcome := fst (performOcr host remote browser images t) in
  (resp_finishReason ocrResponse = Some (js "SAFETY") ->
   outcome = Threw (ocrFailure host (ErrorObj safetyMessage)))
  /\ (forall reason,
         resp_finishReason ocrResponse = Some reason ->
         reason <> js "SAFETY" -> reason <> [] -> reason <> js "STOP" ->
         outcome = Threw (ocrFailure host (ErrorObj (stoppedMessage reason))))
  /\ (resp_finishReason ocrResponse = Some (js "STOP") ->
      outcome = Ok noTextUnclear).
Proof.
  intros Hreply Htext outcome. subst outcome.
  rewrite performOcr_run, Hreply, Htext.
  unfold settling, guarded, classifyEmpty.
  split; [| split].
  - intros ->. reflexivity.
  - intros reason -> Hsafety Hempty Hstop.
    apply eqb_neq in Hsafety, Hstop.
    exec. rewrite Hsafety, Hstop.
    destruct reason; [congruence | reflexivity].
  - intros ->. reflexivity.
Qed.

Lemma stage_three_gating (rawExtractedText : jsstring)
    (imageCount : nat) (t : Trace) :
  let trimmedText := trim rawExtractedText in
  let organized := organizedText remote trimmedText imageCount (t ++ stageLogs) in
  let atOrganized :=
    snd (organizeExtractedContent remote trimmedText imageCount (t ++ stageLogs)) in
  let run := organizeAndCorrect remote rawExtractedText imageCount t in
  snd run = atOrganized ++ correctionEvents (hasEthiopic trimmedText)
  /\ filter isProviderCall (correctionEvents (hasEthiopic trimmedText)) = []
  /\ fst run = Ok (if hasEthiopic trimmedText
                   then applyOfflineAmharicCorrections organized
                   else organized)
  /\ (hasEthiopic organized = false -> fst run = Ok organized).
Proof.
  intros trimmedText organized atOrganized run. subst run atOrganized.
  rewrite organizeAndCorrect_run, organize_run.
  fold trimmedText organized. cbn [fst snd].
  split; [rewrite <- !app_assoc; reflexivity |].
  split; [destruct (hasEthiopic trimmedText); reflexivity |].
  split; [reflexivity |].
  intro H. destruct (hasEthiopic trimmedText); [| reflexivity].
  now rewrite corrections_no_ethiopic.
Qed.

(** The stages after a successful extraction never fail the job. *)
Lemma performOcr_after_extraction (images : list Image) (t : Trace)
    (ocrResponse : GenResponse) (rawExtractedText : jsstring) :
  extractionReply remote browser images t = Ok ocrResponse ->
  truthyOpt (resp_text ocrResponse) = Some rawExtractedText ->
  performOcr host remote browser images t
  = if eqb (toLowerCase host (trim rawExtractedText)) (js "no text found.")
    then (Settled (Ok noText), afterExtraction remote browser images t)
    else settling (organizeAndCorrect remote rawExtractedText (List.length images))
           (afterExtraction remote browser images t).
Proof.
  intros Hreply Htext. rewrite performOcr_run, Hreply, Htext.
  destruct (eqb (toLowerCase host (trim rawExtractedText)) (js "no text found."));
    [reflexivity |].
  unfold settling.
  rewrite (guarded_ok _ _ (organizeAndCorrect_run rawExtractedText _ _)).
  now rewrite organizeAndCorrect_run.
Qed.

(** C8 (as amended).  On a job whose extraction returned text, stage three
    is a local, total transformation: after the Organize call no provider is
    called and the job returns a text.  The stage is applied exactly when the
    trimmed raw extraction has a character of the Ethiopic block
    (U+1200 to U+137F).  Whenever the organized text has no such character
    the result of the job is the organized text, unchanged. *)
Theorem script_correction_gating (images : list Image) (t0 : Trace)
    (ocrResponse : GenResponse) (rawExtractedText : jsstring) :
  extractionReply remote browser images t0 = Ok ocrResponse ->
  truthyOpt (resp_text ocrResponse) = Some rawExtractedText ->
  toLowerCase host (trim rawExtractedText) <> js "no text found." ->
  let t := afterExtraction remote browser images t0 in
  let trimmedText := trim rawExtractedText in
  let organized :=
    organizedText remote trimmedText (List.length images) (t ++ stageLogs) in
  let atOrganized :=
    snd (organizeExtractedContent remote trimmedText (List.length images)
           (t ++ stageLogs)) in
  let job := performOcr host remote browser images t0 in
  snd job = atOrganized ++ correctionEvents (hasEthiopic trimmedText)
  /\ filter isProviderCall (correctionEvents (hasEthiopic trimmedText)) = []
  /\ fst job = Ok (if hasEthiopic trimmedText
                   then applyOfflineAmharicCorrections organized
                   else organized)
  /\ (hasEthiopic organized = false -> fst job = Ok organized).
Proof.
  intros Hreply Htext Hfound t trimmedText organized atOrganized job.
  subst job. rewrite (performOcr_after_extraction _ _ Hreply Htext).
  apply eqb_neq in Hfound. rewrite Hfound.
  destruct (stage_three_gating rawExtractedText (List.length images) t)
    as (Htrace & Hquiet & Hresult & Hplain).
  fold trimmedText organized atOrganized in Htrace, Hquiet, Hresult, Hplain.
  fold t. rewrite settling_fst, settling_snd.
  split; [exact Htrace |]. split; [exact Hquiet |].
  split; [now rewrite Hresult |].
  intro H. now rewrite (Hplain H).
Qed.



End OcrStages.

(* ================================================================= *)
(** ** A worked OCR job *)

Lemma empty_extraction_classified_witness :
  fst (performOcr sampleHost (ocrRemote None (Some (js "SAFETY")) []) sampleBrowser
         [page (js "AAAA")] [])
  = Threw (ErrorObj (js "The OCR Operation failed: The OCR request was blocked due to safety settings. Please check the input images."))
  /\ fst (performOcr sampleHost (ocrRemote None (Some (js "MAX_TOKENS")) [])
            sampleBrowser [page (js "AAAA")] [])
     = Threw (ErrorObj (js "The OCR Operation failed: OCR failed. The model stopped for reason: MAX_TOKENS."))
  /\ fst (performOcr sampleHost (ocrRemote None (Some (js "STOP")) []) sampleBrowser
            [page (js "AAAA")] [])
     = Ok (js "No text could be extracted from the provided image(s). They may be empty or unclear.").
Proof.
  split; [| split].
  - rewrite (proj1 (@empty_extraction_classified sampleHost
                      (ocrRemote None (Some (js "SAFETY")) []) sampleBrowser
                      [page (js "AAAA")] [] _ eq_refl eq_refl) eq_refl).
    vm_compute. reflexivity.
  - rewrite (proj1 (proj2 (@empty_extraction_classified sampleHost
                      (ocrRemote None (Some (js "MAX_TOKENS")) []) sampleBrowser
                      [page (js "AAAA")] [] _ eq_refl eq_refl))
               (js "MAX_TOKENS") eq_refl
               ltac:(vm_compute; discriminate)
               ltac:(vm_compute; discriminate)
               ltac:(vm_compute; discriminate)).
    vm_compute. reflexivity.
  - rewrite (proj2 (proj2 (@empty_extraction_classified sampleHost
                      (ocrRemote None (Some (js "STOP")) []) sampleBrowser
                      [page (js "AAAA")] [] _ eq_refl eq_refl)) eq_refl).
    vm_compute. reflexivity.
Defined.

Lemma script_correction_gating_witness :
  fst (performOcr sampleHost (ocrRemote (Some (js "ሠላም 12")) None (js "Hello 12"))
         sampleBrowser [page (js "AAAA")] [])
  = Ok (js "Hello 12").
Proof.
  refine (proj2 (proj2 (proj2 (@script_correction_gating sampleHost
            (ocrRemote (Some (js "ሠላም 12")) None (js "Hello 12")) sampleBrowser
            [page (js "AAAA")] [] _ (js "ሠላም 12") eq_refl eq_refl _))) _).
  - vm_compute. discriminate.
  - vm_compute. reflexivity.
Defined.

(** C8 as stated fails: the raw extraction has Ethiopic characters, the
    organized text has none, and stage three is applied all the same. *)
Lemma correction_applied_without_ethiopic :
  let remote := ocrRemote (Some (js "ሠላም 12")) None (js "Hello 12") in
  let t := afterExtraction remote sampleBrowser [page (js "AAAA")] [] in
  let organized := organizedText remote (js "ሠላም 12") 1 (t ++ stageLogs) in
  let job := performOcr sampleHost remote sampleBrowser [page (js "AAAA")] [] in
  organized = js "Hello 12"
  /\ hasEthiopic organized = false
  /\ existsb isCorrectionStart (snd job) = true.
Proof. vm_compute. repeat split; reflexivity. Qed.



(** A job that never returns: an image of 1 by 5000 pixels is scaled by
    0.4096, its canvas gets a width of 0, reading the pixels throws inside
    the load handler, and the job waits for ever without calling a
    provider. *)
Example thin_image_never_returns :
  ocrSize thinBrowser 1 5000 2048 2048 = (0, 2048)
  /\ normalized thinBrowser (page (js "AAAA")) = Pending
  /\ performOcr sampleHost (ocrRemote (Some (js "Hello")) None (js "Hello"))
       thinBrowser [page (js "AAAA")] [] = (Pending, []).
Proof. vm_compute. repeat split; reflexivity. Qed.

(* ================================================================= *)
(** ** Rounding of sizes *)

Section Rounding.

Local Open Scope Q_scope.

Context (F : FloatModel).

























End Rounding.

(* ================================================================= *)
(** ** The image normalizer *)

Section NormalizerFacts.

Context (host : Host) (browser : Browser) (files : FileHost).

Lemma processAndEncode_output (canvas : Canvas) (t t' : Trace) (image : Image) :
  processAndEncode browser canvas t = (Ok image, t') ->
  image = {| mimeType := jpeg;
             data := base64Of (toDataURL browser (finalCanvas browser canvas) jpeg) |}.
Proof.
  unfold processAndEncode. exec.
  destruct (needsResize canvas
            && negb (getContext2d browser (cv_width (resized browser canvas))
                       (cv_height (resized browser canvas)))); exec;
    destruct (truthy (base64Of (toDataURL browser (finalCanvas browser canvas)
                                  (js "image/jpeg"))));
    intro H; inversion H; reflexivity.
Qed.





End NormalizerFacts.

Section DataUrl.







End DataUrl.

Section SizeContract.

Context (host : Host) (browser : Browser) (files : FileHost).



(** Every success of [fileToBase64] is the pass-through of a small JPEG or
    the encoding of the decoded canvas. *)
Lemma fileToBase64_routes (file : File) (t t' : Trace) (image : Image) :
  fileToBase64 host browser files file t = (Ok image, t') ->
  (exists size,
      isTiff host file = false /\ loadFile files file = Some size
      /\ isSmallJpeg file size = true
      /\ passThrough files file t = (Ok image, t'))
  \/ (exists size,
         processAndEncode browser (sourceCanvas file size) t = (Ok image, t')).
Proof.
  unfold fileToBase64.
  destruct (isTiff host file).
  - exec. destruct (readAsArrayBuffer files file) as [[|] | e];
      cbn [negb]; try discriminate.
    destruct (tiffToCanvas files file) as [[size |] | e]; exec;
      try discriminate.
    intro H. right. now exists size.
  - destruct (loadFile files file) as [size |]; [| discriminate].
    destruct (isSmallJpeg file size) eqn:Hsmall.
    + intro H. left. now exists size.
    + destruct (getContext2d browser (fst size) (snd size)); cbn [negb];
        [| discriminate].
      intro H. right. now exists size.
Qed.


End SizeContract.

(* ================================================================= *)
(** ** Worked normalizations *)



(* ================================================================= *)
(** * Further properties of the code *)

(** ** The correction table, continued *)

Section CorrectionFrame.

Lemma softenQe_length_upto (n : nat) (s : jsstring) :
  (List.length s <= n)%nat -> List.length (softenQe s) = List.length s.
Proof.
  revert s. induction n as [| n IH]; intros s Hlen.
  - destruct s; [reflexivity | simpl in Hlen; lia].
  - destruct s as [| c t]; [reflexivity |].
    destruct (softenQe_cases c t) as [(d & rest & -> & -> & Hd) | Hskip].
    + rewrite (@softenQe_match d rest Hd). simpl. rewrite IH; [reflexivity |].
      simpl in Hlen. lia.
    + rewrite (@softenQe_skip c t Hskip). simpl. rewrite IH; [reflexivity |].
      simpl in Hlen. lia.
Qed.

Lemma hasQePair_cons (c : N) (t : jsstring) :
  hasQePair (c :: t)
  = ((c =? 4672) && inClass vowelClass (hd 0 t)) || hasQePair t.
Proof.
  destruct t as [| d t']; [| reflexivity].
  simpl. now rewrite andb_false_r.
Qed.

Lemma softenQe_no_pair_upto (n : nat) (s : jsstring) :
  (List.length s <= n)%nat -> hasQePair (softenQe s) = false.
Proof.
  revert s. induction n as [| n IH]; intros s Hlen.
  - destruct s; [reflexivity | simpl in Hlen; lia].
  - destruct s as [| c t]; [reflexivity |].
    destruct (softenQe_cases c t) as [(d & rest & -> & -> & Hd) | Hskip].
    + rewrite (@softenQe_match d rest Hd).
      rewrite hasQePair_cons.
      change (4677 =? 4672) with false. rewrite andb_false_l, orb_false_l.
      rewrite hasQePair_cons.
      rewrite IH by (simpl in Hlen; lia).
      assert (Hq : (d =? 4672) = false).
      { destruct (N.eqb_spec d 4672) as [-> |]; [| reflexivity].
        vm_compute in Hd. discriminate. }
      now rewrite Hq.
    + rewrite (@softenQe_skip c t Hskip).
      rewrite hasQePair_cons.
      rewrite IH by (simpl in Hlen; lia).
      rewrite orb_false_r.
      destruct (c =? 4672); [| reflexivity].
      simpl in Hskip |- *.
      destruct (softenQe_head t) as [-> | ->]; [exact Hskip | reflexivity].
Qed.

Lemma forallb_negb_existsb (A : Type) (p : A -> bool) (l : list A) :
  forallb (fun c => negb (p c)) l = true -> existsb p l = false.
Proof.
  induction l as [| a l IH]; [reflexivity |].
  simpl. intros H. apply andb_true_iff in H as [Ha Hl].
  rewrite (IH Hl). now destruct (p a).
Qed.

Lemma softenQe_nth_upto (n : nat) (s : jsstring) (i : nat) :
  (List.length s <= n)%nat ->
  nth i s 0 <> 4672 -> nth i (softenQe s) 0 = nth i s 0.
Proof.
  revert s i. induction n as [| n IH]; intros s i Hlen Hi.
  - destruct s; [reflexivity | simpl in Hlen; lia].
  - destruct s as [| c t]; [reflexivity |].
    destruct (softenQe_cases c t) as [(d & rest & -> & -> & Hd) | Hskip].
    + rewrite (@softenQe_match d rest Hd).
      destruct i as [| [| i]]; [now elim Hi | reflexivity |].
      simpl in Hi |- *. apply IH; [simpl in Hlen; lia | exact Hi].
    + rewrite (@softenQe_skip c t Hskip).
      destruct i as [| i]; [reflexivity |].
      simpl in Hi |- *. apply IH; [simpl in Hlen; lia | exact Hi].
Qed.

(** X1. The offline corrections never change the length of a text: every rule
    of the table replaces one character by one character (the fifth rule two
    by two). *)
Theorem corrections_preserve_length (text : jsstring) :
  List.length (applyOfflineAmharicCorrections text) = List.length text.
Proof.
  rewrite corrections_unfold.
  rewrite (@softenQe_length_upto (List.length (List.map substitute text)))
    by lia.
  apply length_map.
Qed.

(** X2. The corrections are complete: in a corrected text none of the four
    confusable letters ሠ, ኣ, ሃ, ኧ occurs any more, and no ቀ is directly
    followed by one of ይ ዩ የ ዮ ዪ ዒ. *)
Theorem corrections_leave_no_match (text : jsstring) :
  existsb isSource (applyOfflineAmharicCorrections text) = false
  /\ hasQePair (applyOfflineAmharicCorrections text) = false.
Proof.
  rewrite corrections_unfold. split.
  - apply forallb_negb_existsb.
    apply (@softenQe_keeps_clean (List.length (List.map substitute text)));
      [lia | apply map_substitute_clean].
  - apply (@softenQe_no_pair_upto (List.length (List.map substitute text))).
    lia.
Qed.

(** X3. The corrections touch nothing but the five letters of the table: a
    position that holds neither ሠ, ኣ, ሃ, ኧ nor ቀ holds the same character
    after the corrections. *)
Theorem corrections_frame (text : jsstring) (i : nat) :
  isSource (nth i text 0) = false -> nth i text 0 <> 4672 ->
  nth i (applyOfflineAmharicCorrections text) 0 = nth i text 0.
Proof.
  intros Hsrc Hq.
  rewrite corrections_unfold.
  assert (E : nth i (List.map substitute text) 0 = nth i text 0).
  { change 0 with (substitute 0) at 1. rewrite map_nth.
    now apply substitute_fixed. }
  rewrite (@softenQe_nth_upto (List.length (List.map substitute text)));
    [exact E | lia | now rewrite E].
Qed.

End CorrectionFrame.

Lemma corrections_frame_witness :
  nth 1 (applyOfflineAmharicCorrections (js "ሠላም")) 0 = nth 1 (js "ሠላም") 0.
Proof.
  apply (@corrections_frame (js "ሠላም") 1); [reflexivity |].
  vm_compute. discriminate.
Defined.

(* ================================================================= *)
(** ** The multimodal client, continued *)

Section ChatReplies.

Context (host : Host) (remote : Remote).

Lemma generateResponse_failure_named
    (prompt previousArtifact model instruction : jsstring)
    (images : option (list Image)) (t : Trace) :
  match fst (generateResponse host remote prompt previousArtifact model
               instruction images t) with
  | Ok _ => True
  | Threw e =>
      exists cause, e = ErrorObj (errorMessageFor host cause (js "Chat Response"))
  end.
Proof.
  unfold generateResponse. exec.
  destruct (generateContent remote t _) as [resp | e0]; exec.
  - destruct (truthyOpt (resp_text resp)) as [text |]; exec.
    + destruct (negb (startsWith (trim text) (js "{"))
                || negb (endsWith (trim text) (js "}"))); exec.
      * eexists. reflexivity.
      * destruct (JSON_parse host (trim text)); exec.
        -- exact I.
        -- eexists. reflexivity.
    + eexists. reflexivity.
  - eexists. reflexivity.
Qed.

(** X4. A reply without usable JSON never reaches the parser.  When the
    provider returns no text (or an empty one), [generateResponse] fails with
    the message for an empty or invalid response; when the trimmed text does
    not start with an opening brace or does not end with a closing one, it
    fails with the message for a non-JSON response, whatever [JSON.parse]
    would have made of the text.  Both failures are reported through
    [handleApiError] under the operation name Chat Response. *)
Theorem malformed_reply_rejected
    (prompt previousArtifact model instruction : jsstring)
    (images : option (list Image)) (t : Trace) (resp : GenResponse) :
  generateContent remote t
    (chatRequest prompt previousArtifact model instruction images) = Ok resp ->
  let outcome :=
    fst (generateResponse host remote prompt previousArtifact model
           instruction images t) in
  (truthyOpt (resp_text resp) = None ->
   outcome
   = Threw (ErrorObj
       (errorMessageFor host
          (ErrorObj (js "Received an empty or invalid response from the API."))
          (js "Chat Response"))))
  /\ (forall text,
         truthyOpt (resp_text resp) = Some text ->
         startsWith (trim text) (js "{") && endsWith (trim text) (js "}")
         = false ->
         outcome
         = Threw (ErrorObj
             (errorMessageFor host
                (ErrorObj (js "Received a non-JSON response from the API."))
                (js "Chat Response")))).
Proof.
  intros Hreply outcome. subst outcome.
  unfold generateResponse. exec. rewrite Hreply. split.
  - intros ->. reflexivity.
  - intros text -> Hshape.
    cbv zeta.
    assert (E : negb (startsWith (trim text) (js "{"))
                || negb (endsWith (trim text) (js "}")) = true).
    { rewrite <- negb_andb. now rewrite Hshape. }
    rewrite E. reflexivity.
Qed.

End ChatReplies.

Lemma malformed_reply_rejected_witness :
  fst (generateResponse sampleHost (sampleRemote (js "Sure, here you go!"))
         (js "hi") [] (js "gemini-2.5-flash") [] None [])
  = Threw (ErrorObj (js "The Chat Response failed: Received a non-JSON response from the API.")).
Proof.
  refine (proj2 (@malformed_reply_rejected sampleHost
                   (sampleRemote (js "Sure, here you go!"))
                   (js "hi") [] (js "gemini-2.5-flash") [] None [] _ _)
            (js "Sure, here you go!") _ _); reflexivity.
Defined.

(* ================================================================= *)
(** ** Title generation, continued *)

Section TitleShape.

Context (remote : Remote).




(** X6. Title generation never fails and costs exactly one provider call:
    whatever the provider does, [generateTitleFromContent] returns a title,
    and the only provider call it makes is the title request. *)
Theorem title_total_one_call (prompt : jsstring) (image : option Image)
    (t : Trace) :
  let run := generateTitleFromContent remote prompt image t in
  isOk (fst run) = true
  /\ exists added,
       snd run = t ++ added
       /\ filter isProviderCall added
          = [EvGenerateContent (titleRequest prompt image)
               (generateContent remote t (titleRequest prompt image))].
Proof.
  cbv zeta. split; [apply generateTitle_total |].
  unfold generateTitleFromContent. exec.
  destruct (generateContent remote t (titleRequest prompt image))
    as [resp | e] eqn:Hreply.
  - exists [EvGenerateContent (titleRequest prompt image) (Ok resp)].
    split; [| reflexivity].
    destruct (truthyOpt (resp_text resp)); reflexivity.
  - eexists. split.
    + simpl. rewrite <- app_assoc. reflexivity.
    + reflexivity.
Qed.

End TitleShape.


(* ================================================================= *)
(** ** The send handler, continued *)

Section SendHandler.

Context (host : Host) (remote : Remote).
Context (persona0 : Persona) (otherPersonas : list Persona).

Lemma generateTitle_trace (prompt : jsstring) (image : option Image)
    (t : Trace) :
  exists logs,
    snd (generateTitleFromContent remote prompt image t)
    = t ++ EvGenerateContent (titleRequest prompt image)
             (generateContent remote t (titleRequest prompt image)) :: logs
    /\ forallb isConsole logs = true.
Proof.
  unfold generateTitleFromContent. exec.
  destruct (generateContent remote t (titleRequest prompt image))
    as [resp | e].
  - exists []. split; [| reflexivity].
    destruct (truthyOpt (resp_text resp)); reflexivity.
  - eexists. split; [rewrite <- app_assoc; reflexivity | reflexivity].
Qed.

Lemma chooseTitle_run (conv : Conversation) (text : jsstring)
    (images : option (list Image)) (t : Trace) :
  chooseTitle remote conv text images t
  = if isNewChat conv
    then generateTitleFromContent remote text (firstImage images) t
    else (Ok (title conv), t).
Proof.
  unfold chooseTitle, isNewChat.
  destruct (eqb (title conv) (js "New Chat")
            && (List.length (messages conv) =? 1)%nat); [| reflexivity].
  unfold tryCatch.
  pose proof (generateTitle_total remote text (firstImage images) t) as Ht.
  destruct (generateTitleFromContent remote text (firstImage images) t)
    as [[a | e] t']; [reflexivity | discriminate Ht].
Qed.

Lemma chooseTitle_ok (conv : Conversation) (text : jsstring)
    (images : option (list Image)) (t : Trace) :
  exists newTitle, fst (chooseTitle remote conv text images t) = Ok newTitle.
Proof.
  rewrite chooseTitle_run.
  destruct (isNewChat conv); [| eexists; reflexivity].
  pose proof (generateTitle_total remote text (firstImage images) t) as Ht.
  destruct (fst (generateTitleFromContent remote text (firstImage images) t))
    as [a | e]; [eexists; reflexivity | discriminate Ht].
Qed.

(** The handler, run on a state with an active conversation. *)
Lemma handleSendMessage_run (text : jsstring) (images : option (list Image))
    (st : AppState) (conv : Conversation) (t : Trace) (newTitle : jsstring) :
  activeConversation st = Some conv ->
  fst (chooseTitle remote conv text images t) = Ok newTitle ->
  let g :=
    generateResponse host remote text (conv_artifactContent conv)
      (conv_model conv)
      (persona_systemInstruction (activePersona persona0 otherPersonas st))
      images (snd (chooseTitle remote conv text images t)) in
  let ms := messages conv ++ [userMessage text images] in
  let st1 :=
    updateActiveConversation (withTitleAndMessages newTitle ms)
      (setError None (setIsLoading true st)) in
  handleSendMessage host remote persona0 otherPersonas text images st t
  = (Ok (setIsLoading false
           match fst g with
           | Ok response =>
               updateActiveConversation
                 (applyResponse response (ms ++ [replyMessage (fst g)])) st1
           | Threw err =>
               updateActiveConversation
                 (withMessages (ms ++ [replyMessage (fst g)]))
                 (setError (Some (thrownMessage err)) st1)
           end),
     snd g).
Proof.
  intros Hconv Htitle g ms st1. subst g ms st1.
  unfold handleSendMessage. rewrite Hconv.
  unfold bind at 1.
  destruct (chooseTitle remote conv text images t) as [[title' | e] t1];
    [| discriminate Htitle].
  cbn [fst] in Htitle. injection Htitle as ->. cbn [snd].
  unfold bind, tryCatch, ret.
  destruct (generateResponse host remote text (conv_artifactContent conv)
              (conv_model conv)
              (persona_systemInstruction
                 (activePersona persona0 otherPersonas st)) images t1)
    as [[response | err] t2];
    cbn [fst snd]; unfold replyMessage, userMessage; reflexivity.
Qed.

Lemma isActive_update (f : Conversation -> Conversation) (st : AppState)
    (c : Conversation) :
  isActive (updateActiveConversation f st) c = isActive st c.
Proof. reflexivity. Qed.

Lemma update_update (f g : Conversation -> Conversation) (st : AppState) :
  (forall c, id (f c) = id c) ->
  conversations (updateActiveConversation g (updateActiveConversation f st))
  = List.map (fun c => if isActive st c then g (f c) else c) (conversations st).
Proof.
  intros Hid. cbn [updateActiveConversation conversations].
  rewrite map_map. apply map_ext. intros c.
  rewrite isActive_update.
  destruct (isActive st c) eqn:E.
  - assert (E' : isActive st (f c) = true).
    { unfold isActive in *. now rewrite Hid. }
    now rewrite E'.
  - now rewrite E.
Qed.

(** X7. Every turn appends exactly two chat entries.  With an active
    conversation the send handler always completes; afterwards the active
    conversation holds its earlier messages followed by the user's entry and
    one entry of the model (the reply, or an apology carrying the error
    message), its id, model and persona are unchanged, the loading flag is
    off, and the error field is empty after a success and holds the message
    of the failure otherwise. *)
Theorem send_appends_two_entries (text : jsstring)
    (images : option (list Image)) (st : AppState) (conv : Conversation)
    (t : Trace) :
  activeConversation st = Some conv ->
  let outcome :=
    fst (generateResponse host remote text (conv_artifactContent conv)
           (conv_model conv)
           (persona_systemInstruction (activePersona persona0 otherPersonas st))
           images (snd (chooseTitle remote conv text images t))) in
  exists st' conv',
    fst (handleSendMessage host remote persona0 otherPersonas text images st t)
    = Ok st'
    /\ activeConversation st' = Some conv'
    /\ messages conv'
       = messages conv ++ [userMessage text images; replyMessage outcome]
    /\ id conv' = id conv
    /\ conv_model conv' = conv_model conv
    /\ personaId conv' = personaId conv
    /\ isLoading st' = false
    /\ error st' = match outcome with
                   | Ok _ => None
                   | Threw err => Some (thrownMessage err)
                   end.
Proof.
  intros Hconv outcome. subst outcome.
  destruct (chooseTitle_ok conv text images t) as [newTitle Htitle].
  rewrite (handleSendMessage_run text images st t Hconv Htitle).
  cbn [fst].
  destruct (fst (generateResponse host remote text (conv_artifactContent conv)
                   (conv_model conv)
                   (persona_systemInstruction
                      (activePersona persona0 otherPersonas st)) images
                   (snd (chooseTitle remote conv text images t))))
    as [response | err].
  - eexists. eexists. split; [reflexivity |]. split.
    + rewrite activeConversation_setIsLoading.
      rewrite !activeConversation_update by reflexivity.
      rewrite activeConversation_setError, activeConversation_setIsLoading,
        Hconv.
      reflexivity.
    + cbn [messages id conv_model personaId isLoading error applyResponse
             withTitleAndMessages withMessages setIsLoading setError
             updateActiveConversation].
      rewrite <- app_assoc. repeat split; reflexivity.
  - eexists. eexists. split; [reflexivity |]. split.
    + rewrite activeConversation_setIsLoading.
      rewrite activeConversation_update by reflexivity.
      rewrite activeConversation_setError.
      rewrite activeConversation_update by reflexivity.
      rewrite activeConversation_setError, activeConversation_setIsLoading,
        Hconv.
      reflexivity.
    + cbn [messages id conv_model personaId isLoading error applyResponse
             withTitleAndMessages withMessages setIsLoading setError
             updateActiveConversation].
      rewrite <- app_assoc. repeat split; reflexivity.
Qed.

(** X8. A turn rewrites the active conversation only.  The handler leaves the
    conversation list in its order, changes no conversation whose id is not
    the active one, keeps the id of those it rewrites, and does not move the
    selection. *)
Theorem send_frame (text : jsstring) (images : option (list Image))
    (st : AppState) (conv : Conversation) (t : Trace) :
  activeConversation st = Some conv ->
  exists st' update,
    fst (handleSendMessage host remote persona0 otherPersonas text images st t)
    = Ok st'
    /\ conversations st'
       = List.map (fun c => if isActive st c then update c else c)
           (conversations st)
    /\ (forall c, id (update c) = id c)
    /\ activeConversationId st' = activeConversationId st.
Proof.
  intros Hconv.
  destruct (chooseTitle_ok conv text images t) as [newTitle Htitle].
  rewrite (handleSendMessage_run text images st t Hconv Htitle).
  cbn [fst].
  destruct (fst (generateResponse host remote text (conv_artifactContent conv)
                   (conv_model conv)
                   (persona_systemInstruction
                      (activePersona persona0 otherPersonas st)) images
                   (snd (chooseTitle remote conv text images t))))
    as [response | err].
  - exists (setIsLoading false
              (updateActiveConversation
                 (applyResponse response
                    ((messages conv ++ [userMessage text images])
                     ++ [replyMessage (Ok response)]))
                 (updateActiveConversation
                    (withTitleAndMessages newTitle
                       (messages conv ++ [userMessage text images]))
                    (setError None (setIsLoading true st))))).
    exists (fun c =>
              applyResponse response
                ((messages conv ++ [userMessage text images])
                 ++ [replyMessage (Ok response)])
                (withTitleAndMessages newTitle
                   (messages conv ++ [userMessage text images]) c)).
    split; [reflexivity |]. split; [| split; reflexivity].
    change (conversations (setIsLoading false ?s)) with (conversations s).
    now rewrite update_update.
  - exists (setIsLoading false
              (updateActiveConversation
                 (withMessages
                    ((messages conv ++ [userMessage text images])
                     ++ [replyMessage (Threw err)]))
                 (setError (Some (thrownMessage err))
                    (updateActiveConversation
                       (withTitleAndMessages newTitle
                          (messages conv ++ [userMessage text images]))
                       (setError None (setIsLoading true st)))))).
    exists (fun c =>
              withMessages
                ((messages conv ++ [userMessage text images])
                 ++ [replyMessage (Threw err)])
                (withTitleAndMessages newTitle
                   (messages conv ++ [userMessage text images]) c)).
    split; [reflexivity |]. split; [| split; reflexivity].
    change (conversations (setIsLoading false ?s)) with (conversations s).
    change (setError (Some (thrownMessage err))
              (updateActiveConversation ?f ?s))
      with (updateActiveConversation f (setError (Some (thrownMessage err)) s)).
    now rewrite update_update.
Qed.

(** X9. A title is generated for a fresh conversation only.  When the active
    conversation is still called New Chat and holds one message, the turn
    makes two provider calls, the title request and then the chat request,
    and the conversation takes the generated title; otherwise the title is
    kept and the chat request is the only provider call. *)
Theorem send_title_and_calls (text : jsstring) (images : option (list Image))
    (st : AppState) (conv : Conversation) (t : Trace) :
  activeConversation st = Some conv ->
  let titleReq := titleRequest text (firstImage images) in
  let t1 := snd (chooseTitle remote conv text images t) in
  let chatReq :=
    chatRequest text (conv_artifactContent conv) (conv_model conv)
      (persona_systemInstruction (activePersona persona0 otherPersonas st))
      images in
  exists st' conv' added,
    handleSendMessage host remote persona0 otherPersonas text images st t
    = (Ok st', t ++ added)
    /\ activeConversation st' = Some conv'
    /\ Ok (title conv')
       = (if isNewChat conv
          then fst (generateTitleFromContent remote text (firstImage images) t)
          else Ok (title conv))
    /\ filter isProviderCall added
       = (if isNewChat conv
          then [EvGenerateContent titleReq (generateContent remote t titleReq)]
          else [])
         ++ [EvGenerateContent chatReq (generateContent remote t1 chatReq)].
Proof.
  intros Hconv titleReq t1 chatReq.
  destruct (chooseTitle_ok conv text images t) as [newTitle Htitle].
  rewrite (handleSendMessage_run text images st t Hconv Htitle).
  fold t1.
  destruct (generateResponse_trace host remote text (conv_artifactContent conv)
              (conv_model conv)
              (persona_systemInstruction
                 (activePersona persona0 otherPersonas st)) images t1)
    as (logs & Htrace & Hlogs).
  fold chatReq in Htrace.
  assert (Ht1 : exists pre,
             t1 = t ++ pre
             /\ filter isProviderCall pre
                = if isNewChat conv
                  then [EvGenerateContent titleReq
                          (generateContent remote t titleReq)]
                  else []).
  { subst t1. rewrite chooseTitle_run.
    destruct (isNewChat conv).
    - destruct (generateTitle_trace text (firstImage images) t)
        as (tlogs & Htt & Htlogs).
      exists (EvGenerateContent titleReq (generateContent remote t titleReq)
              :: tlogs).
      split; [exact Htt |].
      cbn [filter isProviderCall isReasoningCall isDeepSeekCall
             isOpenRouterCall isGenerateContentCall orb].
      now rewrite (filter_console isProviderCall tlogs (fun _ _ => eq_refl)
                     Htlogs).
    - exists []. split; [now rewrite app_nil_r | reflexivity]. }
  destruct Ht1 as (pre & Hpre & Hcalls).
  assert (Hnew : Ok newTitle
                 = if isNewChat conv
                   then fst (generateTitleFromContent remote text
                               (firstImage images) t)
                   else Ok (title conv)).
  { rewrite <- Htitle. rewrite chooseTitle_run.
    now destruct (isNewChat conv). }
  destruct (fst (generateResponse host remote text (conv_artifactContent conv)
                   (conv_model conv)
                   (persona_systemInstruction
                      (activePersona persona0 otherPersonas st)) images t1))
    as [response | err].
  - eexists. eexists.
    exists (pre ++ EvGenerateContent chatReq (generateContent remote t1 chatReq)
                :: logs).
    split; [rewrite Htrace; apply f_equal2;
              [reflexivity | rewrite Hpre, <- app_assoc; reflexivity] |].
    split.
    + rewrite activeConversation_setIsLoading.
      rewrite !activeConversation_update by reflexivity.
      rewrite activeConversation_setError, activeConversation_setIsLoading,
        Hconv.
      reflexivity.
    + split; [exact Hnew |].
      rewrite filter_app, Hcalls.
      cbn [filter isProviderCall isReasoningCall isDeepSeekCall
             isOpenRouterCall isGenerateContentCall orb].
      now rewrite (filter_console isProviderCall logs (fun _ _ => eq_refl)
                     Hlogs).
  - eexists. eexists.
    exists (pre ++ EvGenerateContent chatReq (generateContent remote t1 chatReq)
                :: logs).
    split; [rewrite Htrace; apply f_equal2;
              [reflexivity | rewrite Hpre, <- app_assoc; reflexivity] |].
    split.
    + rewrite activeConversation_setIsLoading.
      rewrite activeConversation_update by reflexivity.
      rewrite activeConversation_setError.
      rewrite activeConversation_update by reflexivity.
      rewrite activeConversation_setError, activeConversation_setIsLoading,
        Hconv.
      reflexivity.
    + split; [exact Hnew |].
      rewrite filter_app, Hcalls.
      cbn [filter isProviderCall isReasoningCall isDeepSeekCall
             isOpenRouterCall isGenerateContentCall orb].
      now rewrite (filter_console isProviderCall logs (fun _ _ => eq_refl)
                     Hlogs).
Qed.

(** X10. The artifact panel is never hidden by a turn.  After a turn the
    panel is visible when it was visible before, or when the reply succeeded
    and brought an artifact that is not blank and differs both from the
    stored artifact and from the placeholder text; a non-blank artifact of a
    successful reply replaces the stored one as a whole. *)
Theorem send_artifact_and_panel (text : jsstring)
    (images : option (list Image)) (st : AppState) (conv : Conversation)
    (t : Trace) :
  activeConversation st = Some conv ->
  let outcome :=
    fst (generateResponse host remote text (conv_artifactContent conv)
           (conv_model conv)
           (persona_systemInstruction (activePersona persona0 otherPersonas st))
           images (snd (chooseTitle remote conv text images t))) in
  exists st' conv',
    fst (handleSendMessage host remote persona0 otherPersonas text images st t)
    = Ok st'
    /\ activeConversation st' = Some conv'
    /\ isArtifactVisible conv'
       = isArtifactVisible conv || bringsNewArtifact conv outcome
    /\ (forall response,
           outcome = Ok response ->
           nonBlank (artifactContent response) = true ->
           conv_artifactContent conv' = artifactContent response).
Proof.
  intros Hconv outcome. subst outcome.
  destruct (chooseTitle_ok conv text images t) as [newTitle Htitle].
  rewrite (handleSendMessage_run text images st t Hconv Htitle).
  cbn [fst].
  destruct (fst (generateResponse host remote text (conv_artifactContent conv)
                   (conv_model conv)
                   (persona_systemInstruction
                      (activePersona persona0 otherPersonas st)) images
                   (snd (chooseTitle remote conv text images t))))
    as [response | err].
  - eexists. eexists. split; [reflexivity |]. split.
    + rewrite activeConversation_setIsLoading.
      rewrite !activeConversation_update by reflexivity.
      rewrite activeConversation_setError, activeConversation_setIsLoading,
        Hconv.
      reflexivity.
    + cbn [isArtifactVisible conv_artifactContent applyResponse
             withTitleAndMessages bringsNewArtifact].
      split; [reflexivity |].
      intros response' [= <-] Hblank. now rewrite Hblank.
  - eexists. eexists. split; [reflexivity |]. split.
    + rewrite activeConversation_setIsLoading.
      rewrite activeConversation_update by reflexivity.
      rewrite activeConversation_setError.
      rewrite activeConversation_update by reflexivity.
      rewrite activeConversation_setError, activeConversation_setIsLoading,
        Hconv.
      reflexivity.
    + cbn [isArtifactVisible conv_artifactContent withMessages
             withTitleAndMessages bringsNewArtifact].
      split; [now rewrite orb_false_r | discriminate].
Qed.

(** X11. A failed turn reports an error that names the operation.  When the
    chat call of a turn fails, the value caught by the handler is always an
    [Error] built by [handleApiError] for the operation Chat Response; its
    message is stored in the error field and shown in the apology, and the
    stored artifact and the state of the panel stay as they were. *)
Theorem send_failure_reported (text : jsstring)
    (images : option (list Image)) (st : AppState) (conv : Conversation)
    (t : Trace) (err : Thrown) :
  activeConversation st = Some conv ->
  fst (generateResponse host remote text (conv_artifactContent conv)
         (conv_model conv)
         (persona_systemInstruction (activePersona persona0 otherPersonas st))
         images (snd (chooseTitle remote conv text images t))) = Threw err ->
  exists st' conv' cause,
    fst (handleSendMessage host remote persona0 otherPersonas text images st t)
    = Ok st'
    /\ activeConversation st' = Some conv'
    /\ err = ErrorObj (errorMessageFor host cause (js "Chat Response"))
    /\ error st' = Some (errorMessageFor host cause (js "Chat Response"))
    /\ messages conv'
       = messages conv
         ++ [userMessage text images;
             {| m_role := js "model";
                m_text := js "Sorry, something went wrong: "
                          ++ errorMessageFor host cause (js "Chat Response");
                m_images := None |}]
    /\ conv_artifactContent conv' = conv_artifactContent conv
    /\ isArtifactVisible conv' = isArtifactVisible conv.
Proof.
  intros Hconv Hfail.
  destruct (chooseTitle_ok conv text images t) as [newTitle Htitle].
  rewrite (handleSendMessage_run text images st t Hconv Htitle).
  pose proof (generateResponse_failure_named host remote text
                (conv_artifactContent conv) (conv_model conv)
                (persona_systemInstruction
                   (activePersona persona0 otherPersonas st)) images
                (snd (chooseTitle remote conv text images t))) as Hnamed.
  rewrite Hfail in Hnamed |- *. destruct Hnamed as [cause ->].
  cbn [fst].
  eexists. eexists. exists cause. split; [reflexivity |]. split.
  - rewrite activeConversation_setIsLoading.
    rewrite activeConversation_update by reflexivity.
    rewrite activeConversation_setError.
    rewrite activeConversation_update by reflexivity.
    rewrite activeConversation_setError, activeConversation_setIsLoading,
      Hconv.
    reflexivity.
  - cbn [messages conv_artifactContent isArtifactVisible error withMessages
           withTitleAndMessages setIsLoading setError updateActiveConversation
           thrownMessage].
    rewrite <- app_assoc. repeat split; reflexivity.
Qed.

End SendHandler.

Lemma send_appends_two_entries_witness :
  exists st' conv',
    fst (handleSendMessage sampleHost (sampleRemote formReply) samplePersona []
           (js "make a form") None sampleState []) = Ok st'
    /\ activeConversation st' = Some conv'
    /\ List.length (messages conv') = 2%nat
    /\ isLoading st' = false.
Proof.
  destruct (@send_appends_two_entries sampleHost (sampleRemote formReply)
              samplePersona [] (js "make a form") None sampleState
              sampleConversation [] eq_refl)
    as (st' & conv' & Hrun & Hactive & Hmessages & _ & _ & _ & Hloading & _).
  exists st', conv'. repeat split; try assumption.
  now rewrite Hmessages.
Defined.

Lemma send_frame_witness :
  exists st',
    fst (handleSendMessage sampleHost (sampleRemote formReply) samplePersona []
           (js "make a form") None sampleState []) = Ok st'
    /\ List.length (conversations st') = 1%nat
    /\ activeConversationId st' = Some (js "1").
Proof.
  destruct (@send_frame sampleHost (sampleRemote formReply) samplePersona []
              (js "make a form") None sampleState sampleConversation []
              eq_refl)
    as (st' & update & Hrun & Hlist & _ & Hactive).
  exists st'. repeat split; try assumption.
  now rewrite Hlist.
Defined.

Lemma send_title_and_calls_witness :
  exists st' added,
    handleSendMessage sampleHost (sampleRemote formReply) samplePersona []
      (js "make a form") None sampleState [] = (Ok st', [] ++ added)
    /\ List.length (filter isProviderCall added) = 1%nat.
Proof.
  destruct (@send_title_and_calls sampleHost (sampleRemote formReply)
              samplePersona [] (js "make a form") None sampleState
              sampleConversation [] eq_refl)
    as (st' & conv' & added & Hrun & _ & _ & Hcalls).
  exists st', added. split; [exact Hrun |].
  now rewrite Hcalls.
Defined.

Lemma send_artifact_and_panel_witness :
  exists st' conv',
    fst (handleSendMessage sampleHost (sampleRemote formReply) samplePersona []
           (js "make a form") None sampleState []) = Ok st'
    /\ activeConversation st' = Some conv'
    /\ conv_artifactContent conv' = js "<form>...</form>".
Proof.
  destruct (@send_artifact_and_panel sampleHost (sampleRemote formReply)
              samplePersona [] (js "make a form") None sampleState
              sampleConversation [] eq_refl)
    as (st' & conv' & Hrun & Hactive & _ & Hartifact).
  exists st', conv'. repeat split; try assumption.
  apply (Hartifact {| chatResponse := js "Done.";
                      artifactContent := js "<form>...</form>" |});
    vm_compute; reflexivity.
Defined.

Lemma send_failure_reported_witness :
  exists st',
    fst (handleSendMessage sampleHost downRemote samplePersona []
           (js "make a form") None sampleState []) = Ok st'
    /\ storedArtifact st' = Some (js "<p>old</p>").
Proof.
  destruct (@send_failure_reported sampleHost downRemote samplePersona []
              (js "make a form") None sampleState sampleConversation []
              (ErrorObj (js "The Chat Response failed: Failed to fetch"))
              eq_refl)
    as (st' & conv' & cause & Hrun & Hactive & _ & _ & _ & Hartifact & _).
  - vm_compute. reflexivity.
  - exists st'. split; [exact Hrun |].
    unfold storedArtifact. rewrite Hactive. cbn [option_map].
    now rewrite Hartifact.
Defined.

(* ================================================================= *)
(** ** The reasoning providers, continued *)

Section ReasoningKeys.

Context (host : Host) (remote : Remote) (cfg : Config).

(** The run of the reasoning client for every configuration of the keys. *)
Lemma generateDeepSeekResponse_any (prompt : jsstring)
    (history : list HistoryEntry) (extracted instruction : option jsstring)
    (t : Trace) :
  let messages := buildMessages prompt history extracted instruction in
  generateDeepSeekResponse remote cfg prompt history extracted instruction t
  = match truthyOpt (DEEPSEEK_API_KEY cfg) with
    | Some k1 =>
        let req1 := firstRequest cfg k1 messages in
        let reply1 := fetchDeepSeek remote t req1 in
        let t1 := afterFirst t req1 reply1 in
        match reply1 with
        | Ok r => if ok r then finish r t1
                  else viaFallback cfg remote messages t1
        | Threw _ => viaFallback cfg remote messages t1
        end
    | None => viaFallback cfg remote messages t
    end.
Proof.
  intros messages.
  unfold generateDeepSeekResponse, tryDeepSeek, orOpenRouter, openRouter,
    viaFallback.
  fold messages.
  destruct (truthyOpt (DEEPSEEK_API_KEY cfg)) as [k1 |].
  - fold (firstRequest cfg k1 messages). cbv zeta.
    set (req1 := firstRequest cfg k1 messages).
    unfold viaSecond, finish, afterFirst. exec.
    destruct (fetchDeepSeek remote t req1) as [r | e].
    + destruct (ok r); cbn [negb].
      * destruct (readCompletion r (t ++ [EvDeepSeek req1 (Ok r)]))
          as [[res | err] t']; reflexivity.
      * destruct (truthyOpt (OPENROUTER_API_KEY cfg)) as [k2 |];
          [| reflexivity].
        fold (secondRequest cfg k2 messages).
        destruct (fetchOpenRouter remote (t ++ [EvDeepSeek req1 (Ok r)])
                    (secondRequest cfg k2 messages))
          as [r2 | e2]; [| rewrite <- app_assoc; reflexivity].
        destruct (readCompletion r2 _) as [[res | err] t']; reflexivity.
    + replace ((t ++ [EvDeepSeek req1 (Threw e)])
               ++ [EvConsole LWarn (js "DeepSeek failed, trying OpenRouter:")])
        with (t ++ [EvDeepSeek req1 (Threw e);
                    EvConsole LWarn (js "DeepSeek failed, trying OpenRouter:")])
        by (rewrite <- app_assoc; reflexivity).
      destruct (truthyOpt (OPENROUTER_API_KEY cfg)) as [k2 |];
        [| reflexivity].
      fold (secondRequest cfg k2 messages).
      destruct (fetchOpenRouter remote _ (secondRequest cfg k2 messages))
        as [r2 | e2]; [| rewrite <- !app_assoc; reflexivity].
      destruct (readCompletion r2 _) as [[res | err] t']; reflexivity.
  - unfold viaSecond, finish. exec.
    destruct (truthyOpt (OPENROUTER_API_KEY cfg)) as [k2 |]; [| reflexivity].
    fold (secondRequest cfg k2 messages).
    destruct (fetchOpenRouter remote t (secondRequest cfg k2 messages))
      as [r2 | e2]; [| rewrite <- !app_assoc; reflexivity].
    destruct (readCompletion r2 _) as [[res | err] t']; reflexivity.
Qed.


Lemma no_response_message :
  chatFailed (ErrorObj (js "No response from DeepSeek API"))
  = ErrorObj (js "DeepSeek chat failed: No response from DeepSeek API").
Proof. vm_compute. reflexivity. Qed.

Lemma finish_artifact (response : FetchResponse) (t : Trace)
    (result : GenerationResult) :
  fst (finish response t) = Ok result -> artifactContent result = [].
Proof.
  unfold finish, readCompletion. exec.
  destruct (negb (ok response)); exec; [discriminate |].
  destruct (json response) as [body | e]; exec; [| discriminate].
  destruct (choices body) as [[| first rest] |]; exec; try discriminate.
  now intros [= <-].
Qed.

Lemma viaSecond_artifact (t1 : Trace) (req2 : FetchRequest)
    (reply2 : JsResult FetchResponse) (result : GenerationResult) :
  fst (viaSecond t1 req2 reply2) = Ok result -> artifactContent result = [].
Proof.
  unfold viaSecond. destruct reply2 as [r2 | e]; [| discriminate].
  apply finish_artifact.
Qed.

Lemma viaFallback_artifact (messages : list DeepSeekMessage) (t1 : Trace)
    (result : GenerationResult) :
  fst (viaFallback cfg remote messages t1) = Ok result ->
  artifactContent result = [].
Proof.
  unfold viaFallback.
  destruct (truthyOpt (OPENROUTER_API_KEY cfg)); [| discriminate].
  apply viaSecond_artifact.
Qed.

Lemma generateDeepSeekResponse_artifact (prompt : jsstring)
    (history : list HistoryEntry) (extracted instruction : option jsstring)
    (t : Trace) (result : GenerationResult) :
  fst (generateDeepSeekResponse remote cfg prompt history extracted
         instruction t) = Ok result ->
  artifactContent result = [].
Proof.
  rewrite generateDeepSeekResponse_any. cbv zeta.
  destruct (truthyOpt (DEEPSEEK_API_KEY cfg)) as [k1 |];
    [| apply viaFallback_artifact].
  destruct (fetchDeepSeek remote t _) as [r | e];
    [| apply viaFallback_artifact].
  destruct (ok r); [apply finish_artifact | apply viaFallback_artifact].
Qed.

(** X12. With no DeepSeek key, OpenRouter is the only provider called.  The
    client makes exactly one provider call, to OpenRouter, with the same
    messages; a usable completion is returned as the chat response, and a
    rejected call or a status outside 200-299 fails the turn with the error
    of the reasoning client. *)
Theorem openrouter_alone_without_deepseek_key (k2 : jsstring)
    (prompt : jsstring) (history : list HistoryEntry)
    (extracted instruction : option jsstring) (t : Trace) :
  truthyOpt (DEEPSEEK_API_KEY cfg) = None ->
  truthyOpt (OPENROUTER_API_KEY cfg) = Some k2 ->
  let req2 :=
    secondRequest cfg k2 (buildMessages prompt history extracted instruction) in
  let reply2 := fetchOpenRouter remote t req2 in
  let run :=
    generateDeepSeekResponse remote cfg prompt history extracted instruction t in
  (exists added,
      snd run = t ++ added
      /\ filter isProviderCall added = [EvOpenRouter req2 reply2])
  /\ (forall r body first rest,
         reply2 = Ok r -> ok r = true -> json r = Ok body ->
         choices body = Some (first :: rest) ->
         fst run = Ok {| chatResponse := first; artifactContent := [] |})
  /\ (failed reply2 = true -> AllProvidersExhausted (fst run)).
Proof.
  intros Hk1 Hk2 req2 reply2 run. subst run.
  rewrite generateDeepSeekResponse_any. cbv zeta.
  rewrite Hk1. unfold viaFallback. rewrite Hk2. fold req2. fold reply2.
  split; [| split].
  - destruct (viaSecond_trace t req2 reply2) as (logs & Htrace & Hlogs).
    exists (EvOpenRouter req2 reply2 :: logs). split; [exact Htrace |].
    cbn [filter isProviderCall isReasoningCall isDeepSeekCall
           isOpenRouterCall isGenerateContentCall orb].
    now rewrite (filter_console isProviderCall logs (fun _ _ => eq_refl) Hlogs).
  - intros r body first rest -> Hok Hbody Hchoices.
    apply (viaSecond_ok _ _ _ Hok Hbody Hchoices).
  - apply viaSecond_failed.
Qed.


(** X14. The reasoning client never produces an artifact.  Every result of
    [generateDeepSeekResponse] has the empty string as its artifact content,
    and so has every result of a text-only turn of [generateMixedResponse]
    whose prompt holds none of the intent keywords. *)
Theorem reasoning_result_has_no_artifact (prompt : jsstring)
    (history : list HistoryEntry) (extracted : option jsstring) :
  (forall instruction t result,
      fst (generateDeepSeekResponse remote cfg prompt history extracted
             instruction t) = Ok result ->
      artifactContent result = [])
  /\ (forall previousArtifact model instruction images t0 result,
         noImages images = true ->
         needsArtifact host prompt = false ->
         fst (generateMixedResponse host remote cfg prompt previousArtifact
                model instruction history extracted images t0) = Ok result ->
         artifactContent result = []).
Proof.
  split.
  - intros instruction t result. apply generateDeepSeekResponse_artifact.
  - intros previousArtifact model instruction images t0 result Hno Hneed.
    rewrite (mixed_text_only_run host remote cfg prompt previousArtifact model
               instruction history extracted images t0 Hno).
    cbv zeta. rewrite Hneed.
    destruct (fst (generateDeepSeekResponse remote cfg prompt history extracted
                     (Some instruction) _)) as [reasoning | e] eqn:Hds;
      cbn [fst]; [| discriminate].
    intros [= <-].
    apply (generateDeepSeekResponse_artifact _ _ _ _ _ Hds).
Qed.

(** X15. A successful status is final.  When the DeepSeek call answers with
    a status in 200-299, its body decides the turn and no other provider is
    called: a body without choices (the field absent, or the array empty)
    fails the turn with No response from DeepSeek API, and a body that cannot
    be read fails it with the error of the reader. *)
Theorem ok_status_is_final (k1 : jsstring) (prompt : jsstring)
    (history : list HistoryEntry) (extracted instruction : option jsstring)
    (t : Trace) (r : FetchResponse) :
  truthyOpt (DEEPSEEK_API_KEY cfg) = Some k1 ->
  let req1 :=
    firstRequest cfg k1 (buildMessages prompt history extracted instruction) in
  fetchDeepSeek remote t req1 = Ok r ->
  ok r = true ->
  let run :=
    generateDeepSeekResponse remote cfg prompt history extracted instruction t in
  (exists added,
      snd run = t ++ added
      /\ filter isProviderCall added = [EvDeepSeek req1 (Ok r)])
  /\ (forall body,
         json r = Ok body ->
         choices body = None \/ choices body = Some [] ->
         fst run
         = Threw (ErrorObj (js "DeepSeek chat failed: No response from DeepSeek API")))
  /\ (forall e, json r = Threw e -> fst run = Threw (chatFailed e)).
Proof.
  intros Hk1 req1 Hreply Hok run. subst run.
  rewrite generateDeepSeekResponse_any. cbv zeta.
  rewrite Hk1. fold req1. rewrite Hreply, Hok.
  split; [| split].
  - destruct (finish_trace r (afterFirst t req1 (Ok r))) as (logs & Htrace & Hlogs).
    exists (EvDeepSeek req1 (Ok r) :: logs).
    split.
    + rewrite Htrace. unfold afterFirst. now rewrite <- app_assoc.
    + cbn [filter isProviderCall isReasoningCall isDeepSeekCall
             isOpenRouterCall isGenerateContentCall orb].
      now rewrite (filter_console isProviderCall logs (fun _ _ => eq_refl)
                     Hlogs).
  - intros body Hbody Hchoices.
    rewrite <- no_response_message.
    unfold finish, readCompletion. rewrite Hok. exec. rewrite Hbody. exec.
    destruct Hchoices as [-> | ->]; reflexivity.
  - intros e Hbody.
    unfold finish, readCompletion. rewrite Hok. exec. rewrite Hbody.
    reflexivity.
Qed.

End ReasoningKeys.

Section Messages.




End Messages.

Section MixedCalls.

Context (host : Host) (remote : Remote) (cfg : Config).

(** X17. When a text-only turn calls the multimodal provider.  After the
    reasoning client has run, [generateMixedResponse] calls the multimodal
    provider exactly when the reasoning client returned a result and the
    prompt holds an intent keyword, and then once; a failure of the
    reasoning client is the failure of the turn, and without a keyword the
    outcome of the turn is the outcome of the reasoning client. *)
Theorem text_turn_multimodal_call
    (prompt previousArtifact model instruction : jsstring)
    (history : list HistoryEntry) (extracted : option jsstring)
    (images : option (list Image)) (t0 : Trace) :
  noImages images = true ->
  let t := t0 ++ [EvConsole LLog (js "Using reasoning model for chat: " ++ model)] in
  let ds :=
    generateDeepSeekResponse remote cfg prompt history extracted
      (Some instruction) t in
  let req := chatRequest prompt previousArtifact flashModel instruction images in
  let turn :=
    generateMixedResponse host remote cfg prompt previousArtifact model
      instruction history extracted images t0 in
  (exists added,
      snd turn = snd ds ++ added
      /\ filter isProviderCall added
         = if isOk (fst ds) && needsArtifact host prompt
           then [EvGenerateContent req (generateContent remote (snd ds) req)]
           else [])
  /\ (forall e, fst ds = Threw e -> fst turn = Threw e)
  /\ (needsArtifact host prompt = false -> turn = ds).
Proof.
  intros Hno t ds req turn. subst turn.
  rewrite (mixed_text_only_run host remote cfg prompt previousArtifact model
             instruction history extracted images t0 Hno).
  cbv zeta. fold t. fold ds.
  split; [| split].
  - destruct (fst ds) as [reasoning | e]; cbn [isOk andb].
    + destruct (needsArtifact host prompt).
      * destruct (generateResponse_trace host remote prompt previousArtifact
                    flashModel instruction images (snd ds))
          as (logs & Htrace & Hlogs).
        fold req in Htrace.
        destruct (fst (generateResponse host remote prompt previousArtifact
                         flashModel instruction images (snd ds)))
          as [geminiResult | e]; cbn [snd]; rewrite Htrace.
        -- exists (EvGenerateContent req (generateContent remote (snd ds) req)
                   :: logs).
           split; [reflexivity |].
           cbn [filter isProviderCall isReasoningCall isDeepSeekCall
                  isOpenRouterCall isGenerateContentCall orb].
           now rewrite (filter_console isProviderCall logs
                          (fun _ _ => eq_refl) Hlogs).
        -- exists (EvGenerateContent req (generateContent remote (snd ds) req)
                   :: logs
                   ++ [EvConsole LWarn
                         (js "Gemini artifact generation failed, using DeepSeek only:")]).
           split; [now rewrite <- app_assoc |].
           cbn [filter isProviderCall isReasoningCall isDeepSeekCall
                  isOpenRouterCall isGenerateContentCall orb].
           rewrite filter_app.
           now rewrite (filter_console isProviderCall logs
                          (fun _ _ => eq_refl) Hlogs).
      * exists []. split; [now rewrite app_nil_r | reflexivity].
    + exists []. split; [now rewrite app_nil_r | reflexivity].
  - intros e ->. reflexivity.
  - intros ->. destruct ds as [[reasoning | e] td]; reflexivity.
Qed.

End MixedCalls.

Lemma openrouter_alone_without_deepseek_key_witness :
  fst (generateDeepSeekResponse (sampleRemote formReply) openRouterOnly
         (js "hello") [] None None [])
  = Ok {| chatResponse := js "Here's a login form."; artifactContent := [] |}.
Proof.
  refine (proj1 (proj2 (@openrouter_alone_without_deepseek_key
                          (sampleRemote formReply) openRouterOnly
                          (js "sk-openrouter") (js "hello") [] None None []
                          eq_refl eq_refl))
            (completion (js "Here's a login form."))
            {| choices := Some [js "Here's a login form."];
               error_message := None |}
            (js "Here's a login form.") [] eq_refl eq_refl eq_refl eq_refl).
Defined.


Lemma ok_status_is_final_witness :
  fst (generateDeepSeekResponse emptyChoicesRemote bothKeys (js "hello") []
         None None [])
  = Threw (ErrorObj (js "DeepSeek chat failed: No response from DeepSeek API")).
Proof.
  refine (proj1 (proj2 (@ok_status_is_final emptyChoicesRemote bothKeys
                          (js "sk-deepseek") (js "hello") [] None None []
                          {| status := 200;
                             json := Ok {| choices := Some [];
                                           error_message := None |} |}
                          eq_refl eq_refl eq_refl))
            {| choices := Some []; error_message := None |} eq_refl
            (or_intror eq_refl)).
Defined.

Lemma text_turn_multimodal_call_witness :
  generateMixedResponse sampleHost (sampleRemote formReply) bothKeys
    (js "hello") (js "<p>old</p>") (js "deepseek") (js "Be brief.") [] None
    None []
  = generateDeepSeekResponse (sampleRemote formReply) bothKeys (js "hello")
      [] None (Some (js "Be brief."))
      [EvConsole LLog (js "Using reasoning model for chat: " ++ js "deepseek")].
Proof.
  refine (proj2 (proj2 (@text_turn_multimodal_call sampleHost
                          (sampleRemote formReply) bothKeys (js "hello")
                          (js "<p>old</p>") (js "deepseek") (js "Be brief.")
                          [] None None [] eq_refl)) _).
  vm_compute. reflexivity.
Defined.

(* ================================================================= *)
(** ** The OCR pipeline, continued *)

Section OcrBatch.

Lemma imageParts_inline (total index : nat) (images : list Image) :
  inlineImages (imageParts total index images) = images.
Proof.
  revert index. induction images as [| [mime payload] images IH]; intro index;
    [reflexivity |].
  cbn [imageParts inlineImages flat_map app mimeType data].
  f_equal. apply IH.
Qed.

Lemma imageParts_length (total index : nat) (images : list Image) :
  List.length (imageParts total index images) = (2 * List.length images)%nat.
Proof.
  revert index. induction images as [| image images IH]; intro index;
    [reflexivity |].
  cbn [imageParts List.length]. rewrite IH. lia.
Qed.

Lemma imageParts_nth (total index : nat) (images : list Image) (i : nat)
    (image : Image) :
  nth_error images i = Some image ->
  nth_error (imageParts total index images) (2 * i)
  = Some (imageLabel (index + i + 1) total)
  /\ nth_error (imageParts total index images) (2 * i + 1)
     = Some (InlineData (mimeType image) (data image)).
Proof.
  revert index i. induction images as [| first images IH]; intros index i Hi.
  - destruct i; discriminate Hi.
  - destruct i as [| i].
    + injection Hi as ->. cbn [imageParts Nat.mul nth_error Nat.add].
      rewrite Nat.add_0_r. split; reflexivity.
    + cbn [nth_error] in Hi. destruct (IH (S index) i Hi) as [Hlabel Hdata].
      replace (2 * S i)%nat with (S (S (2 * i))) by lia.
      replace (S (S (2 * i)) + 1)%nat with (S (S (2 * i + 1))) by lia.
      cbn [imageParts nth_error].
      replace (index + S i + 1)%nat with (S index + i + 1)%nat by lia.
      split; assumption.
Qed.

(** X18. The batch of the extraction call.  The request of the one
    extraction call opens with the extraction prompt and carries, for every
    image in the order given, a label IMAGE i OF n followed by the image
    itself: 1 + 2n parts in all, and the images read back from the parts are
    the images submitted. *)
Theorem ocrRequest_batch (images : list Image) :
  let parts := gr_parts (ocrRequest (List.length images) images) in
  List.length parts = (1 + 2 * List.length images)%nat
  /\ hd_error parts = Some (TextPart (ocrPrompt (List.length images)))
  /\ inlineImages parts = images
  /\ (forall i image,
         nth_error images i = Some image ->
         nth_error parts (1 + 2 * i)
         = Some (imageLabel (i + 1) (List.length images))
         /\ nth_error parts (2 + 2 * i)
            = Some (InlineData (mimeType image) (data image))).
Proof.
  cbv zeta. unfold ocrRequest. cbn [gr_parts].
  split; [| split; [| split]].
  - cbn [List.length]. now rewrite imageParts_length.
  - reflexivity.
  - cbn [inlineImages flat_map app]. apply imageParts_inline.
  - intros i image Hi.
    destruct (imageParts_nth (List.length images) 0 images i Hi)
      as [Hlabel Hdata].
    replace (1 + 2 * i)%nat with (S (2 * i)) by lia.
    replace (2 + 2 * i)%nat with (S (2 * i + 1)) by lia.
    cbn [nth_error]. split; assumption.
Qed.

End OcrBatch.

Section OcrOutcomes.

Context (host : Host) (remote : Remote) (browser : Browser).

Lemma extractionReply_settled (images : list Image) (t : Trace)
    (reply : JsResult GenResponse) :
  extractionReply remote browser images t = Settled reply ->
  generateContent remote (extractionTrace browser images t)
    (extractionRequest browser images) = reply.
Proof.
  unfold extractionReply.
  destruct (forallb (settles browser) images); [| discriminate].
  now intros [= ->].
Qed.

Lemma afterExtraction_calls (images : list Image) (t : Trace) :
  exists added,
    afterExtraction remote browser images t = t ++ added
    /\ filter isProviderCall added
       = [EvGenerateContent (extractionRequest browser images)
            (generateContent remote (extractionTrace browser images t)
               (extractionRequest browser images))].
Proof.
  unfold afterExtraction, extractionTrace.
  eexists. split; [rewrite <- !app_assoc; reflexivity |].
  rewrite !filter_app.
  rewrite (filter_console isProviderCall _ (fun _ _ => eq_refl)
             (preprocessWarning_console browser images)).
  reflexivity.
Qed.

(** X19. A reply that says there is no text ends the job at once.  When the
    extraction returns the sentence No text found. (in any letter case, with
    white space around it), the job returns the fixed no-text string; the
    extraction is the only provider call, so the Organize stage is not
    run. *)
Theorem no_text_found_ends_job (images : list Image) (t : Trace)
    (ocrResponse : GenResponse) (rawExtractedText : jsstring) :
  extractionReply remote browser images t = Ok ocrResponse ->
  truthyOpt (resp_text ocrResponse) = Some rawExtractedText ->
  toLowerCase host (trim rawExtractedText) = js "no text found." ->
  let job := performOcr host remote browser images t in
  fst job = Ok noText
  /\ exists added,
       snd job = t ++ added
       /\ filter isProviderCall added
          = [EvGenerateContent (extractionRequest browser images)
               (Ok ocrResponse)].
Proof.
  intros Hreply Htext Hfound job. subst job.
  rewrite (@performOcr_after_extraction host remote browser _ _ _ _ Hreply Htext).
  apply eqb_eq in Hfound. rewrite Hfound. cbn [fst snd].
  split; [reflexivity |].
  destruct (afterExtraction_calls images t) as (added & Htrace & Hcalls).
  exists added. split; [exact Htrace |].
  now rewrite Hcalls, (@extractionReply_settled _ _ _ Hreply).
Qed.

(** X20. A failed extraction fails the job after one call.  When the
    extraction call is rejected, the job fails with the error that
    [handleApiError] builds for the operation OCR Operation, and the
    extraction is the only provider call. *)
Theorem extraction_failure_fails_job (images : list Image) (t : Trace)
    (e : Thrown) :
  extractionReply remote browser images t = Threw e ->
  let job := performOcr host remote browser images t in
  fst job = Threw (ErrorObj (errorMessageFor host e (js "OCR Operation")))
  /\ exists added,
       snd job = t ++ added
       /\ filter isProviderCall added
          = [EvGenerateContent (extractionRequest browser images) (Threw e)].
Proof.
  intros Hreply job. subst job.
  rewrite performOcr_run, Hreply. cbn [fst snd].
  split; [reflexivity |].
  destruct (afterExtraction_calls images t) as (added & Htrace & Hcalls).
  eexists. split; [rewrite Htrace, <- app_assoc; reflexivity |].
  rewrite filter_app, Hcalls, (@extractionReply_settled _ _ _ Hreply).
  reflexivity.
Qed.

(** X21. The Organize stage cannot fail the job.  When the extraction
    returned text and the Organize call is rejected, or answers without
    text or with white space only, the job goes on with the trimmed raw
    extraction in place of the organized text: it returns that text, after
    the offline corrections when it has Ethiopic characters. *)
Theorem organize_failure_keeps_raw_text (images : list Image) (t0 : Trace)
    (ocrResponse : GenResponse) (rawExtractedText : jsstring) :
  extractionReply remote browser images t0 = Ok ocrResponse ->
  truthyOpt (resp_text ocrResponse) = Some rawExtractedText ->
  toLowerCase host (trim rawExtractedText) <> js "no text found." ->
  let trimmedText := trim rawExtractedText in
  unusable
    (generateContent remote
       (afterExtraction remote browser images t0 ++ stageLogs)
       (organizeRequest trimmedText (List.length images))) = true ->
  fst (performOcr host remote browser images t0)
  = Ok (if hasEthiopic trimmedText
        then applyOfflineAmharicCorrections trimmedText
        else trimmedText).
Proof.
  intros Hreply Htext Hfound trimmedText Hunusable.
  rewrite (@performOcr_after_extraction host remote browser _ _ _ _ Hreply Htext).
  apply eqb_neq in Hfound. rewrite Hfound.
  rewrite settling_fst, organizeAndCorrect_run. cbn [fst].
  fold trimmedText.
  assert (E : organizedText remote trimmedText (List.length images)
                (afterExtraction remote browser images t0 ++ stageLogs)
              = trimmedText).
  { unfold organizedText. unfold unusable in Hunusable.
    destruct (generateContent remote _ _) as [response | e]; [| reflexivity].
    destruct (resp_text response) as [text |]; [| reflexivity].
    apply negb_true_iff in Hunusable. now rewrite Hunusable. }
  now rewrite E.
Qed.




End OcrOutcomes.

Lemma no_text_found_ends_job_witness :
  fst (performOcr sampleHost (ocrRemote (Some (js " No Text Found. ")) None [])
         sampleBrowser [page (js "AAAA")] [])
  = Ok (js "No text could be extracted from the provided image(s).").
Proof.
  assert (H := @no_text_found_ends_job sampleHost
                 (ocrRemote (Some (js " No Text Found. ")) None [])
                 sampleBrowser [page (js "AAAA")] []
                 {| resp_text := Some (js " No Text Found. ");
                    resp_finishReason := None |}
                 (js " No Text Found. ")
                 ltac:(vm_compute; reflexivity) ltac:(vm_compute; reflexivity)
                 ltac:(vm_compute; reflexivity)).
  generalize (proj1 H). vm_compute. exact (fun x => x).
Defined.

Lemma extraction_failure_fails_job_witness :
  fst (performOcr sampleHost downRemote sampleBrowser [page (js "AAAA")] [])
  = Threw (ErrorObj (js "The OCR Operation failed: Failed to fetch")).
Proof.
  assert (H := @extraction_failure_fails_job sampleHost downRemote
                 sampleBrowser [page (js "AAAA")] [] unavailable
                 ltac:(vm_compute; reflexivity)).
  generalize (proj1 H). vm_compute. exact (fun x => x).
Defined.

Lemma organize_failure_keeps_raw_text_witness :
  fst (performOcr sampleHost (ocrRemote (Some (js "ሠላም")) None (js "  "))
         sampleBrowser [page (js "AAAA")] [])
  = Ok (js "ሰላም").
Proof.
  assert (H := @organize_failure_keeps_raw_text sampleHost
                 (ocrRemote (Some (js "ሠላም")) None (js "  ")) sampleBrowser
                 [page (js "AAAA")] []
                 {| resp_text := Some (js "ሠላም"); resp_finishReason := None |}
                 (js "ሠላም")
                 ltac:(vm_compute; reflexivity) ltac:(vm_compute; reflexivity)
                 ltac:(vm_compute; discriminate)
                 ltac:(vm_compute; reflexivity)).
  generalize H. vm_compute. exact (fun x => x).
Defined.

(* ================================================================= *)
(** ** Rounding of sizes, continued *)

Section Scaling.

Local Open Scope Q_scope.

Context (F : FloatModel).









End Scaling.

Section OcrSizes.

Context (browser : Browser).



End OcrSizes.


(* ================================================================= *)
(** ** The image normalizer, continued *)

Section NormalizerOutcomes.

Context (host : Host) (browser : Browser) (files : FileHost).

Lemma passThrough_output (file : File) (t t' : Trace) (image : Image) :
  passThrough files file t = (Ok image, t') ->
  truthy (mimeType image) = true /\ truthy (data image) = true.
Proof.
  unfold passThrough. exec.
  destruct (readAsDataURL files file) as [result | e]; [| discriminate].
  destruct (matchMime (nth 0 (split 44 result) [])) as [mime |];
    [| discriminate].
  destruct (truthy mime) eqn:Hmime; cbn [andb]; [| discriminate].
  destruct (truthy (base64Of result)) eqn:Hdata; [| discriminate].
  intros [= <- _]. cbn [mimeType data]. now split.
Qed.

Lemma processAndEncode_data (canvas : Canvas) (t t' : Trace) (image : Image) :
  processAndEncode browser canvas t = (Ok image, t') ->
  truthy (data image) = true.
Proof.
  unfold processAndEncode. exec.
  destruct (needsResize canvas
            && negb (getContext2d browser (cv_width (resized browser canvas))
                       (cv_height (resized browser canvas)))); exec;
    (destruct (truthy (base64Of (toDataURL browser (finalCanvas browser canvas)
                                   (js "image/jpeg")))) eqn:Hdata;
     [| discriminate]; intros [= <- _]; exact Hdata).
Qed.

(** X25. A normalized upload is never empty.  Whenever [fileToBase64]
    resolves, the media type and the payload of its result are both
    non-empty strings. *)
Theorem upload_is_never_empty (file : File) (t t' : Trace) (image : Image) :
  fileToBase64 host browser files file t = (Ok image, t') ->
  truthy (mimeType image) = true /\ truthy (data image) = true.
Proof.
  intros Hrun.
  destruct (fileToBase64_routes host browser files file t Hrun)
    as [(size & _ & _ & _ & Hpass) | (size & Hencode)].
  - apply (passThrough_output _ _ Hpass).
  - split.
    + now rewrite (@processAndEncode_output browser _ _ _ _ Hencode).
    + apply (processAndEncode_data _ _ Hencode).
Qed.

(** X26. Only a small JPEG keeps its encoding.  Whenever [fileToBase64]
    resolves for a TIFF (by declared type or by the ending of its name), or
    for an image that is larger than 1024 pixels on a side or not declared
    as image/jpeg, the result is a JPEG re-encoded from a canvas. *)
Theorem reencoded_unless_small_jpeg (file : File) (t t' : Trace)
    (image : Image) :
  fileToBase64 host browser files file t = (Ok image, t') ->
  isTiff host file = true
  \/ (exists size, loadFile files file = Some size
                   /\ isSmallJpeg file size = false) ->
  exists size,
    image = {| mimeType := js "image/jpeg";
               data := base64Of
                         (toDataURL browser
                            (finalCanvas browser (sourceCanvas file size))
                            (js "image/jpeg")) |}.
Proof.
  intros Hrun Hkind.
  destruct (fileToBase64_routes host browser files file t Hrun)
    as [(size & Htiff & Hload & Hsmall & _) | (size & Hencode)].
  - destruct Hkind as [HisTiff | (size' & Hload' & Hsmall')].
    + congruence.
    + rewrite Hload in Hload'. injection Hload' as <-. congruence.
  - exists size. apply (@processAndEncode_output browser _ _ _ _ Hencode).
Qed.

End NormalizerOutcomes.

Lemma upload_is_never_empty_witness :
  truthy (js "image/jpeg") = true /\ truthy (js "1024x512") = true.
Proof.
  apply (@upload_is_never_empty sampleHost taggingBrowser largeFiles scan [] []
           {| mimeType := js "image/jpeg"; data := js "1024x512" |}).
  vm_compute. reflexivity.
Defined.

Lemma reencoded_unless_small_jpeg_witness :
  exists size,
    {| mimeType := js "image/jpeg"; data := js "1024x512" |}
    = {| mimeType := js "image/jpeg";
         data := base64Of
                   (toDataURL taggingBrowser
                      (finalCanvas taggingBrowser (sourceCanvas scan size))
                      (js "image/jpeg")) |}.
Proof.
  apply (@reencoded_unless_small_jpeg sampleHost taggingBrowser largeFiles scan
           [] []).
  - vm_compute. reflexivity.
  - left. vm_compute. reflexivity.
Defined.
